(** * Inline diff review: change tracking and resolution

    A shallow embedding of [src/diffView/InlineDiff.ts] (class
    [InlineDiffViewManager]) and the properties of its change list: the
    builder of [openDiffView], the single and the bulk resolutions, the code
    lenses, and the handlers and commands the constructor registers.

    The class talks to two collaborators that are not part of the repository:
    the line differ ([diffLines] of the npm package [diff]) and the editor host
    (the [vscode] API).  The differ is a parameter of [openDiffView]; the part
    of the host that the class reads back (document text, dirty flag, active
    editor) is state of [World], and calls whose result is never read back are
    appended to an effect log. *)

From Stdlib Require Import ZArith Ascii String List Lia.
From stdpp Require Import base tactics option list sorting gmap strings.

Local Open Scope Z_scope.

(** ** Text and positions *)

(** Document text is a sequence of characters; [LF] ends a line. *)
Definition text := list ascii.

Definition LF : ascii := "010"%char.
Definition CR : ascii := "013"%char.

Definition isLF (c : ascii) : bool := Ascii.eqb c LF.

Definition txt (s : string) : text := list_ascii_of_string s.

(** [document.lineCount]: one more than the number of line feeds. *)
Fixpoint lineFeeds (s : text) : nat :=
  match s with
  | [] => 0%nat
  | c :: s' => if isLF c then S (lineFeeds s') else lineFeeds s'
  end.

Definition lineCount (s : text) : Z := Z.of_nat (S (lineFeeds s)).

(** [new vscode.Position(line, character)].  The host's constructor refuses
    negative numbers; the change lists the class builds and renumbers hold
    none ([wellFormed] below), and the model does not represent that
    refusal. *)
Record Position := { pos_line : Z; pos_character : Z }.

Definition isBefore (p q : Position) : bool :=
  (pos_line p <? pos_line q)
  || ((pos_line p =? pos_line q) && (pos_character p <? pos_character q)).

(** [new vscode.Range(start, end)]: the constructor orders its two ends. *)
Record Range := { range_start : Position; range_end : Position }.

Definition Range_new (a b : Position) : Range :=
  if isBefore b a then {| range_start := b; range_end := a |}
  else {| range_start := a; range_end := b |}.

Definition Range4 (l1 c1 l2 c2 : Z) : Range :=
  Range_new {| pos_line := l1; pos_character := c1 |}
            {| pos_line := l2; pos_character := c2 |}.

(** [document.offsetAt] after the host has validated the position: a line past
    the last one is clamped to the end of the document, a character past the
    end of its line to the end of that line. *)
Fixpoint offsetFrom (s : text) (l c : nat) {struct s} : nat :=
  match s with
  | [] => 0%nat
  | ch :: s' =>
      match l with
      | O =>
          match c with
          | O => 0%nat
          | S c' => if isLF ch then 0%nat else S (offsetFrom s' 0 c')
          end
      | S l' => S (offsetFrom s' (if isLF ch then l' else l) c)
      end
  end.

Definition offsetAt (s : text) (p : Position) : nat :=
  offsetFrom s (Z.to_nat (pos_line p)) (Z.to_nat (pos_character p)).

(** A text edit: replace what [Range] covers by the new text ([delete] is a
    replacement by the empty text). *)
Definition TextEdit : Type := Range * text.

(** Start offset, end offset and new text of an edit, resolved against the
    document as it is before the edit. *)
Definition Span : Type := nat * nat * text.

Definition spanStart (x : Span) : nat := x.1.1.
Definition spanEnd (x : Span) : nat := x.1.2.
Definition spanText (x : Span) : text := x.2.

Definition spanOf (doc : text) (e : TextEdit) : Span :=
  (offsetAt doc (range_start e.1), offsetAt doc (range_end e.1), e.2).

Definition spliceSpan (doc : text) (x : Span) : text :=
  take (spanStart x) doc ++ spanText x ++ drop (spanEnd x) doc.

(** [editBuilder.replace(range, value)] on one range. *)
Definition replaceRange (doc : text) (r : Range) (value : text) : text :=
  spliceSpan doc (spanOf doc (r, value)).

(** A [WorkspaceEdit] on one document.  All its ranges refer to the document
    before the edit; the host orders them from the bottom of the document
    upwards, refuses the edit when two of them overlap, and otherwise applies
    them in that order, so that no edit moves the offsets of a later one. *)
Fixpoint insertSpan (x : Span) (l : list Span) : list Span :=
  match l with
  | [] => [x]
  | y :: l' =>
      if (spanStart y <=? spanStart x)%nat then x :: l
      else y :: insertSpan x l'
  end.

Definition sortSpans (l : list Span) : list Span := foldr insertSpan [] l.

Fixpoint disjointSpans (l : list Span) : bool :=
  match l with
  | x :: l' =>
      match l' with
      | y :: _ => (spanEnd y <=? spanStart x)%nat && disjointSpans l'
      | [] => true
      end
  | [] => true
  end.

Definition applyTextEdits (doc : text) (edits : list TextEdit) : option text :=
  let spans := sortSpans (spanOf doc <$> edits) in
  if disjointSpans spans then Some (fold_left spliceSpan spans doc) else None.

(** ** The line differ's output *)

Module Diff.
(** A change object of [diffLines]: [{ value, added?, removed?, count? }]. *)
Record Part := {
  value : text;
  added : bool;
  removed : bool;
  count : Z;
}.

Inductive Kind := KRemoved | KAdded | KUnchanged.

(** The order in which [openDiffView] tests the two flags. *)
Definition kind (p : Part) : Kind :=
  if removed p then KRemoved else if added p then KAdded else KUnchanged.
End Diff.

(** ** Change records *)

(** [RemovedChange] and [AddedChange] carry the same three fields; the tag is
    the constructor of [Change]. *)
Record Hunk := { line : Z; count : Z; value : text }.

Definition RemovedChange := Hunk.
Definition AddedChange := Hunk.

Inductive Change :=
| Removed (h : RemovedChange)
| Added (h : AddedChange)
| Modified (removed : RemovedChange) (added : AddedChange).

Record FileChange := {
  originalContent : text;
  modifiedContent : text;
  changes : list Change;
}.

(** ** Building the change list ([openDiffView], the loop over the parts) *)

Record LoopState := {
  lineNumber : Z;
  combineContent : text;
  loopChanges : list Change;
  lastRemoved : option RemovedChange;
}.

Definition loopInit : LoopState :=
  {| lineNumber := 0; combineContent := []; loopChanges := [];
     lastRemoved := None |}.

Definition hunkOf (lineNumber : Z) (part : Diff.Part) : Hunk :=
  {| line := lineNumber; count := Diff.count part; value := Diff.value part |}.

(** One iteration.  [isLast] is the test
    [part === differences[differences.length - 1]]: the differ builds a fresh
    object per part, so the part is that object exactly at the last index. *)
Definition loopBody (isLast : bool) (st : LoopState) (part : Diff.Part)
  : LoopState :=
  let '(currentChange, lastRemoved') :=
    if Diff.removed part then
      let lr := hunkOf (lineNumber st) part in
      (if isLast then Some (Removed lr) else None, Some lr)
    else if Diff.added part then
      let added := hunkOf (lineNumber st) part in
      match lastRemoved st with
      | Some lr => (Some (Modified lr added), None)
      | None => (Some (Added added), None)
      end
    else
      match lastRemoved st with
      | Some lr => (Some (Removed lr), None)
      | None => (None, None)
      end in
  {| lineNumber := lineNumber st + Diff.count part;
     combineContent := combineContent st ++ Diff.value part;
     loopChanges := loopChanges st ++ option_list currentChange;
     lastRemoved := lastRemoved' |}.

Fixpoint loopParts (st : LoopState) (differences : list Diff.Part)
  : LoopState :=
  match differences with
  | [] => st
  | part :: rest =>
      loopParts (loopBody (match rest with [] => true | _ => false end) st part)
                rest
  end.

Definition buildChanges (differences : list Diff.Part) : list Change :=
  loopChanges (loopParts loopInit differences).

Definition buildContent (differences : list Diff.Part) : text :=
  combineContent (loopParts loopInit differences).

(** *** The merge rule in the words of the specification

    A removed segment immediately followed by an added segment is one
    [Modified] record; a removed segment that ends the sequence or is followed
    by an unchanged segment is a standalone [Removed]; an added segment not
    immediately preceded by a removed segment is a standalone [Added]; every
    segment occupies its [count] lines of the combined buffer.  [prevRemoved]
    tells whether the segment just before [parts] is a removed one.  The
    differ's segments are maximal runs, so a removed segment is never followed
    by another removed one; were it so, the first would be stashed as pending
    and replaced by the second before any record is made of it. *)
Fixpoint specRecords (lineNo : Z) (prevRemoved : bool) (parts : list Diff.Part)
  : list Change :=
  match parts with
  | [] => []
  | p :: rest =>
      (match Diff.kind p with
       | Diff.KRemoved =>
           match rest with
           | [] => [Removed (hunkOf lineNo p)]
           | q :: _ =>
               match Diff.kind q with
               | Diff.KAdded =>
                   [Modified (hunkOf lineNo p)
                             (hunkOf (lineNo + Diff.count p) q)]
               | Diff.KUnchanged => [Removed (hunkOf lineNo p)]
               | Diff.KRemoved => []
               end
           end
       | Diff.KAdded => if prevRemoved then [] else [Added (hunkOf lineNo p)]
       | Diff.KUnchanged => []
       end)
      ++ specRecords (lineNo + Diff.count p)
                     (match Diff.kind p with Diff.KRemoved => true | _ => false end)
                     rest
  end.

Definition totalCount (parts : list Diff.Part) : Z :=
  foldr (fun p n => Diff.count p + n) 0 parts.

(** ** The editor host *)

Record Uri := { scheme : string; path : string }.

Definition Uri_file (p : string) : Uri := {| scheme := "file"; path := p |}.

(** [uri.with({ scheme: 'untitled' })]. *)
Definition Uri_untitled (u : Uri) : Uri :=
  {| scheme := "untitled"; path := path u |}.

(** [uri.toString()]; only equality of these strings matters below. *)
Definition Uri_toString (u : Uri) : string := scheme u +:+ "://" +:+ path u.

Definition fsPath (u : Uri) : string := path u.

Inductive EndOfLine := EOL_LF | EOL_CRLF.

(** A text editor with its document: [editor.document.uri], [getText()],
    [isDirty], [eol], and the line of [editor.selection.active]. *)
Record TextEditor := {
  document_uri : Uri;
  document_text : text;
  document_isDirty : bool;
  document_eol : EndOfLine;
  selection_line : Z;
}.

Inductive DidChangeType := add | accept | reject.

Inductive DecorationType :=
| deletionDecorationType
| insertionDecorationType
| hoverDecorationType.

(** Calls to the host whose outcome the class does not read back. *)
Inductive Effect :=
| setContext_hasChanges (b : bool)
| onDidChange_fire (type : DidChangeType) (path : string)
| setDecorations (uri : Uri) (ty : DecorationType) (ranges : list Range)
| onDidChangeCodeLenses_fire
| document_save (uri : Uri)
| closeActiveEditor.

Record World := {
  files : gmap string text;
  activeTextEditor : option TextEditor;
  otherEditors : gmap string TextEditor;
  fileChangeMap : gmap string FileChange;
  effects : list Effect;
}.

(** How the host answers a request to edit a document: the edit is applied
    (the promise resolves to [true]), it is not applied (the promise resolves
    to [false]), or the call fails (the promise rejects). *)
Inductive EditOutcome := EditApplied | EditRefused | EditThrows.

Inductive Error := TypeError | HostError.

(** An asynchronous method either completes or fails; what it did to the world
    before failing stays done, so a failure carries the world it leaves. *)
Inductive Result (A : Type) :=
| Ok (a : A)
| Throw (e : Error) (w : World).
Arguments Ok {A} a.
Arguments Throw {A} e w.

Definition bindR {A B} (r : Result A) (k : A -> Result B) : Result B :=
  match r with
  | Ok a => k a
  | Throw e w => Throw e w
  end.

Notation "'await' x := r 'in' k" := (bindR r (fun x => k))
  (at level 10, x name, r at level 100, k at level 200).

Definition withActive (e : option TextEditor) (w : World) : World :=
  {| files := files w; activeTextEditor := e; otherEditors := otherEditors w;
     fileChangeMap := fileChangeMap w; effects := effects w |}.

Definition withStore (m : gmap string FileChange) (w : World) : World :=
  {| files := files w; activeTextEditor := activeTextEditor w;
     otherEditors := otherEditors w; fileChangeMap := m;
     effects := effects w |}.

Definition emit (es : list Effect) (w : World) : World :=
  {| files := files w; activeTextEditor := activeTextEditor w;
     otherEditors := otherEditors w; fileChangeMap := fileChangeMap w;
     effects := effects w ++ es |}.

Definition withText (t : text) (e : TextEditor) : TextEditor :=
  {| document_uri := document_uri e; document_text := t;
     document_isDirty := true; document_eol := document_eol e;
     selection_line := selection_line e |}.

Definition markSaved (e : TextEditor) : TextEditor :=
  {| document_uri := document_uri e; document_text := document_text e;
     document_isDirty := false; document_eol := document_eol e;
     selection_line := selection_line e |}.

(** [editor.edit(edit => edit.replace(range, value))] on the active editor.
    An applied edit changes the text and leaves the document dirty. *)
Definition editorEdit (host : EditOutcome) (range : Range) (value : text)
    (w : World) : Result World :=
  match host with
  | EditThrows => Throw HostError w
  | EditRefused => Ok w
  | EditApplied =>
      Ok (withActive
            ((fun e => withText (replaceRange (document_text e) range value) e)
               <$> activeTextEditor w) w)
  end.

(** [vscode.workspace.applyEdit(edit)] where every entry of [edit] is for the
    document of the active editor.  An edit without entries changes nothing;
    one with overlapping ranges is not applied. *)
Definition applyEdit (host : EditOutcome) (edits : list TextEdit) (w : World)
  : Result World :=
  match host with
  | EditThrows => Throw HostError w
  | EditRefused => Ok w
  | EditApplied =>
      match activeTextEditor w, edits with
      | Some e, _ :: _ =>
          match applyTextEdits (document_text e) edits with
          | None => Ok w
          | Some t => Ok (withActive (Some (withText t e)) w)
          end
      | _, _ => Ok w
      end
  end.

(** [document.save()]: the text goes to the document's path; the document is
    clean afterwards. *)
Definition documentSave (w : World) : World :=
  match activeTextEditor w with
  | None => w
  | Some e =>
      emit [document_save (document_uri e)]
        {| files := <[path (document_uri e) := document_text e]> (files w);
           activeTextEditor := Some (markSaved e);
           otherEditors := otherEditors w;
           fileChangeMap := fileChangeMap w;
           effects := effects w |}
  end.

(** [workbench.action.closeActiveEditor]. *)
Definition closeEditor (w : World) : World :=
  emit [closeActiveEditor] (withActive None w).

(** [vscode.window.showTextDocument(uri)]: the editor of that document becomes
    the active one; a document that is not open is read from disk (its line
    ends are taken to be line feeds), a new untitled document is empty. *)
Definition openDocument (uri : Uri) (w : World) : Result TextEditor :=
  match otherEditors w !! Uri_toString uri with
  | Some e => Ok e
  | None =>
      if String.eqb (scheme uri) "untitled" then
        Ok {| document_uri := uri; document_text := [];
              document_isDirty := true; document_eol := EOL_LF;
              selection_line := 0 |}
      else
        match files w !! path uri with
        | Some t =>
            Ok {| document_uri := uri; document_text := t;
                  document_isDirty := false; document_eol := EOL_LF;
                  selection_line := 0 |}
        | None => Throw HostError w
        end
  end.

Definition stash (e : option TextEditor) (m : gmap string TextEditor)
  : gmap string TextEditor :=
  match e with
  | Some e => <[Uri_toString (document_uri e) := e]> m
  | None => m
  end.

Definition showTextDocument (uri : Uri) (w : World)
  : Result (TextEditor * World) :=
  match activeTextEditor w with
  | Some e =>
      if String.eqb (Uri_toString (document_uri e)) (Uri_toString uri)
      then Ok (e, w)
      else
        await e' := openDocument uri w in
        Ok (e', {| files := files w; activeTextEditor := Some e';
                   otherEditors :=
                     stash (Some e) (delete (Uri_toString uri) (otherEditors w));
                   fileChangeMap := fileChangeMap w; effects := effects w |})
  | None =>
      await e' := openDocument uri w in
      Ok (e', {| files := files w; activeTextEditor := Some e';
                 otherEditors := delete (Uri_toString uri) (otherEditors w);
                 fileChangeMap := fileChangeMap w; effects := effects w |})
  end.

(** ** Resolution of one change *)

Definition shiftHunk (n : Z) (h : Hunk) : Hunk :=
  {| line := line h - n; count := count h; value := value h |}.

(** The body of the renumbering loop of [drawChanges]. *)
Definition shiftChange (n : Z) (change : Change) : Change :=
  match change with
  | Modified removed added => Modified (shiftHunk n removed) (shiftHunk n added)
  | Removed h => Removed (shiftHunk n h)
  | Added h => Added (shiftHunk n h)
  end.

(** [for (i = index + 1; i < changes.length; i++) ...] then
    [changes.splice(index, 1)], for an [index] inside the list. *)
Definition renumber (index : nat) (n : Z) (changes : list Change)
  : list Change :=
  delete index
    (imap (fun i change =>
             if (index <? i)%nat then shiftChange n change else change)
          changes).

Definition wholeLines (h : Hunk) : Range :=
  Range_new {| pos_line := line h; pos_character := 0 |}
            {| pos_line := line h + count h - 1; pos_character := 0 |}.

Definition deletions (changes : list Change) : list Range :=
  flat_map (fun change =>
              match change with
              | Removed h => [wholeLines h]
              | Added _ => []
              | Modified removed _ => [wholeLines removed]
              end) changes.

Definition insertions (changes : list Change) : list Range :=
  flat_map (fun change =>
              match change with
              | Removed _ => []
              | Added h => [wholeLines h]
              | Modified _ added => [wholeLines added]
              end) changes.

Definition drawEffects (uri : Uri) (changes : list Change) : list Effect :=
  [ setDecorations uri hoverDecorationType
      (match changes with [] => [] | _ => [Range4 0 0 0 0] end);
    setDecorations uri deletionDecorationType (deletions changes);
    setDecorations uri insertionDecorationType (insertions changes);
    onDidChangeCodeLenses_fire ].

Definition withChanges (cs : list Change) (fc : FileChange) : FileChange :=
  {| originalContent := originalContent fc;
     modifiedContent := modifiedContent fc; changes := cs |}.

(** [drawChanges(editor, fileChange, index, count)].  [fileChange] is the
    object stored under [key]; the loop and the [splice] mutate it in place,
    so the stored changeset changes with it. *)
Definition drawChanges (editor : TextEditor) (key : string)
    (fileChange : FileChange) (spliced : option (nat * Z)) (w : World)
  : FileChange * World :=
  let fileChange' :=
    match spliced with
    | Some (index, n) =>
        withChanges (renumber index n (changes fileChange)) fileChange
    | None => fileChange
    end in
  (fileChange',
   emit (drawEffects (document_uri editor) (changes fileChange'))
     (withStore (<[key := fileChange']> (fileChangeMap w)) w)).

Definition hunkHit (ln : Z) (h : Hunk) : bool :=
  (line h <=? ln) && (ln <? line h + count h).

Definition changeHit (ln : Z) (change : Change) : bool :=
  match change with
  | Added h | Removed h => hunkHit ln h
  | Modified removed added =>
      (line removed <=? ln) && (ln <? line removed + count removed + count added)
  end.

Fixpoint getChangeIndexFrom (i : Z) (ln : Z) (changes : list Change) : Z :=
  match changes with
  | [] => -1
  | change :: rest =>
      if changeHit ln change then i else getChangeIndexFrom (i + 1) ln rest
  end.

Definition getChangeIndex (editor : TextEditor) (fileChange : FileChange) : Z :=
  getChangeIndexFrom 0 (selection_line editor) (changes fileChange).

(** [changes[index]] for a number [index]: [undefined] outside the list. *)
Definition atIndex (changes : list Change) (index : Z) : option (nat * Change) :=
  if index <? 0 then None
  else (fun c => (Z.to_nat index, c)) <$> changes !! Z.to_nat index.

(** The index a single resolution works on: the explicit one, or the one under
    the cursor; [None] is the early [return] on [-1]. *)
Definition targetIndex (i : option Z) (editor : TextEditor)
    (fileChange : FileChange) : option Z :=
  match i with
  | Some n => Some n
  | None =>
      let index := getChangeIndex editor fileChange in
      if index =? -1 then None else Some index
  end.

Definition blockRange (first last : Z) : Range :=
  Range_new {| pos_line := first; pos_character := 0 |}
            {| pos_line := last; pos_character := 0 |}.

(** Range (when one is assigned), replacement text and [count] chosen by
    [acceptChange]. *)
Definition acceptPlan (change : Change) : option Range * text * Z :=
  match change with
  | Removed h => (Some (blockRange (line h) (line h + count h)), [], count h)
  | Added _ => (None, [], 0)
  | Modified removed added =>
      (Some (blockRange (line removed) (line added + count added)),
       value added, count removed)
  end.

(** The same for [rejectChange]. *)
Definition rejectPlan (change : Change) : option Range * text * Z :=
  match change with
  | Removed _ => (None, [], 0)
  | Added h => (Some (blockRange (line h) (line h + count h)), [], count h)
  | Modified removed added =>
      (Some (blockRange (line removed) (line added + count added)),
       value removed, count added)
  end.

(** [if (count !== 0) await editor.edit(...)]. *)
Definition planEdit (host : EditOutcome) (plan : option Range * text * Z)
    (w : World) : Result World :=
  match plan with
  | (Some range, value, n) =>
      if n =? 0 then Ok w else editorEdit host range value w
  | (None, _, _) => Ok w
  end.

Definition saveDocument (w : World) : World :=
  match activeTextEditor w with
  | Some editor =>
      if document_isDirty editor then
        documentSave
          (emit [setDecorations (document_uri editor) deletionDecorationType [];
                 setDecorations (document_uri editor) insertionDecorationType []]
                w)
      else w
  | None => w
  end.

(** [acceptChange] from the point where [change = fileChange.changes[index]]
    is known to be a record. *)
Definition acceptAt (host : EditOutcome) (editor : TextEditor) (uri : string)
    (fileChange : FileChange) (index : nat) (change : Change) (w : World)
  : Result World :=
  let plan := acceptPlan change in
  await w1 := planEdit host plan w in
  let '(fileChange', w2) :=
    drawChanges editor uri fileChange (Some (index, plan.2)) w1 in
  match changes fileChange' with
  | [] =>
      Ok (saveDocument
            (emit [setContext_hasChanges false;
                   onDidChange_fire accept (fsPath (document_uri editor))]
               (withStore (delete uri (fileChangeMap w2)) w2)))
  | _ => Ok w2
  end.

Definition acceptChange (host : EditOutcome) (uri : string) (i : option Z)
    (w : World) : Result World :=
  match activeTextEditor w with
  | None => Ok w
  | Some editor =>
      if negb (String.eqb (Uri_toString (document_uri editor)) uri) then Ok w
      else
        match fileChangeMap w !! uri with
        | None => Ok w
        | Some fileChange =>
            match targetIndex i editor fileChange with
            | None => Ok w
            | Some index =>
                match atIndex (changes fileChange) index with
                | None => Throw TypeError w
                | Some (index, change) =>
                    acceptAt host editor uri fileChange index change w
                end
            end
        end
  end.

(** [rejectChange] from the same point. *)
Definition rejectAt (host : EditOutcome) (editor : TextEditor) (uri : string)
    (fileChange : FileChange) (index : nat) (change : Change) (w : World)
  : Result World :=
  let plan := rejectPlan change in
  await w1 := planEdit host plan w in
  let '(fileChange', w2) :=
    drawChanges editor uri fileChange (Some (index, plan.2)) w1 in
  match changes fileChange' with
  | [] =>
      let w3 :=
        emit [setContext_hasChanges false;
              onDidChange_fire reject (fsPath (document_uri editor))]
             (withStore (delete uri (fileChangeMap w2)) w2) in
      if String.eqb (scheme (document_uri editor)) "file"
      then Ok (saveDocument w3)
      else Ok (closeEditor w3)
  | _ => Ok w2
  end.

Definition rejectChange (host : EditOutcome) (uri : string) (i : option Z)
    (w : World) : Result World :=
  match activeTextEditor w with
  | None => Ok w
  | Some editor =>
      if negb (String.eqb (Uri_toString (document_uri editor)) uri) then Ok w
      else
        match fileChangeMap w !! uri with
        | None => Ok w
        | Some fileChange =>
            match targetIndex i editor fileChange with
            | None => Ok w
            | Some index =>
                match atIndex (changes fileChange) index with
                | None => Throw TypeError w
                | Some (index, change) =>
                    rejectAt host editor uri fileChange index change w
                end
            end
        end
  end.

(** ** Resolution of all changes *)

(** The deletions [acceptAllChanges] puts into its [WorkspaceEdit], in the
    order of its loop: from the last change to the first. *)
Definition acceptDelete (change : Change) : list TextEdit :=
  match change with
  | Added _ => []
  | Removed h => [(Range4 (line h) 0 (line h + count h) 0, [])]
  | Modified removed _ =>
      [(Range4 (line removed) 0 (line removed + count removed) 0, [])]
  end.

Definition rejectDelete (change : Change) : list TextEdit :=
  match change with
  | Added h => [(Range4 (line h) 0 (line h + count h) 0, [])]
  | Removed _ => []
  | Modified _ added =>
      [(Range4 (line added) 0 (line added + count added) 0, [])]
  end.

Definition clearDecorations (uri : Uri) : list Effect :=
  [ setDecorations uri deletionDecorationType [];
    setDecorations uri insertionDecorationType [];
    setDecorations uri hoverDecorationType [] ].

Definition acceptAllChanges (host : EditOutcome) (uri : Uri) (w : World)
  : Result World :=
  match fileChangeMap w !! Uri_toString uri with
  | None => Ok w
  | Some fileChange =>
      await shown := showTextDocument uri w in
      let editor := shown.1 in
      let edit := flat_map acceptDelete (reverse (changes fileChange)) in
      await w1 := applyEdit host edit shown.2 in
      let w2 :=
        emit ([onDidChange_fire accept (fsPath uri)]
                ++ clearDecorations (document_uri editor)
                ++ [setContext_hasChanges false])
             (withStore (delete (Uri_toString uri) (fileChangeMap w1)) w1) in
      Ok (emit [onDidChangeCodeLenses_fire] (saveDocument w2))
  end.

Definition rejectAllChanges (host : EditOutcome) (uri : Uri) (w : World)
  : Result World :=
  match fileChangeMap w !! Uri_toString uri with
  | None => Ok w
  | Some fileChange =>
      await shown := showTextDocument uri w in
      let editor := shown.1 in
      let edit := flat_map rejectDelete (reverse (changes fileChange)) in
      await w1 := applyEdit host edit shown.2 in
      let w2 :=
        emit ([onDidChange_fire reject (fsPath uri)]
                ++ clearDecorations (document_uri editor)
                ++ [setContext_hasChanges false])
             (withStore (delete (Uri_toString uri) (fileChangeMap w1)) w1) in
      let w3 :=
        if String.eqb (scheme (document_uri editor)) "file"
        then saveDocument w2 else closeEditor w2 in
      Ok (emit [onDidChangeCodeLenses_fire] w3)
  end.

(** ** Applying a diff ([openDiffView]) *)

Definition isCR (c : ascii) : bool := Ascii.eqb c CR.

(** [content.replace(/\r?\n/g, lineEol)]. *)
Fixpoint normalizeEol (lineEol : text) (s : text) : text :=
  match s with
  | [] => []
  | c :: s' =>
      if isLF c then lineEol ++ normalizeEol lineEol s'
      else
        match s' with
        | c' :: s'' =>
            if isCR c && isLF c' then lineEol ++ normalizeEol lineEol s''
            else c :: normalizeEol lineEol s'
        | [] => [c]
        end
  end.

Definition lineEolOf (e : EndOfLine) : text :=
  match e with
  | EOL_CRLF => [CR; LF]
  | EOL_LF => [LF]
  end.

Record DiffData := { data_path : string; data_content : text }.

(** The document a diff is shown in: the file at [data.path] when
    [workspace.fs.stat] finds it, an untitled document for that path
    otherwise. *)
Definition diffUri (data : DiffData) (w : World) : Uri :=
  match files w !! data_path data with
  | Some _ => Uri_file (data_path data)
  | None => Uri_untitled (Uri_file (data_path data))
  end.

(** [diffLines] is the differ the extension is linked with. *)
Definition openDiffView (diffLines : text -> text -> list Diff.Part)
    (host : EditOutcome) (data : DiffData) (w : World) : Result World :=
  let uri := diffUri data w in
  await shown := showTextDocument uri w in
  let editor := shown.1 in
  let lineEol := lineEolOf (document_eol editor) in
  let modifiedContent := normalizeEol lineEol (data_content data) in
  let currentContent := document_text editor in
  let differences := diffLines currentContent modifiedContent in
  let st := loopParts loopInit differences in
  let range :=
    Range_new {| pos_line := 0; pos_character := 0 |}
              {| pos_line := lineCount (document_text editor);
                 pos_character := 0 |} in
  await w1 := applyEdit host [(range, combineContent st)] shown.2 in
  let fileChange :=
    {| originalContent := currentContent;
       modifiedContent := modifiedContent;
       changes := loopChanges st |} in
  let w2 :=
    emit [onDidChange_fire add (fsPath uri); setContext_hasChanges true]
         (withStore (<[Uri_toString uri := fileChange]> (fileChangeMap w1)) w1) in
  Ok (drawChanges editor (Uri_toString uri) fileChange None w2).2.

(** ** Observations and invariants used in the statements *)

(** The change list stored for a document; a document without a changeset has
    none to show. *)
Definition changesOf (w : World) (key : string) : list Change :=
  match fileChangeMap w !! key with
  | Some fileChange => changes fileChange
  | None => []
  end.

(** Text of the document in the active editor. *)
Definition activeText (w : World) : option text :=
  document_text <$> activeTextEditor w.

(** Primary line coordinate of a record, and the line after its span. *)
Definition primary (change : Change) : Z :=
  match change with
  | Removed h | Added h => line h
  | Modified removed _ => line removed
  end.

Definition pastEnd (change : Change) : Z :=
  match change with
  | Removed h | Added h => line h + count h
  | Modified removed added => line removed + count removed + count added
  end.

(** Net number of lines that accepting, respectively rejecting, a record takes
    out of the document, as the specification tabulates it. *)
Definition acceptNet (change : Change) : Z :=
  match change with
  | Removed h => count h
  | Added _ => 0
  | Modified removed _ => count removed
  end.

Definition rejectNet (change : Change) : Z :=
  match change with
  | Removed _ => 0
  | Added h => count h
  | Modified _ added => count added
  end.

(** The store once the record list of [fileChange] has become [cs]: the entry
    is dropped when no record is left. *)
Definition storeAfter (key : string) (fileChange : FileChange)
    (cs : list Change) (m : gmap string FileChange) : gmap string FileChange :=
  match cs with
  | [] => delete key m
  | _ => <[key := withChanges cs fileChange]> m
  end.

(** What the pending removed hunk turns into at the next segment. *)
Definition flushPending (pending : option RemovedChange) (lineNo : Z)
    (parts : list Diff.Part) : list Change :=
  match pending, parts with
  | Some lr, q :: _ =>
      match Diff.kind q with
      | Diff.KAdded => [Modified lr (hunkOf lineNo q)]
      | Diff.KUnchanged => [Removed lr]
      | Diff.KRemoved => []
      end
  | _, _ => []
  end.

Definition hasPending (st : LoopState) : bool :=
  match lastRemoved st with Some _ => true | None => false end.

(** A record lies in the buffer: no line number is negative, every hunk of it
    spans at least one line, and the added hunk of a [Modified] record starts
    where its removed hunk ends. *)
Definition wellShaped (change : Change) : Prop :=
  match change with
  | Removed h | Added h => 0 <= line h /\ 0 < count h
  | Modified removed added =>
      0 <= line removed /\ 0 < count removed /\ 0 < count added
      /\ line added = line removed + count removed
  end.

(** [d] comes after [c]: a strictly greater primary coordinate, and a start at
    or after the line that follows the span of [c]. *)
Definition precedes (c d : Change) : Prop :=
  primary c < primary d /\ pastEnd c <= primary d.

(** The ordering invariant: strictly increasing primary coordinates and spans
    that do not overlap. *)
Definition ordered (cs : list Change) : Prop := StronglySorted precedes cs.

Definition wellFormed (cs : list Change) : Prop :=
  Forall wellShaped cs /\ ordered cs.

(** Records laid out one after the other from line [lo] on. *)
Fixpoint chained (lo : Z) (cs : list Change) : Prop :=
  match cs with
  | [] => True
  | c :: cs' => lo <= primary c /\ wellShaped c /\ chained (pastEnd c) cs'
  end.

(** ** The commands of the extension as a state machine *)

Inductive Command :=
| OpenDiffView (diffLines : text -> text -> list Diff.Part)
    (host : EditOutcome) (data : DiffData)
| AcceptChange (host : EditOutcome) (uri : string) (i : option Z)
| RejectChange (host : EditOutcome) (uri : string) (i : option Z)
| AcceptAllChanges (host : EditOutcome) (uri : Uri)
| RejectAllChanges (host : EditOutcome) (uri : Uri).

Definition run (cmd : Command) (w : World) : Result World :=
  match cmd with
  | OpenDiffView diffLines host data => openDiffView diffLines host data w
  | AcceptChange host uri i => acceptChange host uri i w
  | RejectChange host uri i => rejectChange host uri i w
  | AcceptAllChanges host uri => acceptAllChanges host uri w
  | RejectAllChanges host uri => rejectAllChanges host uri w
  end.

(** The world a command leaves, whether it completed or failed. *)
Definition after (r : Result World) : World :=
  match r with
  | Ok w => w
  | Throw _ w => w
  end.

Definition step (w : World) (cmd : Command) : World := after (run cmd w).

(** ** What is assumed of the line differ *)

(** Every added and every removed part spans at least one line (an unchanged
    part may be empty: the diff of two empty texts is one such part). *)
Definition positivePart (p : Diff.Part) : Prop :=
  match Diff.kind p with
  | Diff.KUnchanged => 0 <= Diff.count p
  | _ => 0 < Diff.count p
  end.

Definition positiveParts (parts : list Diff.Part) : Prop :=
  Forall positivePart parts.


(** A text that is empty or ends in a line feed. *)
Fixpoint endsWithLF (s : text) : bool :=
  match s with
  | [] => true
  | [c] => isLF c
  | _ :: s' => endsWithLF s'
  end.

(** A text made of [n] lines, each ended by a line feed. *)
Definition wholeLinesText (n : Z) (s : text) : Prop :=
  Z.of_nat (lineFeeds s) = n /\ endsWithLF s = true.

(** The two texts a sequence of parts is a diff of. *)
Definition originalOf (parts : list Diff.Part) : text :=
  flat_map (fun p => match Diff.kind p with
                     | Diff.KAdded => []
                     | _ => Diff.value p
                     end) parts.

Definition modifiedOf (parts : list Diff.Part) : text :=
  flat_map (fun p => match Diff.kind p with
                     | Diff.KRemoved => []
                     | _ => Diff.value p
                     end) parts.

Fixpoint noRemovedTwice (parts : list Diff.Part) : Prop :=
  match parts with
  | p :: rest =>
      match rest with
      | q :: _ =>
          ~ (Diff.kind p = Diff.KRemoved /\ Diff.kind q = Diff.KRemoved)
      | [] => True
      end /\ noRemovedTwice rest
  | [] => True
  end.

(** [parts] is a line diff of [original] and [modified] in which every part
    consists of whole lines: leaving out the added parts gives the original,
    leaving out the removed parts gives the modified text, the [count] of a
    part is its number of lines, and two removed parts never follow each
    other (parts are maximal runs). *)
Definition lineDiffOf (original modified : text) (parts : list Diff.Part)
  : Prop :=
  originalOf parts = original
  /\ modifiedOf parts = modified
  /\ Forall (fun p => wholeLinesText (Diff.count p) (Diff.value p)) parts
  /\ noRemovedTwice parts.

(** *** A reference differ

    Stands in for [diffLines] where a concrete differ is needed.  Like
    [diffLines] it cuts the texts into lines that keep their line feed (the
    last line may have none); it reports the common leading and trailing lines
    as unchanged and what lies between as one removed and one added part,
    which is the result of [diffLines] for texts that differ in one block
    whose old and new lines have nothing in common. *)
Fixpoint tokenize (s : text) : list text :=
  match s with
  | [] => []
  | c :: s' =>
      if isLF c then [c] :: tokenize s'
      else
        match tokenize s' with
        | [] => [[c]]
        | t :: ts => (c :: t) :: ts
        end
  end.

Fixpoint text_eqb (a b : text) : bool :=
  match a, b with
  | [], [] => true
  | x :: a', y :: b' => Ascii.eqb x y && text_eqb a' b'
  | _, _ => false
  end.

Fixpoint commonPrefix (a b : list text) : list text * (list text * list text) :=
  match a, b with
  | x :: a', y :: b' =>
      if text_eqb x y then
        let r := commonPrefix a' b' in (x :: r.1, r.2)
      else ([], (a, b))
  | _, _ => ([], (a, b))
  end.

Definition partOf (isAdded isRemoved : bool) (tokens : list text)
  : list Diff.Part :=
  match tokens with
  | [] => []
  | _ =>
      [{| Diff.value := concat tokens; Diff.added := isAdded;
          Diff.removed := isRemoved;
          Diff.count := Z.of_nat (length tokens) |}]
  end.

Definition blockDiff (original modified : text) : list Diff.Part :=
  let front := commonPrefix (tokenize original) (tokenize modified) in
  let back := commonPrefix (reverse front.2.1) (reverse front.2.2) in
  partOf false false front.1
  ++ partOf false true (reverse back.2.1)
  ++ partOf true false (reverse back.2.2)
  ++ partOf false false (reverse back.1).


(** ** Sample data *)

Definition ln (s : string) : text := txt s ++ [LF].

Definition sampleUri : Uri := Uri_file "/work/a.txt".

Definition editorOf (uri : Uri) (t : text) : TextEditor :=
  {| document_uri := uri; document_text := t; document_isDirty := true;
     document_eol := EOL_LF; selection_line := 0 |}.

Definition worldOf (uri : Uri) (t : text) (cs : list Change) : World :=
  {| files := {[ path uri := t ]};
     activeTextEditor := Some (editorOf uri t);
     otherEditors := ∅;
     fileChangeMap :=
       {[ Uri_toString uri :=
            {| originalContent := t; modifiedContent := t; changes := cs |} ]};
     effects := [] |}.

(** Records at lines 2, 8 and 15 of a buffer of twenty lines. *)
Definition threeChanges : list Change :=
  [ Removed {| line := 2; count := 3; value := ln "x" ++ ln "x" ++ ln "x" |};
    Added {| line := 8; count := 2; value := ln "x" ++ ln "x" |};
    Removed {| line := 15; count := 1; value := ln "x" |} ].

Definition threeChangesWorld : World :=
  worldOf sampleUri (concat (replicate 20 (ln "x"))) threeChanges.

(** A document of three lines without a final line feed, and a proposal that
    changes its last line. *)
Definition draftText : text := ln "A" ++ ln "B" ++ txt "C".
Definition draftProposal : text := ln "A" ++ ln "B" ++ txt "D".

(** The same with every line ended by a line feed. *)
Definition cleanText : text := ln "A" ++ ln "B" ++ ln "C".
Definition cleanProposal : text := ln "A" ++ ln "X" ++ ln "C".

(** A world in which [t] is open in the active editor and on disk, and no
    diff has been applied yet. *)
Definition freshWorld (uri : Uri) (t : text) : World :=
  {| files := {[ path uri := t ]};
     activeTextEditor :=
       Some {| document_uri := uri; document_text := t;
               document_isDirty := false; document_eol := EOL_LF;
               selection_line := 0 |};
     otherEditors := ∅;
     fileChangeMap := ∅;
     effects := [] |}.

Definition dataFor (uri : Uri) (content : text) : DiffData :=
  {| data_path := path uri; data_content := content |}.

(** The three records are pending for [sampleUri], but the active editor shows
    another document. *)
Definition elsewhereWorld : World :=
  withActive (Some (editorOf (Uri_file "/work/b.txt") (ln "other")))
             threeChangesWorld.

(** One [Modified] record pending: the world after the diff of [cleanText]
    against [cleanProposal] has been applied to a file, and to a document
    without a file behind it. *)
Definition oneChangeWorld : World :=
  after (openDiffView blockDiff EditApplied (dataFor sampleUri cleanProposal)
           (freshWorld sampleUri cleanText)).



(** ** Saved and closed documents *)



(** ** Bulk edits in terms of offsets *)

Definition selected (k : Diff.Kind) (p : Diff.Part) : bool :=
  match Diff.kind p, k with
  | Diff.KRemoved, Diff.KRemoved => true
  | Diff.KAdded, Diff.KAdded => true
  | _, _ => false
  end.

(** The parts of kind [k] as spans of the combined buffer, [base] being the
    offset at which the first part starts. *)
Fixpoint offsetSpans (base : nat) (k : Diff.Kind) (parts : list Diff.Part)
  : list Span :=
  match parts with
  | [] => []
  | p :: rest =>
      (if selected k p
       then [(base, (base + length (Diff.value p))%nat, [])]
       else [])
      ++ offsetSpans (base + length (Diff.value p)) k rest
  end.

(** The combined buffer without the parts of kind [k]. *)
Definition without (k : Diff.Kind) (parts : list Diff.Part) : text :=
  flat_map (fun p => if selected k p then [] else Diff.value p) parts.

(** The text of a hunk has as many lines as the hunk counts. *)
Definition holdsLines (h : Hunk) : Prop :=
  Z.of_nat (lineFeeds (value h)) = count h.

(** The lines of the record are lines of the text [t], and each of its hunks
    carries as many lines as it counts. *)
Definition inBuffer (t : text) (change : Change) : Prop :=
  pastEnd change <= Z.of_nat (lineFeeds t)
  /\ match change with
     | Removed h | Added h => holdsLines h
     | Modified removed added => holdsLines removed /\ holdsLines added
     end.

(** ** Code lenses ([provideCodeLenses]) *)

(** [new vscode.CodeLens(range, { title, command, arguments })]; the
    arguments are the document's key and the index of the record. *)
Record CodeLens := {
  lens_range : Range;
  lens_title : string;
  lens_command : string;
  lens_arguments : string * Z;
}.

Definition provideCodeLenses (document : Uri) (w : World) : list CodeLens :=
  let uri := Uri_toString document in
  match fileChangeMap w !! uri with
  | None => []
  | Some fileChange =>
      mjoin
        (imap (fun i change =>
                 let line :=
                   match change with
                   | Modified removed _ => line removed
                   | Removed h | Added h => line h
                   end in
                 let range :=
                   Range_new {| pos_line := line; pos_character := 0 |}
                             {| pos_line := line; pos_character := 0 |} in
                 [ {| lens_range := range; lens_title := "Accept";
                      lens_command := "aider-composer.AcceptChange";
                      lens_arguments := (Uri_toString document, Z.of_nat i) |};
                   {| lens_range := range; lens_title := "Reject";
                      lens_command := "aider-composer.RejectChange";
                      lens_arguments := (Uri_toString document, Z.of_nat i) |} ])
              (changes fileChange))
  end.

(** ** Events and commands registered by the constructor *)

(** The handler of [vscode.workspace.onDidCloseTextDocument]. *)
Definition onDidCloseTextDocument (doc : Uri) (w : World) : World :=
  if String.eqb (scheme doc) "file" || String.eqb (scheme doc) "untitled" then
    let uri := Uri_toString doc in
    match fileChangeMap w !! uri with
    | None => w
    | Some _ =>
        emit [onDidChange_fire reject
                (if String.eqb (scheme doc) "file"
                 then fsPath doc else path doc)]
             (withStore (delete uri (fileChangeMap w)) w)
    end
  else w.

(** The handler of [vscode.window.onDidChangeActiveTextEditor]; [editor] is
    the editor that has become active, if any. *)
Definition onDidChangeActiveTextEditor (editor : option TextEditor) (w : World)
  : World :=
  match editor with
  | Some editor =>
      let uri := Uri_toString (document_uri editor) in
      let fileChange := fileChangeMap w !! uri in
      let w1 :=
        emit [setContext_hasChanges
                (match fileChange with
                 | Some fc => (0 <? length (changes fc))%nat
                 | None => false
                 end)] w in
      match fileChange with
      | Some fc => (drawChanges editor uri fc None w1).2
      | None => w1
      end
  | None => emit [setContext_hasChanges false] w
  end.

(** The commands [aider-composer.AcceptAllChanges] and
    [aider-composer.RejectAllChanges]: they work on the document of the
    active editor. *)
Definition command_AcceptAllChanges (host : EditOutcome) (w : World)
  : Result World :=
  match activeTextEditor w with
  | None => Ok w
  | Some editor => acceptAllChanges host (document_uri editor) w
  end.

Definition command_RejectAllChanges (host : EditOutcome) (w : World)
  : Result World :=
  match activeTextEditor w with
  | None => Ok w
  | Some editor => rejectAllChanges host (document_uri editor) w
  end.

(** ** Resolution by key ([rejectAllFile], [acceptFile], [rejectFile])

    [vscode.Uri.parse] is the host's; it is a parameter here. *)
Section ByKey.
Variable Uri_parse : string -> Uri.

(** [for (const uri of this.fileChangeMap.keys()) ...].  [keys] lists the keys
    of the store in the order of their insertion, which the store as a finite
    map does not record; the iterator of a [Map] passes over a key whose entry
    has been deleted before it is reached. *)
Fixpoint rejectAllFile (host : EditOutcome) (keys : list string) (w : World)
  : Result World :=
  match keys with
  | [] => Ok w
  | uri :: rest =>
      match fileChangeMap w !! uri with
      | None => rejectAllFile host rest w
      | Some _ =>
          await w1 := rejectAllChanges host (Uri_parse uri) w in
          rejectAllFile host rest w1
      end
  end.

Definition acceptFile (host : EditOutcome) (path : string) (w : World)
  : Result World :=
  acceptAllChanges host (Uri_parse path) w.

Definition rejectFile (host : EditOutcome) (path : string) (w : World)
  : Result World :=
  rejectAllChanges host (Uri_parse path) w.
End ByKey.

(** ** More observations used in the statements *)

(** The line [ln] lies in the span of the record. *)
Definition covers (change : Change) (ln : Z) : Prop :=
  primary change <= ln < pastEnd change.

(** The key of the changeset a command works on. *)
Definition targetKey (cmd : Command) (w : World) : string :=
  match cmd with
  | OpenDiffView _ _ data => Uri_toString (diffUri data w)
  | AcceptChange _ uri _ | RejectChange _ uri _ => uri
  | AcceptAllChanges _ uri | RejectAllChanges _ uri => Uri_toString uri
  end.

(** Every editor that is open in the background is filed under the key of its
    own document. *)
Definition editorsFiled (w : World) : Prop :=
  forall k e, otherEditors w !! k = Some e -> Uri_toString (document_uri e) = k.

(** The host can show the document [uri]: it is open, or it is untitled, or
    there is a file at its path. *)
Definition canShow (uri : Uri) (w : World) : Prop :=
  (exists e, activeTextEditor w = Some e
             /\ Uri_toString (document_uri e) = Uri_toString uri)
  \/ is_Some (otherEditors w !! Uri_toString uri)
  \/ scheme uri = "untitled"
  \/ is_Some (files w !! path uri).

(** ** Decorated lines *)

(** A decoration type with [isWholeLine] decorates every line from the first
    to the last line of its range. *)
Definition decorates (ln : Z) (r : Range) : bool :=
  (pos_line (range_start r) <=? ln) && (ln <=? pos_line (range_end r)).

(** ** The text of a record in the document *)

(** The text a pending record occupies in the document, and what stands in
    its place once the record is accepted, respectively rejected. *)
Definition pendingText (change : Change) : text :=
  match change with
  | Removed h | Added h => value h
  | Modified removed added => value removed ++ value added
  end.

Definition acceptedText (change : Change) : text :=
  match change with
  | Removed _ => []
  | Added h => value h
  | Modified _ added => value added
  end.

Definition rejectedText (change : Change) : text :=
  match change with
  | Removed h => value h
  | Added _ => []
  | Modified removed _ => value removed
  end.

(** The hunks of the record hold whole lines, as many as they count, and the
    added hunk of a [Modified] record starts where its removed hunk ends. *)
Definition wholeHunk (h : Hunk) : Prop := wholeLinesText (count h) (value h).

Definition wholeRecord (change : Change) : Prop :=
  match change with
  | Removed h | Added h => wholeHunk h
  | Modified removed added =>
      wholeHunk removed /\ wholeHunk added
      /\ line added = line removed + count removed
  end.

(** The text [pre] is made of the lines of the document that stand before the
    first line of the record. *)
Definition linesBefore (pre : text) (change : Change) : Prop :=
  endsWithLF pre = true /\ Z.of_nat (lineFeeds pre) = primary change.

(** The record addresses its own text: the document holds the text of the
    record at the record's coordinates. *)
Definition addresses (doc : text) (change : Change) : Prop :=
  wholeRecord change
  /\ exists pre rest,
       doc = pre ++ pendingText change ++ rest /\ linesBefore pre change.

(** ** A document under review, laid out

    The document as a sequence of settled text and pending records, each
    record standing at its own coordinates. *)
Inductive Item :=
| Plain (v : text)
| Rec (change : Change).

Definition itemText (it : Item) : text :=
  match it with
  | Plain v => v
  | Rec c => pendingText c
  end.

Definition itemsText (items : list Item) : text := flat_map itemText items.

Definition records (items : list Item) : list Change :=
  flat_map (fun it => match it with Rec c => [c] | Plain _ => [] end) items.

(** The text of an item once its record, if it is one, has been accepted
    ([accepting]) or rejected. *)
Definition settled (accepting : bool) (it : Item) : text :=
  match it with
  | Plain v => v
  | Rec c => if accepting then acceptedText c else rejectedText c
  end.

Definition settledText (accepting : bool) (items : list Item) : text :=
  flat_map (settled accepting) items.

Definition itemOk (lo : Z) (it : Item) : Prop :=
  match it with
  | Plain v => endsWithLF v = true
  | Rec c => primary c = lo /\ wholeRecord c
  end.

(** The items follow one another from line [lo] on. *)
Fixpoint placed (lo : Z) (items : list Item) : Prop :=
  match items with
  | [] => True
  | it :: rest =>
      itemOk lo it /\ placed (lo + Z.of_nat (lineFeeds (itemText it))) rest
  end.

Definition shiftItem (n : Z) (it : Item) : Item :=
  match it with
  | Plain v => Plain v
  | Rec c => Rec (shiftChange n c)
  end.

(** The layout of the combined buffer of a sequence of parts; [prevRemoved]
    as in [specRecords]: the text of an added part that follows a removed one
    belongs to the [Modified] record made at the removed part. *)
Fixpoint itemsOf (lineNo : Z) (prevRemoved : bool) (parts : list Diff.Part)
  : list Item :=
  match parts with
  | [] => []
  | p :: rest =>
      (match Diff.kind p with
       | Diff.KRemoved =>
           match rest with
           | [] => [Rec (Removed (hunkOf lineNo p))]
           | q :: _ =>
               match Diff.kind q with
               | Diff.KAdded =>
                   [Rec (Modified (hunkOf lineNo p)
                                  (hunkOf (lineNo + Diff.count p) q))]
               | Diff.KUnchanged => [Rec (Removed (hunkOf lineNo p))]
               | Diff.KRemoved => [Plain (Diff.value p)]
               end
           end
       | Diff.KAdded =>
           if prevRemoved then [] else [Rec (Added (hunkOf lineNo p))]
       | Diff.KUnchanged => [Plain (Diff.value p)]
       end)
      ++ itemsOf (lineNo + Diff.count p)
                 (match Diff.kind p with Diff.KRemoved => true | _ => false end)
                 rest
  end.

(** The parts that follow once the added part of a pending [Modified] record
    has been passed over. *)
Definition pastPending (prevRemoved : bool) (parts : list Diff.Part)
  : list Diff.Part :=
  match parts with
  | q :: rest =>
      if prevRemoved && selected Diff.KAdded q then rest else parts
  | [] => []
  end.

(** The document [u] is in the active editor with the text of [items], and
    its change list is the records of [items]. *)
Definition laidOut (u : Uri) (items : list Item) (w : World) : Prop :=
  placed 0 items
  /\ changesOf w (Uri_toString u) = records items
  /\ (records items <> [] ->
      exists editor fc,
        activeTextEditor w = Some editor
        /\ document_uri editor = u
        /\ fileChangeMap w !! Uri_toString u = Some fc
        /\ document_text editor = itemsText items).

(** ** Resolving the records one at a time *)

(** [acceptChange], respectively [rejectChange], called once for every index
    of [ks], each index being read in the change list as it is at that
    call. *)
Fixpoint acceptEach (host : EditOutcome) (uri : string) (ks : list nat)
    (w : World) : Result World :=
  match ks with
  | [] => Ok w
  | k :: rest =>
      await w1 := acceptChange host uri (Some (Z.of_nat k)) w in
      acceptEach host uri rest w1
  end.

Fixpoint rejectEach (host : EditOutcome) (uri : string) (ks : list nat)
    (w : World) : Result World :=
  match ks with
  | [] => Ok w
  | k :: rest =>
      await w1 := rejectChange host uri (Some (Z.of_nat k)) w in
      rejectEach host uri rest w1
  end.

(** [ks] resolves a list of [n] records completely: every index lies in the
    list as it is when its turn comes, and no record is left at the end. *)
Fixpoint resolvesAll (n : nat) (ks : list nat) : Prop :=
  match ks with
  | [] => n = 0%nat
  | k :: rest => (k < n)%nat /\ resolvesAll (n - 1) rest
  end.

(** ** Single resolutions followed by a bulk resolution *)

(** The items as parts of a diff: settled text is an unchanged part, the
    hunks of a pending record are removed and added parts. *)
Definition partOfText (isAdded isRemoved : bool) (v : text) : Diff.Part :=
  {| Diff.value := v; Diff.added := isAdded; Diff.removed := isRemoved;
     Diff.count := Z.of_nat (lineFeeds v) |}.

Definition partsOfItem (it : Item) : list Diff.Part :=
  match it with
  | Plain v => [partOfText false false v]
  | Rec (Removed h) => [partOfText false true (value h)]
  | Rec (Added h) => [partOfText true false (value h)]
  | Rec (Modified removed added) =>
      [partOfText false true (value removed);
       partOfText true false (value added)]
  end.

(** Every index of [ks] lies in the change list as it is when its turn
    comes; records may be left at the end. *)
Fixpoint inTurn (n : nat) (ks : list nat) : Prop :=
  match ks with
  | [] => True
  | k :: rest => (k < n)%nat /\ inTurn (n - 1) rest
  end.

(** The document [u] is under review with the layout [items]: it is laid
    out, the active editor holds the text of the items, and as long as it has
    a changeset it is the document of the active editor. *)
Definition inReview (u : Uri) (items : list Item) (w : World) : Prop :=
  laidOut u items w
  /\ activeText w = Some (itemsText items)
  /\ match fileChangeMap w !! Uri_toString u with
     | Some _ =>
         exists editor,
           activeTextEditor w = Some editor /\ document_uri editor = u
     | None => records items = []
     end.

(** ** What the editor shows *)

Definition DecorationType_eqb (a b : DecorationType) : bool :=
  match a, b with
  | deletionDecorationType, deletionDecorationType
  | insertionDecorationType, insertionDecorationType
  | hoverDecorationType, hoverDecorationType => true
  | _, _ => false
  end.

(** The ranges of the last [setDecorations] call for the decoration type [ty]
    on the editor of the document with key [key]: what that editor shows for
    [ty]. *)
Fixpoint shownDecorations (key : string) (ty : DecorationType)
    (es : list Effect) : option (list Range) :=
  match es with
  | [] => None
  | e :: rest =>
      match shownDecorations key ty rest with
      | Some ranges => Some ranges
      | None =>
          match e with
          | setDecorations uri ty' ranges =>
              if String.eqb (Uri_toString uri) key && DecorationType_eqb ty' ty
              then Some ranges else None
          | _ => None
          end
      end
  end.

(** The ranges [drawChanges] computes for a change list. *)
Definition decorationsOf (ty : DecorationType) (changes : list Change)
  : list Range :=
  match ty with
  | deletionDecorationType => deletions changes
  | insertionDecorationType => insertions changes
  | hoverDecorationType =>
      match changes with [] => [] | _ => [Range4 0 0 0 0] end
  end.

(** The [onDidChange] events among the effects. *)
Definition changeEvents (es : list Effect) : list (DidChangeType * string) :=
  flat_map (fun e => match e with
                     | onDidChange_fire type path => [(type, path)]
                     | _ => []
                     end) es.

(** ** Coordinate integrity of a review *)

(** A single accept or reject whose edit the host applies. *)
Definition appliedSingle (cmd : Command) : Prop :=
  match cmd with
  | AcceptChange EditApplied _ _ | RejectChange EditApplied _ _ => True
  | _ => False
  end.

(** The review of the document with key [key] is sound: its change list is
    well formed, and when records are pending the document is in the active
    editor and every record addresses its own text there. *)
Definition reviewSound (key : string) (w : World) : Prop :=
  wellFormed (changesOf w key)
  /\ match activeTextEditor w with
     | Some e =>
         changesOf w key <> [] ->
         Uri_toString (document_uri e) = key
         /\ Forall (addresses (document_text e)) (changesOf w key)
     | None => changesOf w key = []
     end.

(** ** More sample data *)

(** The active editor's cursor moved to line [ln]. *)
Definition cursorAt (ln : Z) (w : World) : World :=
  withActive
    ((fun e => {| document_uri := document_uri e;
                  document_text := document_text e;
                  document_isDirty := document_isDirty e;
                  document_eol := document_eol e;
                  selection_line := ln |}) <$> activeTextEditor w) w.

(** A reference [Uri.parse] for the strings [Uri_toString] makes: the scheme
    is what stands before the first ["://"], the path what follows it. *)
Definition splitUri (s : string) : Uri :=
  match String.index 0 "://" s with
  | Some n =>
      {| scheme := String.substring 0 n s;
         path := String.substring (n + 3) (String.length s - (n + 3)) s |}
  | None => Uri_file s
  end.

(** Two files under review: the diff of [cleanText] against [cleanProposal]
    has been applied to both, the second one last. *)
Definition secondUri : Uri := Uri_file "/work/b.txt".

Definition twoReviewsWorld : World :=
  after (openDiffView blockDiff EditApplied (dataFor secondUri cleanProposal)
    (after (openDiffView blockDiff EditApplied (dataFor sampleUri cleanProposal)
      {| files := <[path secondUri := cleanText]> {[ path sampleUri := cleanText ]};
         activeTextEditor := None; otherEditors := ∅; fileChangeMap := ∅;
         effects := [] |}))).

(** Four lines of which the second and the fourth are replaced, and the line
    diff of the two texts. *)
Definition fourLines : text := ln "A" ++ ln "B" ++ ln "C" ++ ln "D".
Definition fourLinesProposal : text := ln "A" ++ ln "X" ++ ln "C" ++ ln "Y".

Definition linePart (isAdded isRemoved : bool) (s : string) : Diff.Part :=
  {| Diff.value := ln s; Diff.added := isAdded; Diff.removed := isRemoved;
     Diff.count := 1 |}.

Definition twoBlockDiff (original modified : text) : list Diff.Part :=
  [ linePart false false "A"; linePart false true "B"; linePart true false "X";
    linePart false false "C"; linePart false true "D"; linePart true false "Y" ].

(** * Properties *)

(** ** The changeset builder *)

Lemma loopParts_lineNumber parts : forall st,
  lineNumber (loopParts st parts) = lineNumber st + totalCount parts.
Proof.
  induction parts as [|p rest IH]; intros st; simpl.
  - lia.
  - rewrite IH. unfold loopBody.
    destruct (Diff.removed p), (Diff.added p), (lastRemoved st); simpl; lia.
Qed.

Lemma loopParts_combineContent parts : forall st,
  combineContent (loopParts st parts)
  = combineContent st ++ concat (Diff.value <$> parts).
Proof.
  induction parts as [|p rest IH]; intros st; simpl.
  - by rewrite app_nil_r.
  - rewrite IH. unfold loopBody.
    destruct (Diff.removed p), (Diff.added p), (lastRemoved st); simpl;
      by rewrite <- app_assoc.
Qed.

Lemma loopParts_changes parts : forall st,
  loopChanges (loopParts st parts)
  = loopChanges st
      ++ flushPending (lastRemoved st) (lineNumber st) parts
      ++ specRecords (lineNumber st) (hasPending st) parts.
Proof.
  induction parts as [|p rest IH]; intros st.
  - simpl. unfold flushPending. destruct (lastRemoved st); by rewrite app_nil_r.
  - cbn [loopParts]. rewrite IH. clear IH.
    unfold loopBody, flushPending, hasPending, Diff.kind. cbn [specRecords].
    unfold Diff.kind.
    destruct (Diff.removed p) eqn:Hr.
    + destruct rest as [|q rest']; cbn.
      * destruct (lastRemoved st); cbn; by rewrite ?app_nil_r.
      * destruct (lastRemoved st); cbn;
          destruct (Diff.removed q), (Diff.added q); cbn;
          by rewrite <- ?app_assoc.
    + destruct (Diff.added p) eqn:Ha.
      * destruct (lastRemoved st) as [lr|]; cbn;
          destruct rest as [|q rest']; cbn; by rewrite <- ?app_assoc.
      * destruct (lastRemoved st) as [lr|]; cbn;
          destruct rest as [|q rest']; cbn; by rewrite <- ?app_assoc.
Qed.

(** Claim C3.  For every sequence of diff segments the builder's change list
    is the one the merge rule describes: one [Modified] record for each removed
    segment immediately followed by an added one, a standalone [Removed] for a
    removed segment that is last or followed by an unchanged one, a standalone
    [Added] for an added segment not immediately preceded by a removed one,
    each at the sum of the line counts of the segments before it; and the line
    counter ends at the sum of all line counts, whatever the kinds. *)
Theorem builder_merge_rule (differences : list Diff.Part) :
  buildChanges differences = specRecords 0 false differences
  /\ lineNumber (loopParts loopInit differences) = totalCount differences.
Proof.
  split.
  - unfold buildChanges. rewrite loopParts_changes. reflexivity.
  - rewrite loopParts_lineNumber. simpl. lia.
Qed.

(** ** Renumbering *)

Lemma renumber_cons k n a l :
  renumber (S k) n (a :: l) = a :: renumber k n l.
Proof.
  unfold renumber. simpl. f_equal.
Qed.

Lemma renumber_zero n c l : renumber 0 n (c :: l) = shiftChange n <$> l.
Proof.
  unfold renumber. simpl. unfold compose. simpl.
  apply imap_const.
Qed.

Lemma renumber_split l1 c l2 n :
  renumber (length l1) n (l1 ++ c :: l2) = l1 ++ (shiftChange n <$> l2).
Proof.
  induction l1 as [|a l1 IH]; simpl.
  - apply renumber_zero.
  - rewrite renumber_cons. by rewrite IH.
Qed.

Lemma renumber_lookup cs i c n :
  cs !! i = Some c ->
  renumber i n cs = take i cs ++ (shiftChange n <$> drop (S i) cs).
Proof.
  intros H.
  rewrite <- (take_drop_middle cs i c H) at 1.
  assert (Hlen : length (take i cs) = i).
  { apply length_take_le. apply lookup_lt_Some in H. lia. }
  rewrite <- Hlen at 1. apply renumber_split.
Qed.

(** ** The ordering invariant *)

Lemma wellShaped_span c : wellShaped c -> 0 <= primary c < pastEnd c.
Proof. destruct c; simpl; lia. Qed.

Lemma shiftChange_primary n c : primary (shiftChange n c) = primary c - n.
Proof. by destruct c. Qed.

Lemma shiftChange_pastEnd n c : pastEnd (shiftChange n c) = pastEnd c - n.
Proof. destruct c; simpl; lia. Qed.

Lemma shiftChange_wellShaped n c :
  wellShaped c -> n <= primary c -> wellShaped (shiftChange n c).
Proof. destruct c; simpl; lia. Qed.

Lemma shiftChange_precedes n c d :
  precedes c d -> precedes (shiftChange n c) (shiftChange n d).
Proof.
  unfold precedes. rewrite !shiftChange_primary, shiftChange_pastEnd. lia.
Qed.

Lemma ordered_shift n cs : ordered cs -> ordered (shiftChange n <$> cs).
Proof.
  unfold ordered. induction 1 as [|c cs Hs IH Hc]; simpl; constructor; auto.
  rewrite Forall_fmap. eapply Forall_impl; [exact Hc|].
  intros d Hd. by apply shiftChange_precedes.
Qed.

Lemma acceptNet_bound c :
  wellShaped c -> 0 <= acceptNet c <= pastEnd c - primary c.
Proof. destruct c; simpl; lia. Qed.

Lemma rejectNet_bound c :
  wellShaped c -> 0 <= rejectNet c <= pastEnd c - primary c.
Proof. destruct c; simpl; lia. Qed.

Lemma wellFormed_renumber cs i c n :
  wellFormed cs -> cs !! i = Some c ->
  0 <= n <= pastEnd c - primary c ->
  wellFormed (renumber i n cs).
Proof.
  intros [Hpos Hord] Hi Hn.
  rewrite (renumber_lookup _ _ _ _ Hi).
  rewrite <- (take_drop_middle cs i c Hi) in Hpos, Hord.
  set (l1 := take i cs) in *. set (l2 := drop (S i) cs) in *.
  apply Forall_app in Hpos as [Hp1 Hp2].
  apply Forall_cons in Hp2 as [Hpc Hp2].
  apply StronglySorted_app in Hord as (Hcross & Hs1 & Hs2).
  apply StronglySorted_cons in Hs2 as [Hc2 Hs2].
  pose proof (wellShaped_span _ Hpc) as Hspan.
  rewrite Forall_forall in Hc2.
  split.
  - apply Forall_app. split; [done|].
    rewrite Forall_fmap. rewrite Forall_forall in Hp2 |- *.
    intros d Hd. apply shiftChange_wellShaped; [by apply Hp2|].
    destruct (Hc2 d Hd) as [_ Hcd]. lia.
  - apply StronglySorted_app_2; [|done|by apply ordered_shift].
    intros a b Ha Hb. apply list_elem_of_fmap in Hb as (d & -> & Hd).
    assert (Hac : precedes a c) by (apply Hcross; [done|left]).
    assert (Hcd : precedes c d) by by apply Hc2.
    assert (Hpa : 0 <= primary a < pastEnd a).
    { apply wellShaped_span. rewrite Forall_forall in Hp1. by apply Hp1. }
    unfold precedes in *. rewrite shiftChange_primary. lia.
Qed.

Lemma chained_weaken lo lo' cs : lo' <= lo -> chained lo cs -> chained lo' cs.
Proof. destruct cs; simpl; [done|]. intros ? (? & ? & ?). repeat split; auto; lia. Qed.

Lemma chained_from lo cs :
  chained lo cs ->
  Forall (fun c => lo <= primary c) cs /\ wellFormed cs.
Proof.
  revert lo. induction cs as [|c cs IH]; intros lo; simpl.
  - intros _. repeat split; constructor.
  - intros (Hlo & Hpos & Hrest).
    destruct (IH _ Hrest) as (Hlb & Hp & Hord).
    pose proof (wellShaped_span _ Hpos) as Hspan.
    repeat split.
    + constructor; [done|]. eapply Forall_impl; [exact Hlb|].
      intros d Hd. simpl in Hd. lia.
    + by constructor.
    + constructor; [done|]. eapply Forall_impl; [exact Hlb|].
      intros d Hd. simpl in Hd. unfold precedes. lia.
Qed.

(** Line from which the records of [specRecords lineNo prev parts] start: an
    added segment that closes a [Modified] record contributes no record of its
    own. *)
Lemma positivePart_count p : positivePart p -> 0 <= Diff.count p.
Proof. unfold positivePart. destruct (Diff.kind p); lia. Qed.

Lemma specRecords_chained parts : forall (lineNo : Z) (prev : bool),
  0 <= lineNo ->
  positiveParts parts ->
  chained
    (match parts with
     | q :: _ =>
         match Diff.kind q with
         | Diff.KAdded => if prev then lineNo + Diff.count q else lineNo
         | _ => lineNo
         end
     | [] => lineNo
     end)
    (specRecords lineNo prev parts).
Proof.
  induction parts as [|p rest IH]; intros lineNo prev Hline Hpos; [done|].
  apply Forall_cons in Hpos as [Hp Hrest].
  pose proof (positivePart_count p Hp) as Hp0.
  assert (Hline' : 0 <= lineNo + Diff.count p) by lia.
  assert (Hnext : forall prev',
    chained (lineNo + Diff.count p)
      (specRecords (lineNo + Diff.count p) prev' rest)).
  { intros prev'. eapply chained_weaken; [|apply (IH _ prev' Hline' Hrest)].
    destruct rest as [|q ?]; [lia|].
    apply Forall_cons in Hrest as [Hq _].
    apply positivePart_count in Hq.
    destruct (Diff.kind q), prev'; lia. }
  cbn [specRecords]. unfold positivePart in Hp.
  destruct (Diff.kind p) eqn:Hk.
  - destruct rest as [|q rest']; [simpl; intuition lia|].
    pose proof Hrest as Hq. apply Forall_cons in Hq as [Hq _].
    unfold positivePart in Hq.
    destruct (Diff.kind q) eqn:Hkq.
    + eapply chained_weaken; [|apply Hnext]. lia.
    + specialize (IH (lineNo + Diff.count p) true Hline' Hrest).
      cbn [specRecords] in IH |- *. rewrite Hkq in IH |- *.
      cbn [app chained] in IH |- *.
      split; [simpl; lia|]. split; [simpl; lia|]. exact IH.
    + cbn [app chained].
      split; [simpl; lia|]. split; [simpl; lia|]. apply Hnext.
  - destruct prev; cbn [app chained].
    + apply Hnext.
    + split; [simpl; lia|]. split; [simpl; lia|]. apply Hnext.
  - eapply chained_weaken; [|apply Hnext]. lia.
Qed.

Lemma buildChanges_wellFormed differences :
  positiveParts differences ->
  wellFormed (buildChanges differences).
Proof.
  intros Hpos. unfold buildChanges. rewrite loopParts_changes. simpl.
  pose proof (specRecords_chained differences 0 false (Z.le_refl 0) Hpos) as H.
  apply chained_from in H. tauto.
Qed.

(** ** Single resolutions and the store *)

Lemma acceptPlan_count c : (acceptPlan c).2 = acceptNet c.
Proof. by destruct c. Qed.

Lemma rejectPlan_count c : (rejectPlan c).2 = rejectNet c.
Proof. by destruct c. Qed.

Lemma planEdit_store host plan w w1 :
  planEdit host plan w = Ok w1 ->
  fileChangeMap w1 = fileChangeMap w /\ effects w1 = effects w
  /\ files w1 = files w.
Proof.
  destruct plan as [[[r|] v] n]; simpl; [|by intros [= <-]].
  destruct (n =? 0); [by intros [= <-]|].
  destruct host; simpl; intros [= <-]; done.
Qed.

Lemma saveDocument_store w : fileChangeMap (saveDocument w) = fileChangeMap w.
Proof.
  unfold saveDocument. destruct (activeTextEditor w) as [e|] eqn:He; [|done].
  destruct (document_isDirty e); [|done].
  unfold documentSave. simpl. by rewrite He.
Qed.

Lemma changesOf_storeAfter w w' uri fc cs key :
  fileChangeMap w' = storeAfter uri fc cs (fileChangeMap w) ->
  changesOf w' key = if decide (key = uri) then cs else changesOf w key.
Proof.
  unfold changesOf, storeAfter. intros ->.
  destruct (decide (key = uri)) as [->|Hne].
  - destruct cs; [by rewrite lookup_delete_eq|by rewrite lookup_insert_eq].
  - destruct cs; [by rewrite lookup_delete_ne|by rewrite lookup_insert_ne].
Qed.

Lemma acceptAt_store host editor uri fc k c w w' :
  acceptAt host editor uri fc k c w = Ok w' ->
  fileChangeMap w'
  = storeAfter uri fc (renumber k (acceptNet c) (changes fc)) (fileChangeMap w).
Proof.
  unfold acceptAt. rewrite acceptPlan_count.
  destruct (planEdit host (acceptPlan c) w) as [w1|] eqn:Hp; [|done].
  apply planEdit_store in Hp as (Hm & _). simpl.
  destruct (renumber k (acceptNet c) (changes fc)) eqn:Hr; intros [= <-].
  - rewrite saveDocument_store. simpl. rewrite Hm. apply delete_insert_eq.
  - simpl. by rewrite Hm.
Qed.

Lemma rejectAt_store host editor uri fc k c w w' :
  rejectAt host editor uri fc k c w = Ok w' ->
  fileChangeMap w'
  = storeAfter uri fc (renumber k (rejectNet c) (changes fc)) (fileChangeMap w).
Proof.
  unfold rejectAt. rewrite rejectPlan_count.
  destruct (planEdit host (rejectPlan c) w) as [w1|] eqn:Hp; [|done].
  apply planEdit_store in Hp as (Hm & _). simpl.
  destruct (renumber k (rejectNet c) (changes fc)) eqn:Hr.
  - destruct (String.eqb _ _); intros [= <-].
    + rewrite saveDocument_store. simpl. rewrite Hm. apply delete_insert_eq.
    + simpl. rewrite Hm. apply delete_insert_eq.
  - intros [= <-]. simpl. by rewrite Hm.
Qed.

(** The ways a single resolution can end. *)
Lemma acceptChange_inv host uri i w r :
  acceptChange host uri i w = r ->
  r = Ok w
  \/ r = Throw TypeError w
  \/ exists editor fc index k c,
       activeTextEditor w = Some editor
       /\ Uri_toString (document_uri editor) = uri
       /\ fileChangeMap w !! uri = Some fc
       /\ targetIndex i editor fc = Some index
       /\ atIndex (changes fc) index = Some (k, c)
       /\ r = acceptAt host editor uri fc k c w.
Proof.
  unfold acceptChange. intros <-.
  destruct (activeTextEditor w) as [editor|]; [|by left].
  destruct (String.eqb _ uri) eqn:Huri; simpl; [|by left].
  apply String.eqb_eq in Huri.
  destruct (fileChangeMap w !! uri) as [fc|] eqn:Hfc; [|by left].
  destruct (targetIndex i editor fc) as [index|] eqn:Ht; [|by left].
  destruct (atIndex (changes fc) index) as [[k c]|] eqn:Ha; [|by right; left].
  right; right. by exists editor, fc, index, k, c.
Qed.

Lemma rejectChange_inv host uri i w r :
  rejectChange host uri i w = r ->
  r = Ok w
  \/ r = Throw TypeError w
  \/ exists editor fc index k c,
       activeTextEditor w = Some editor
       /\ Uri_toString (document_uri editor) = uri
       /\ fileChangeMap w !! uri = Some fc
       /\ targetIndex i editor fc = Some index
       /\ atIndex (changes fc) index = Some (k, c)
       /\ r = rejectAt host editor uri fc k c w.
Proof.
  unfold rejectChange. intros <-.
  destruct (activeTextEditor w) as [editor|]; [|by left].
  destruct (String.eqb _ uri) eqn:Huri; simpl; [|by left].
  apply String.eqb_eq in Huri.
  destruct (fileChangeMap w !! uri) as [fc|] eqn:Hfc; [|by left].
  destruct (targetIndex i editor fc) as [index|] eqn:Ht; [|by left].
  destruct (atIndex (changes fc) index) as [[k c]|] eqn:Ha; [|by right; left].
  right; right. by exists editor, fc, index, k, c.
Qed.

Lemma atIndex_lookup cs index k c :
  atIndex cs index = Some (k, c) -> cs !! k = Some c /\ index = Z.of_nat k.
Proof.
  unfold atIndex. destruct (index <? 0) eqn:Hneg; [done|].
  destruct (cs !! Z.to_nat index) as [c'|] eqn:Hl; simpl; [|done].
  intros [= <- <-]. split; [done|]. lia.
Qed.
Lemma planEdit_ok host plan w :
  host <> EditThrows -> exists w1, planEdit host plan w = Ok w1.
Proof.
  intros Hh. destruct plan as [[[r|] v] n]; simpl; [|by exists w].
  destruct (n =? 0); [by exists w|].
  destruct host; simpl; [eexists; reflexivity|by exists w|done].
Qed.

Lemma acceptAt_ok host editor uri fc k c w :
  host <> EditThrows -> exists w', acceptAt host editor uri fc k c w = Ok w'.
Proof.
  intros Hh. unfold acceptAt.
  destruct (planEdit_ok host (acceptPlan c) w Hh) as [w1 ->]. simpl.
  destruct (renumber _ _ _); eexists; reflexivity.
Qed.

Lemma rejectAt_ok host editor uri fc k c w :
  host <> EditThrows -> exists w', rejectAt host editor uri fc k c w = Ok w'.
Proof.
  intros Hh. unfold rejectAt.
  destruct (planEdit_ok host (rejectPlan c) w Hh) as [w1 ->]. simpl.
  destruct (renumber _ _ _); [|eexists; reflexivity].
  destruct (String.eqb _ _); eexists; reflexivity.
Qed.

Lemma atIndex_of_nat cs k c :
  cs !! k = Some c -> atIndex cs (Z.of_nat k) = Some (k, c).
Proof.
  intros H. unfold atIndex.
  destruct (Z.ltb_spec (Z.of_nat k) 0); [lia|].
  by rewrite Nat2Z.id, H.
Qed.

Lemma acceptChange_located host uri i w editor fc k c :
  activeTextEditor w = Some editor ->
  Uri_toString (document_uri editor) = uri ->
  fileChangeMap w !! uri = Some fc ->
  targetIndex i editor fc = Some (Z.of_nat k) ->
  changes fc !! k = Some c ->
  acceptChange host uri i w = acceptAt host editor uri fc k c w.
Proof.
  intros He Hu Hfc Ht Hk. unfold acceptChange. rewrite He.
  apply String.eqb_eq in Hu. rewrite Hu. simpl. rewrite Hfc, Ht.
  by rewrite (atIndex_of_nat _ _ _ Hk).
Qed.

Lemma rejectChange_located host uri i w editor fc k c :
  activeTextEditor w = Some editor ->
  Uri_toString (document_uri editor) = uri ->
  fileChangeMap w !! uri = Some fc ->
  targetIndex i editor fc = Some (Z.of_nat k) ->
  changes fc !! k = Some c ->
  rejectChange host uri i w = rejectAt host editor uri fc k c w.
Proof.
  intros He Hu Hfc Ht Hk. unfold rejectChange. rewrite He.
  apply String.eqb_eq in Hu. rewrite Hu. simpl. rewrite Hfc, Ht.
  by rewrite (atIndex_of_nat _ _ _ Hk).
Qed.



(** ** Every command keeps the change lists ordered *)

Lemma planEdit_throw host plan w e w' :
  planEdit host plan w = Throw e w' -> w' = w /\ host = EditThrows.
Proof.
  destruct plan as [[[r|] v] n]; simpl; [|done].
  destruct (n =? 0); [done|]. destruct host; simpl; [done..|].
  by intros [= _ <-].
Qed.

Lemma acceptAt_throw host editor uri fc k c w e w' :
  acceptAt host editor uri fc k c w = Throw e w' -> w' = w /\ host = EditThrows.
Proof.
  unfold acceptAt.
  destruct (planEdit host (acceptPlan c) w) as [w1|e1 w1] eqn:Hp; simpl.
  - destruct (renumber _ _ _); done.
  - intros [= _ <-]. by eapply planEdit_throw.
Qed.

Lemma rejectAt_throw host editor uri fc k c w e w' :
  rejectAt host editor uri fc k c w = Throw e w' -> w' = w /\ host = EditThrows.
Proof.
  unfold rejectAt.
  destruct (planEdit host (rejectPlan c) w) as [w1|e1 w1] eqn:Hp; simpl.
  - destruct (renumber _ _ _); [|done]. by destruct (String.eqb _ _).
  - intros [= _ <-]. by eapply planEdit_throw.
Qed.


Lemma wellFormed_lookup cs k c :
  wellFormed cs -> cs !! k = Some c -> wellShaped c.
Proof.
  intros [Hp _] Hk. rewrite Forall_forall in Hp. apply Hp.
  by eapply list_elem_of_lookup_2.
Qed.

Lemma acceptChange_wellFormed host uri i w key :
  wellFormed (changesOf w key) ->
  wellFormed (changesOf (after (acceptChange host uri i w)) key).
Proof.
  intros Hwf.
  destruct (acceptChange_inv host uri i w _ eq_refl)
    as [->|[->|(editor & fc & index & k & c & He & Hu & Hfc & Ht & Ha & ->)]];
    [done..|].
  apply atIndex_lookup in Ha as [Hk _].
  destruct (acceptAt host editor uri fc k c w) as [w'|e w'] eqn:Hr; simpl.
  - apply acceptAt_store in Hr.
    rewrite (changesOf_storeAfter _ _ _ _ _ key Hr).
    destruct (decide (key = uri)) as [->|]; [|done].
    unfold changesOf in Hwf. rewrite Hfc in Hwf.
    eapply wellFormed_renumber; [done..|].
    apply acceptNet_bound. by eapply wellFormed_lookup.
  - apply acceptAt_throw in Hr as [-> _]. done.
Qed.

Lemma rejectChange_wellFormed host uri i w key :
  wellFormed (changesOf w key) ->
  wellFormed (changesOf (after (rejectChange host uri i w)) key).
Proof.
  intros Hwf.
  destruct (rejectChange_inv host uri i w _ eq_refl)
    as [->|[->|(editor & fc & index & k & c & He & Hu & Hfc & Ht & Ha & ->)]];
    [done..|].
  apply atIndex_lookup in Ha as [Hk _].
  destruct (rejectAt host editor uri fc k c w) as [w'|e w'] eqn:Hr; simpl.
  - apply rejectAt_store in Hr.
    rewrite (changesOf_storeAfter _ _ _ _ _ key Hr).
    destruct (decide (key = uri)) as [->|]; [|done].
    unfold changesOf in Hwf. rewrite Hfc in Hwf.
    eapply wellFormed_renumber; [done..|].
    apply rejectNet_bound. by eapply wellFormed_lookup.
  - apply rejectAt_throw in Hr as [-> _]. done.
Qed.

Lemma showTextDocument_store uri w e ws :
  showTextDocument uri w = Ok (e, ws) ->
  fileChangeMap ws = fileChangeMap w /\ effects ws = effects w
  /\ activeTextEditor ws = Some e /\ files ws = files w.
Proof.
  unfold showTextDocument.
  destruct (activeTextEditor w) as [e0|] eqn:He0.
  - destruct (String.eqb _ _).
    + by intros [= <- <-].
    + destruct (openDocument uri w); simpl; [|done]. by intros [= <- <-].
  - destruct (openDocument uri w); simpl; [|done]. by intros [= <- <-].
Qed.

Lemma showTextDocument_throw uri w e w' :
  showTextDocument uri w = Throw e w' -> w' = w.
Proof.
  assert (Hopen : forall e1 w1, openDocument uri w = Throw e1 w1 -> w1 = w).
  { unfold openDocument. intros e1 w1.
    destruct (otherEditors w !! _); [done|].
    destruct (String.eqb _ _); [done|].
    destruct (files w !! _); [done|]. by intros [= _ <-]. }
  unfold showTextDocument.
  destruct (activeTextEditor w) as [e0|].
  - destruct (String.eqb _ _); [done|].
    destruct (openDocument uri w) eqn:Ho; simpl; [done|].
    intros [= _ <-]. by eapply Hopen.
  - destruct (openDocument uri w) eqn:Ho; simpl; [done|].
    intros [= _ <-]. by eapply Hopen.
Qed.

Lemma applyEdit_store host edits w r :
  applyEdit host edits w = r ->
  fileChangeMap (after r) = fileChangeMap w /\ effects (after r) = effects w
  /\ files (after r) = files w.
Proof.
  intros <-. unfold applyEdit. destruct host; simpl; [|done..].
  destruct (activeTextEditor w) as [e|]; [|done].
  destruct edits; [done|].
  destruct (applyTextEdits _ _); done.
Qed.


Lemma acceptAllChanges_after_store host uri w :
  fileChangeMap (after (acceptAllChanges host uri w)) = fileChangeMap w
  \/ fileChangeMap (after (acceptAllChanges host uri w))
     = delete (Uri_toString uri) (fileChangeMap w).
Proof.
  unfold acceptAllChanges.
  destruct (fileChangeMap w !! _) as [fc|]; [|by left].
  destruct (showTextDocument uri w) as [[e ws]|e1 w1] eqn:Hs; simpl.
  - apply showTextDocument_store in Hs as (Hm & _).
    destruct (applyEdit host _ ws) as [w1|e1 w1] eqn:Ha;
      apply applyEdit_store in Ha as (Ha & _); simpl in *.
    + right. rewrite saveDocument_store. simpl. by rewrite Ha, Hm.
    + left. by rewrite Ha, Hm.
  - apply showTextDocument_throw in Hs as ->. by left.
Qed.

Lemma rejectAllChanges_after_store host uri w :
  fileChangeMap (after (rejectAllChanges host uri w)) = fileChangeMap w
  \/ fileChangeMap (after (rejectAllChanges host uri w))
     = delete (Uri_toString uri) (fileChangeMap w).
Proof.
  unfold rejectAllChanges.
  destruct (fileChangeMap w !! _) as [fc|]; [|by left].
  destruct (showTextDocument uri w) as [[e ws]|e1 w1] eqn:Hs; simpl.
  - apply showTextDocument_store in Hs as (Hm & _).
    destruct (applyEdit host _ ws) as [w1|e1 w1] eqn:Ha;
      apply applyEdit_store in Ha as (Ha & _); simpl in *.
    + right. destruct (String.eqb _ _); simpl.
      * rewrite saveDocument_store. simpl. by rewrite Ha, Hm.
      * by rewrite Ha, Hm.
    + left. by rewrite Ha, Hm.
  - apply showTextDocument_throw in Hs as ->. by left.
Qed.


Lemma openDiffView_after_store diffLines host data w :
  fileChangeMap (after (openDiffView diffLines host data w)) = fileChangeMap w
  \/ exists a b,
       fileChangeMap (after (openDiffView diffLines host data w))
       = <[Uri_toString (diffUri data w) :=
             {| originalContent := a; modifiedContent := b;
                changes := buildChanges (diffLines a b) |}]> (fileChangeMap w).
Proof.
  unfold openDiffView.
  destruct (showTextDocument _ w) as [[e ws]|e1 w1] eqn:Hs; simpl.
  - apply showTextDocument_store in Hs as (Hm & _).
    destruct (applyEdit host _ ws) as [w1|e1 w1] eqn:Ha;
      apply applyEdit_store in Ha as (Ha & _); simpl in *.
    + right. eexists _, _. rewrite Ha, Hm. rewrite insert_insert_eq.
      reflexivity.
    + left. by rewrite Ha, Hm.
  - apply showTextDocument_throw in Hs as ->. by left.
Qed.





(** ** Guards of the single resolutions *)

(** Claim C9.  When there is no active editor, or the active editor shows a
    document other than [uri], [acceptChange] and [rejectChange] complete
    without having done anything: the world they leave is the world they
    found, so the document is not edited, the change list is not modified and
    the changeset stays in the store, whatever index is passed. *)
Theorem inactive_document_is_left_alone
    (host : EditOutcome) (uri : string) (i : option Z) (w : World) :
  (forall editor, activeTextEditor w = Some editor ->
                  Uri_toString (document_uri editor) <> uri) ->
  acceptChange host uri i w = Ok w /\ rejectChange host uri i w = Ok w.
Proof.
  intros Hother. unfold acceptChange, rejectChange.
  destruct (activeTextEditor w) as [editor|]; [|done].
  specialize (Hother editor eq_refl).
  apply String.eqb_neq in Hother. by rewrite Hother.
Qed.

Lemma inactive_document_is_left_alone_witness :
  fileChangeMap elsewhereWorld !! Uri_toString sampleUri <> None
  /\ acceptChange EditApplied (Uri_toString sampleUri) (Some 0) elsewhereWorld
     = Ok elsewhereWorld
  /\ rejectChange EditApplied (Uri_toString sampleUri) (Some 0) elsewhereWorld
     = Ok elsewhereWorld.
Proof.
  split; [done|].
  apply (inactive_document_is_left_alone EditApplied (Uri_toString sampleUri)
           (Some 0) elsewhereWorld).
  intros editor [= <-]. vm_compute. discriminate.
Defined.

(** The cursor on a line that no record covers: nothing happens. *)
Lemma unmatched_cursor_is_noop host uri w editor fc :
  activeTextEditor w = Some editor ->
  fileChangeMap w !! uri = Some fc ->
  getChangeIndex editor fc = -1 ->
  acceptChange host uri None w = Ok w /\ rejectChange host uri None w = Ok w.
Proof.
  intros He Hfc Hidx. unfold acceptChange, rejectChange. rewrite He.
  destruct (String.eqb _ _); simpl; [|done]. rewrite Hfc.
  unfold targetIndex. by rewrite Hidx.
Qed.

(** An explicit index outside the list, negative or not smaller than its
    length: [changes[index]] is [undefined] and reading its [type] fails, so
    [acceptChange] and [rejectChange] fail with a [TypeError]; the world is
    left as it was. *)
Lemma explicit_index_outside host uri w editor fc (i : Z) :
  activeTextEditor w = Some editor ->
  Uri_toString (document_uri editor) = uri ->
  fileChangeMap w !! uri = Some fc ->
  i < 0 \/ Z.of_nat (length (changes fc)) <= i ->
  acceptChange host uri (Some i) w = Throw TypeError w
  /\ rejectChange host uri (Some i) w = Throw TypeError w.
Proof.
  intros He Hu Hfc Hout. unfold acceptChange, rejectChange. rewrite He.
  apply String.eqb_eq in Hu. rewrite Hu. simpl. rewrite Hfc.
  assert (Hat : atIndex (changes fc) i = None).
  { unfold atIndex. destruct (Z.ltb_spec i 0); [done|].
    rewrite lookup_ge_None_2; [done|lia]. }
  by rewrite Hat.
Qed.

(** Claim C5, on the code.  With three records in the list of the active
    document, [acceptChange] and [rejectChange] with the explicit index 3 (or
    -1) do not return silently: they fail with a [TypeError], leaving the
    world as it was. *)
Theorem explicit_index_out_of_bounds_throws :
  acceptChange EditApplied (Uri_toString sampleUri) (Some 3) threeChangesWorld
  = Throw TypeError threeChangesWorld
  /\ rejectChange EditApplied (Uri_toString sampleUri) (Some 3) threeChangesWorld
     = Throw TypeError threeChangesWorld
  /\ acceptChange EditApplied (Uri_toString sampleUri) (Some (-1))
       threeChangesWorld
     = Throw TypeError threeChangesWorld.
Proof. repeat split; reflexivity. Qed.

(** ** Emptying the change list *)


(** Claim C6.  When the changeset of the active document holds exactly one
    record and that record is resolved, by its explicit index or by the cursor
    standing in its span, with a host that does not fail the edit, then both
    [acceptChange] and [rejectChange] complete and the store has no changeset
    for the document afterwards. *)
Theorem last_record_removes_changeset
    (host : EditOutcome) (uri : string) (i : option Z) (w : World)
    (editor : TextEditor) (fc : FileChange) (c : Change) :
  activeTextEditor w = Some editor ->
  Uri_toString (document_uri editor) = uri ->
  fileChangeMap w !! uri = Some fc ->
  changes fc = [c] ->
  targetIndex i editor fc = Some 0 ->
  host <> EditThrows ->
  (exists w', acceptChange host uri i w = Ok w'
              /\ fileChangeMap w' !! uri = None)
  /\ (exists w', rejectChange host uri i w = Ok w'
                 /\ fileChangeMap w' !! uri = None).
Proof.
  intros He Hu Hfc Hcs Ht Hh.
  assert (Hk : changes fc !! 0%nat = Some c) by by rewrite Hcs.
  split.
  - rewrite (acceptChange_located _ _ _ _ _ _ 0%nat c He Hu Hfc Ht Hk).
    destruct (acceptAt_ok host editor uri fc 0%nat c w Hh) as [w' Hw'].
    exists w'. split; [done|]. apply acceptAt_store in Hw'.
    rewrite Hw', Hcs. simpl. apply lookup_delete_eq.
  - rewrite (rejectChange_located _ _ _ _ _ _ 0%nat c He Hu Hfc Ht Hk).
    destruct (rejectAt_ok host editor uri fc 0%nat c w Hh) as [w' Hw'].
    exists w'. split; [done|]. apply rejectAt_store in Hw'.
    rewrite Hw', Hcs. simpl. apply lookup_delete_eq.
Qed.
Lemma last_record_removes_changeset_witness :
  (exists w',
     acceptChange EditApplied (Uri_toString sampleUri) (Some 0) oneChangeWorld
     = Ok w' /\ fileChangeMap w' !! Uri_toString sampleUri = None)
  /\ (exists w',
        rejectChange EditApplied (Uri_toString sampleUri) (Some 0) oneChangeWorld
        = Ok w' /\ fileChangeMap w' !! Uri_toString sampleUri = None).
Proof.
  eapply (last_record_removes_changeset EditApplied (Uri_toString sampleUri)
            (Some 0) oneChangeWorld).
  - vm_compute. reflexivity.
  - vm_compute. reflexivity.
  - vm_compute. reflexivity.
  - vm_compute. reflexivity.
  - reflexivity.
  - discriminate.
Defined.

(** ** A host that does not apply the edit *)

Lemma planEdit_refused plan w : planEdit EditRefused plan w = Ok w.
Proof.
  destruct plan as [[[r|] v] n]; simpl; [|done]. by destruct (n =? 0).
Qed.


Lemma saveDocument_active w e :
  activeTextEditor w = Some e ->
  activeTextEditor (saveDocument w)
  = Some (if document_isDirty e then markSaved e else e)
  /\ files (saveDocument w)
     = (if document_isDirty e
        then <[path (document_uri e) := document_text e]> (files w)
        else files w)
  /\ effects (saveDocument w)
     = effects w
       ++ (if document_isDirty e
           then [setDecorations (document_uri e) deletionDecorationType [];
                 setDecorations (document_uri e) insertionDecorationType [];
                 document_save (document_uri e)]
           else []).
Proof.
  intros He. unfold saveDocument. rewrite He.
  destruct (document_isDirty e).
  - unfold documentSave. simpl. rewrite He. simpl.
    by rewrite <- app_assoc.
  - by rewrite app_nil_r.
Qed.

Lemma acceptAt_refused editor uri fc k c w w' :
  activeTextEditor w = Some editor ->
  acceptAt EditRefused editor uri fc k c w = Ok w' ->
  forall e', activeTextEditor w' = Some e' ->
             document_text e' = document_text editor.
Proof.
  intros He. unfold acceptAt. rewrite planEdit_refused. simpl.
  destruct (renumber _ _ _); intros [= <-] e'.
  - match goal with
    | |- activeTextEditor (saveDocument ?x) = _ -> _ =>
        destruct (saveDocument_active x editor He) as (-> & _)
    end.
    intros [= <-]. by destruct (document_isDirty editor).
  - simpl. rewrite He. by intros [= <-].
Qed.

Lemma rejectAt_refused editor uri fc k c w w' :
  activeTextEditor w = Some editor ->
  rejectAt EditRefused editor uri fc k c w = Ok w' ->
  forall e', activeTextEditor w' = Some e' ->
             document_text e' = document_text editor.
Proof.
  intros He. unfold rejectAt. rewrite planEdit_refused. simpl.
  destruct (renumber _ _ _).
  - destruct (String.eqb _ _); intros [= <-] e'; [|done].
    match goal with
    | |- activeTextEditor (saveDocument ?x) = _ -> _ =>
        destruct (saveDocument_active x editor He) as (-> & _)
    end.
    intros [= <-]. by destruct (document_isDirty editor).
  - intros [= <-] e'. simpl. rewrite He. by intros [= <-].
Qed.

(** Claim C4, as the code has it.  For a record that needs an edit: when the
    host's edit call fails, [acceptChange] and [rejectChange] fail with it and
    leave the world, changeset included, as it was.  When the host answers
    that it did not apply the edit, the answer is not looked at: the operation
    completes, the record is removed and the remaining records are renumbered
    as after an applied edit, and the text of the document is what it was. *)
Theorem edit_failure_outcomes
    (uri : string) (i : option Z) (w : World) (editor : TextEditor)
    (fc : FileChange) (k : nat) (c : Change) :
  activeTextEditor w = Some editor ->
  Uri_toString (document_uri editor) = uri ->
  fileChangeMap w !! uri = Some fc ->
  targetIndex i editor fc = Some (Z.of_nat k) ->
  changes fc !! k = Some c ->
  (acceptNet c <> 0 -> acceptChange EditThrows uri i w = Throw HostError w)
  /\ (rejectNet c <> 0 -> rejectChange EditThrows uri i w = Throw HostError w)
  /\ (exists w',
        acceptChange EditRefused uri i w = Ok w'
        /\ changesOf w' uri = renumber k (acceptNet c) (changes fc)
        /\ forall e', activeTextEditor w' = Some e' ->
                      document_text e' = document_text editor)
  /\ (exists w',
        rejectChange EditRefused uri i w = Ok w'
        /\ changesOf w' uri = renumber k (rejectNet c) (changes fc)
        /\ forall e', activeTextEditor w' = Some e' ->
                      document_text e' = document_text editor).
Proof.
  intros He Hu Hfc Ht Hk.
  rewrite !(acceptChange_located _ _ _ _ _ _ k c He Hu Hfc Ht Hk).
  rewrite !(rejectChange_located _ _ _ _ _ _ k c He Hu Hfc Ht Hk).
  split; [|split; [|split]].
  - intros Hn. unfold acceptAt.
    destruct c as [h|h|r a]; simpl in Hn |- *; try done.
    + by destruct (Z.eqb_spec (count h) 0).
    + by destruct (Z.eqb_spec (count r) 0).
  - intros Hn. unfold rejectAt.
    destruct c as [h|h|r a]; simpl in Hn |- *; try done.
    + by destruct (Z.eqb_spec (count h) 0).
    + by destruct (Z.eqb_spec (count a) 0).
  - destruct (acceptAt_ok EditRefused editor uri fc k c w) as [w' Hw'];
      [done|].
    exists w'. split; [done|]. split.
    + apply acceptAt_store in Hw'.
      rewrite (changesOf_storeAfter _ _ _ _ _ uri Hw').
      by rewrite decide_True.
    + by eapply acceptAt_refused.
  - destruct (rejectAt_ok EditRefused editor uri fc k c w) as [w' Hw'];
      [done|].
    exists w'. split; [done|]. split.
    + apply rejectAt_store in Hw'.
      rewrite (changesOf_storeAfter _ _ _ _ _ uri Hw').
      by rewrite decide_True.
    + by eapply rejectAt_refused.
Qed.

Lemma edit_failure_outcomes_witness :
  acceptChange EditThrows (Uri_toString sampleUri) (Some 0) threeChangesWorld
  = Throw HostError threeChangesWorld
  /\ exists w',
       acceptChange EditRefused (Uri_toString sampleUri) (Some 0)
         threeChangesWorld = Ok w'
       /\ changesOf w' (Uri_toString sampleUri)
          = renumber 0 3 threeChanges.
Proof.
  destruct (edit_failure_outcomes (Uri_toString sampleUri) (Some 0)
              threeChangesWorld
              (editorOf sampleUri (concat (replicate 20 (ln "x"))))
              {| originalContent := concat (replicate 20 (ln "x"));
                 modifiedContent := concat (replicate 20 (ln "x"));
                 changes := threeChanges |}
              0%nat
              (Removed {| line := 2; count := 3;
                          value := ln "x" ++ ln "x" ++ ln "x" |}))
    as (Hthrow & _ & (w' & Hw' & Hcs & _) & _); try reflexivity.
  split.
  - apply Hthrow. simpl. lia.
  - exists w'. split; [exact Hw'|exact Hcs].
Defined.

(** The host answers [false] to the edit of the first of three records: the
    call completes as if nothing were wrong, the document still holds the
    three lines that should have gone, and the record is gone from the list
    with the other two renumbered.  The operation has not failed and the
    changeset is not what it was. *)
Lemma edit_refused_still_renumbers :
  exists w',
    acceptChange EditRefused (Uri_toString sampleUri) (Some 0) threeChangesWorld
    = Ok w'
    /\ activeText w' = activeText threeChangesWorld
    /\ primary <$> changesOf threeChangesWorld (Uri_toString sampleUri)
       = [2; 8; 15]
    /\ primary <$> changesOf w' (Uri_toString sampleUri) = [5; 12].
Proof.
  eexists. split; [vm_compute; reflexivity|]. repeat split.
Qed.
(** ** Saving or closing once the list is empty *)

(** Membership in an effect log built from appended pieces. *)
Ltac solve_elem :=
  unfold drawEffects, clearDecorations in *; simpl in *;
  repeat match goal with
         | H : _ ∈ _ ++ _ |- _ => apply elem_of_app in H as [H|H]
         | H : _ ∈ _ :: _ |- _ => apply elem_of_cons in H as [H|H]
         | H : _ ∈ [] |- _ => by apply elem_of_nil in H
         end;
  try discriminate; try done;
  repeat (rewrite ?elem_of_app, ?elem_of_cons); auto 10.

Lemma planEdit_active host plan w w1 editor :
  activeTextEditor w = Some editor ->
  planEdit host plan w = Ok w1 ->
  exists e1,
    activeTextEditor w1 = Some e1
    /\ document_uri e1 = document_uri editor
    /\ (e1 = editor \/ document_isDirty e1 = true).
Proof.
  intros He. destruct plan as [[[r|] v] n]; simpl.
  - destruct (n =? 0); [intros [= <-]; exists editor; auto|].
    destruct host; simpl; intros [= <-]; simpl; rewrite ?He; simpl;
      eexists; eauto.
  - intros [= <-]. exists editor. auto.
Qed.





Lemma showTextDocument_same uri w editor :
  activeTextEditor w = Some editor ->
  document_uri editor = uri ->
  showTextDocument uri w = Ok (editor, w).
Proof.
  intros He <-. unfold showTextDocument. rewrite He.
  by rewrite String.eqb_refl.
Qed.

Lemma applyEdit_active host edits w w1 editor :
  activeTextEditor w = Some editor ->
  applyEdit host edits w = Ok w1 ->
  exists e1,
    activeTextEditor w1 = Some e1
    /\ document_uri e1 = document_uri editor
    /\ (e1 = editor \/ document_isDirty e1 = true).
Proof.
  intros He. unfold applyEdit. rewrite He.
  destruct host; [|intros [= <-]; exists editor; auto|done].
  destruct edits; [intros [= <-]; exists editor; auto|].
  destruct (applyTextEdits _ _); intros [= <-]; simpl; eexists; eauto.
Qed.

Lemma applyEdit_ok host edits w :
  host <> EditThrows -> exists w1, applyEdit host edits w = Ok w1.
Proof.
  intros Hh. unfold applyEdit. destruct host; [|by eexists|done].
  destruct (activeTextEditor w); [|by eexists].
  destruct edits; [by eexists|].
  destruct (applyTextEdits _ _); by eexists.
Qed.






(** ** A proposal equal to the document *)

Lemma specRecords_unchanged parts : forall lineNo,
  Forall (fun p => Diff.kind p = Diff.KUnchanged) parts ->
  specRecords lineNo false parts = [].
Proof.
  induction parts as [|p rest IH]; intros lineNo Hall; [done|].
  apply Forall_cons in Hall as [Hp Hrest].
  cbn [specRecords]. rewrite Hp. simpl. by apply IH.
Qed.

(** Claim C10.  When the proposed content, once its line ends are those of the
    document, equals the current text of the document, and the differ reports
    only unchanged parts for two equal texts, [openDiffView] completes with a
    changeset stored for the document whose change list is empty; the "add"
    event has been fired for the path and the has-changes context key has been
    set to [true], followed only by the drawing of an empty list. *)
Theorem unchanged_proposal_stores_empty_changeset
    (diffLines : text -> text -> list Diff.Part) (host : EditOutcome)
    (data : DiffData) (w : World) (editor : TextEditor) (ws : World) :
  showTextDocument (diffUri data w) w = Ok (editor, ws) ->
  normalizeEol (lineEolOf (document_eol editor)) (data_content data)
  = document_text editor ->
  Forall (fun p => Diff.kind p = Diff.KUnchanged)
         (diffLines (document_text editor) (document_text editor)) ->
  host <> EditThrows ->
  exists w',
    openDiffView diffLines host data w = Ok w'
    /\ fileChangeMap w' !! Uri_toString (diffUri data w)
       = Some {| originalContent := document_text editor;
                 modifiedContent := document_text editor;
                 changes := [] |}
    /\ effects w'
       = effects w
         ++ [onDidChange_fire add (fsPath (diffUri data w));
             setContext_hasChanges true]
         ++ drawEffects (document_uri editor) [].
Proof.
  intros Hshow Hsame Hunchanged Hh. unfold openDiffView.
  rewrite Hshow. simpl. rewrite Hsame.
  set (st := loopParts loopInit _).
  assert (Hcs : loopChanges st = []).
  { unfold st. rewrite loopParts_changes. simpl.
    by apply specRecords_unchanged. }
  apply showTextDocument_store in Hshow as (Hm & Hef & _).
  match goal with
  | |- context [applyEdit host ?edits ws] =>
      destruct (applyEdit_ok host edits ws Hh) as [w1 Hw1]; rewrite Hw1;
      apply applyEdit_store in Hw1 as (Hm1 & Hef1 & _)
  end.
  simpl in *. eexists. split; [reflexivity|]. rewrite Hcs. split.
  - simpl. by rewrite lookup_insert_eq.
  - simpl. rewrite Hef1, Hef. by rewrite <- app_assoc.
Qed.

Lemma unchanged_proposal_stores_empty_changeset_witness :
  exists w',
    openDiffView blockDiff EditApplied (dataFor sampleUri cleanText)
      (freshWorld sampleUri cleanText) = Ok w'
    /\ changes <$> fileChangeMap w' !! Uri_toString sampleUri = Some []
    /\ setContext_hasChanges true ∈ effects w'.
Proof.
  destruct (unchanged_proposal_stores_empty_changeset blockDiff EditApplied
              (dataFor sampleUri cleanText) (freshWorld sampleUri cleanText)
              {| document_uri := sampleUri; document_text := cleanText;
                 document_isDirty := false; document_eol := EOL_LF;
                 selection_line := 0 |}
              (freshWorld sampleUri cleanText))
    as (w' & Hrun & Hstore & Heff).
  - reflexivity.
  - reflexivity.
  - vm_compute. repeat constructor.
  - discriminate.
  - exists w'. split; [exact Hrun|]. split.
    + change (diffUri _ _) with sampleUri in Hstore. by rewrite Hstore.
    + rewrite Heff. solve_elem.
Defined.

(** ** Bulk resolution and lines without a line feed *)

(** Claim C1, on the code.  A file of three lines whose last line has no line
    feed, and a proposal that changes that last line.  The differ reports the
    old and the new last line as a removed and an added part, neither ending
    in a line feed, so the combined buffer holds both on one line.  Accepting
    all deletes that whole line and leaves neither the proposal nor the
    original; rejecting all deletes nothing and leaves the combined buffer.
    The single accept and the single reject of the same record give the
    proposal and the original. *)
Theorem bulk_resolution_breaks_last_line :
  let key := Uri_toString sampleUri in
  let built :=
    after (openDiffView blockDiff EditApplied (dataFor sampleUri draftProposal)
             (freshWorld sampleUri draftText)) in
  blockDiff draftText draftProposal
  = [ {| Diff.value := ln "A" ++ ln "B"; Diff.added := false;
         Diff.removed := false; Diff.count := 2 |};
      {| Diff.value := txt "C"; Diff.added := false; Diff.removed := true;
         Diff.count := 1 |};
      {| Diff.value := txt "D"; Diff.added := true; Diff.removed := false;
         Diff.count := 1 |} ]
  /\ activeText built = Some (ln "A" ++ ln "B" ++ txt "CD")
  /\ changesOf built key
     = [ Modified {| line := 2; count := 1; value := txt "C" |}
                  {| line := 3; count := 1; value := txt "D" |} ]
  /\ activeText (after (acceptAllChanges EditApplied sampleUri built))
     = Some (ln "A" ++ ln "B")
  /\ activeText (after (rejectAllChanges EditApplied sampleUri built))
     = Some (ln "A" ++ ln "B" ++ txt "CD")
  /\ activeText (after (acceptAllChanges EditApplied sampleUri built))
     <> Some draftProposal
  /\ activeText (after (rejectAllChanges EditApplied sampleUri built))
     <> Some draftText
  /\ activeText (after (acceptChange EditApplied key (Some 0) built))
     = Some draftProposal
  /\ activeText (after (rejectChange EditApplied key (Some 0) built))
     = Some draftText.
Proof. vm_compute. repeat split; discriminate. Qed.
(** ** Offsets of whole lines *)

Lemma offsetFrom_start s : offsetFrom s 0 0 = 0%nat.
Proof. by destruct s. Qed.

Lemma lineFeeds_app a b : lineFeeds (a ++ b) = (lineFeeds a + lineFeeds b)%nat.
Proof.
  induction a as [|c a IH]; simpl; [done|]. destruct (isLF c); lia.
Qed.

Lemma endsWithLF_app a b :
  endsWithLF a = true -> endsWithLF b = true -> endsWithLF (a ++ b) = true.
Proof.
  induction a as [|c a IH]; simpl; [done|]. intros Ha Hb.
  destruct a as [|c' a'].
  - simpl. destruct b; [done|]. done.
  - change ((c' :: a') ++ b) with (c' :: (a' ++ b)) in *. apply IH; done.
Qed.

Lemma endsWithLF_lineFeeds c s :
  endsWithLF (c :: s) = true -> isLF c = false -> (0 < lineFeeds s)%nat.
Proof.
  revert c. induction s as [|c' s IH]; intros c Hend Hc.
  - simpl in Hend. congruence.
  - change (endsWithLF (c' :: s) = true) in Hend. simpl.
    destruct (isLF c') eqn:Hc'; [lia|]. by apply (IH c').
Qed.

Lemma endsWithLF_tail c s : endsWithLF (c :: s) = true -> endsWithLF s = true.
Proof. destruct s; [done|]. done. Qed.

Lemma offsetFrom_whole v s l :
  endsWithLF v = true ->
  offsetFrom (v ++ s) (lineFeeds v + l) 0 = (length v + offsetFrom s l 0)%nat.
Proof.
  induction v as [|c v IH]; intros Hend; [done|].
  pose proof (endsWithLF_tail _ _ Hend) as Htail.
  simpl. destruct (isLF c) eqn:Hc.
  - simpl. by rewrite IH.
  - pose proof (endsWithLF_lineFeeds _ _ Hend Hc) as Hpos.
    destruct (lineFeeds v + l)%nat as [|n] eqn:Hn; [lia|].
    simpl. by rewrite IH.
Qed.

Lemma offsetFrom_past s : forall l c,
  (lineFeeds s < l)%nat -> offsetFrom s l c = length s.
Proof.
  induction s as [|ch s IH]; intros l c Hl; [done|].
  simpl in *. destruct l as [|l']; [lia|].
  destruct (isLF ch); f_equal; apply IH; lia.
Qed.

Lemma offsetAt_whole pre rest (n : Z) :
  endsWithLF pre = true -> Z.of_nat (lineFeeds pre) = n ->
  offsetAt (pre ++ rest) {| pos_line := n; pos_character := 0 |} = length pre.
Proof.
  intros Hend <-. unfold offsetAt. simpl. rewrite Nat2Z.id.
  rewrite <- (Nat.add_0_r (lineFeeds pre)).
  rewrite offsetFrom_whole by done. rewrite offsetFrom_start. lia.
Qed.

Lemma blockRange_spanOf pre v rest (l n : Z) newText :
  endsWithLF pre = true -> Z.of_nat (lineFeeds pre) = l ->
  wholeLinesText n v ->
  spanOf (pre ++ v ++ rest) (Range4 l 0 (l + n) 0, newText)
  = (length pre, (length pre + length v)%nat, newText).
Proof.
  intros Hpre Hl [Hn Hv].
  assert (Hord : isBefore {| pos_line := l + n; pos_character := 0 |}
                          {| pos_line := l; pos_character := 0 |} = false).
  { unfold isBefore. simpl.
    destruct (Z.ltb_spec (l + n) l); [lia|]. simpl.
    by rewrite andb_false_r. }
  unfold spanOf, Range4, Range_new. rewrite Hord. simpl.
  rewrite offsetAt_whole by done.
  rewrite app_assoc, offsetAt_whole.
  - by rewrite length_app.
  - by apply endsWithLF_app.
  - rewrite lineFeeds_app. lia.
Qed.

(** ** The spans of a bulk edit *)


Lemma acceptDelete_spans parts : forall pre lineNo (prev : bool),
  endsWithLF pre = true -> Z.of_nat (lineFeeds pre) = lineNo ->
  Forall (fun p => wholeLinesText (Diff.count p) (Diff.value p)) parts ->
  noRemovedTwice parts ->
  spanOf (pre ++ concat (Diff.value <$> parts))
    <$> flat_map acceptDelete (specRecords lineNo prev parts)
  = offsetSpans (length pre) Diff.KRemoved parts.
Proof.
  induction parts as [|p rest IH]; intros pre lineNo prev Hpre Hl Hall Hno;
    [done|].
  apply Forall_cons in Hall as [Hp Hrest].
  destruct Hno as [Hpq Hno].
  assert (Hnext : forall prev',
    spanOf (pre ++ concat (Diff.value <$> p :: rest))
      <$> flat_map acceptDelete
            (specRecords (lineNo + Diff.count p) prev' rest)
    = offsetSpans (length pre + length (Diff.value p)) Diff.KRemoved rest).
  { intros prev'. simpl. rewrite app_assoc, <- length_app.
    apply IH; [|rewrite lineFeeds_app; destruct Hp; lia|done..].
    apply endsWithLF_app; [done|]. by destruct Hp. }
  cbn [specRecords offsetSpans]. rewrite flat_map_app, fmap_app, Hnext.
  f_equal. unfold selected.
  pose proof (blockRange_spanOf pre (Diff.value p)
                (concat (Diff.value <$> rest)) lineNo (Diff.count p) []
                Hpre Hl Hp) as Hspan.
  destruct (Diff.kind p) eqn:Hk; [|by destruct prev|done].
  destruct rest as [|q rest']; [exact (f_equal (fun x => [x]) Hspan)|].
  destruct (Diff.kind q) eqn:Hkq.
  - by destruct Hpq.
  - exact (f_equal (fun x => [x]) Hspan).
  - exact (f_equal (fun x => [x]) Hspan).
Qed.

(** For a reject the span of an added part that closes a [Modified] record is
    issued with the record, that is, at the removed part before it. *)
Lemma rejectDelete_spans parts : forall pre lineNo (prev : bool),
  endsWithLF pre = true -> Z.of_nat (lineFeeds pre) = lineNo ->
  Forall (fun p => wholeLinesText (Diff.count p) (Diff.value p)) parts ->
  spanOf (pre ++ concat (Diff.value <$> parts))
    <$> flat_map rejectDelete (specRecords lineNo prev parts)
  = match parts with
    | q :: rest =>
        if prev && selected Diff.KAdded q
        then offsetSpans (length pre + length (Diff.value q)) Diff.KAdded rest
        else offsetSpans (length pre) Diff.KAdded parts
    | [] => []
    end.
Proof.
  induction parts as [|p rest IH]; intros pre lineNo prev Hpre Hl Hall;
    [done|].
  apply Forall_cons in Hall as [Hp Hrest].
  assert (Hpre' : endsWithLF (pre ++ Diff.value p) = true).
  { apply endsWithLF_app; [done|]. by destruct Hp. }
  assert (Hl' : Z.of_nat (lineFeeds (pre ++ Diff.value p))
                = lineNo + Diff.count p).
  { rewrite lineFeeds_app. destruct Hp. lia. }
  assert (Hnext : forall prev',
    spanOf (pre ++ concat (Diff.value <$> p :: rest))
      <$> flat_map rejectDelete
            (specRecords (lineNo + Diff.count p) prev' rest)
    = match rest with
      | q :: rest' =>
          if prev' && selected Diff.KAdded q
          then offsetSpans (length pre + length (Diff.value p)
                            + length (Diff.value q)) Diff.KAdded rest'
          else offsetSpans (length pre + length (Diff.value p))
                           Diff.KAdded rest
      | [] => []
      end).
  { intros prev'. simpl. rewrite app_assoc, <- length_app.
    by apply IH. }
  cbn [specRecords offsetSpans]. rewrite flat_map_app, fmap_app, Hnext.
  clear Hnext IH. unfold selected.
  destruct (Diff.kind p) eqn:Hk.
  - rewrite andb_false_r. simpl.
    destruct rest as [|q rest']; [done|].
    cbn [offsetSpans]. unfold selected.
    apply Forall_cons in Hrest as [Hq _].
    destruct (Diff.kind q) eqn:Hkq; simpl; [done| |done].
    f_equal.
    pose proof (blockRange_spanOf (pre ++ Diff.value p) (Diff.value q)
                  (concat (Diff.value <$> rest')) (lineNo + Diff.count p)
                  (Diff.count q) [] Hpre' Hl' Hq) as Hspan.
    rewrite <- !app_assoc, length_app in Hspan. exact Hspan.
  - assert (Hrest' :
      match rest with
      | q :: rest' =>
          if false && match Diff.kind q with
                      | Diff.KAdded => true
                      | _ => false
                      end
          then offsetSpans (length pre + length (Diff.value p)
                            + length (Diff.value q)) Diff.KAdded rest'
          else offsetSpans (length pre + length (Diff.value p))
                           Diff.KAdded rest
      | [] => []
      end = offsetSpans (length pre + length (Diff.value p)) Diff.KAdded rest).
    { by destruct rest. }
    rewrite Hrest'. destruct prev; simpl; [done|]. f_equal.
    exact (blockRange_spanOf pre (Diff.value p)
             (concat (Diff.value <$> rest)) lineNo (Diff.count p) []
             Hpre Hl Hp).
  - rewrite andb_false_r. simpl. by destruct rest.
Qed.

(** ** Applying the spans bottom-up *)

Lemma spliceSpan_delete pre v rest :
  spliceSpan (pre ++ v ++ rest)
    (length pre, (length pre + length v)%nat, []) = pre ++ rest.
Proof.
  unfold spliceSpan, spanStart, spanEnd, spanText. simpl.
  rewrite take_app_length. f_equal.
  rewrite app_assoc, <- length_app. by rewrite drop_app_length.
Qed.

Lemma foldr_offsetSpans k parts : forall pre,
  foldr (fun x doc => spliceSpan doc x)
        (pre ++ concat (Diff.value <$> parts))
        (offsetSpans (length pre) k parts)
  = pre ++ without k parts.
Proof.
  induction parts as [|p rest IH]; intros pre; [done|].
  cbn [offsetSpans]. rewrite foldr_app.
  change (concat (Diff.value <$> p :: rest))
    with (Diff.value p ++ concat (Diff.value <$> rest)).
  rewrite <- length_app, app_assoc, IH, <- app_assoc.
  unfold without. cbn [flat_map].
  destruct (selected k p); simpl; [|done].
  rewrite length_app. apply spliceSpan_delete.
Qed.

Lemma fold_left_reverse {A B} (f : A -> B -> A) (l : list B) (a : A) :
  fold_left f (reverse l) a = foldr (fun x acc => f acc x) a l.
Proof.
  revert a. induction l as [|x l IH]; intros a; [done|].
  rewrite reverse_cons, fold_left_app. simpl. by rewrite IH.
Qed.

Lemma offsetSpans_bounds k parts : forall base,
  Forall (fun x => (base <= spanStart x <= spanEnd x)%nat)
         (offsetSpans base k parts).
Proof.
  induction parts as [|p rest IH]; intros base; [constructor|].
  cbn [offsetSpans]. apply Forall_app. split.
  - destruct (selected k p); [|constructor].
    constructor; [|constructor]. unfold spanStart, spanEnd. simpl. lia.
  - eapply Forall_impl; [apply IH|]. intros x Hx. simpl in Hx. lia.
Qed.

Lemma disjointSpans_snoc l x :
  disjointSpans l = true ->
  Forall (fun y => (spanEnd x <= spanStart y)%nat) l ->
  disjointSpans (l ++ [x]) = true.
Proof.
  induction l as [|y l IH]; intros Hd Hall; [done|].
  apply Forall_cons in Hall as [Hy Hl].
  destruct l as [|z l'].
  - simpl. apply andb_true_intro. split; [|done]. by apply Nat.leb_le.
  - change (disjointSpans (y :: (z :: l') ++ [x]) = true).
    simpl in Hd |- *. apply andb_prop in Hd as [Hyz Hd].
    rewrite Hyz. simpl. apply IH; done.
Qed.

Lemma sortSpans_sorted l :
  disjointSpans l = true ->
  Forall (fun x => (spanStart x <= spanEnd x)%nat) l ->
  sortSpans l = l.
Proof.
  induction l as [|y l IH]; intros Hd Hall; [done|].
  apply Forall_cons in Hall as [Hy Hl].
  unfold sortSpans in *. simpl. destruct l as [|z l']; [done|].
  simpl in Hd. apply andb_prop in Hd as [Hzy Hd].
  rewrite IH by done. simpl.
  apply Forall_cons in Hl as [Hz _]. apply Nat.leb_le in Hzy.
  destruct (Nat.leb_spec (spanStart z) (spanStart y)); [done|lia].
Qed.

Lemma offsetSpans_disjoint k parts : forall base,
  disjointSpans (reverse (offsetSpans base k parts)) = true.
Proof.
  induction parts as [|p rest IH]; intros base; [done|].
  cbn [offsetSpans]. rewrite reverse_app.
  destruct (selected k p); [|by rewrite app_nil_r].
  apply disjointSpans_snoc; [apply IH|].
  apply Forall_reverse.
  eapply Forall_impl; [apply offsetSpans_bounds|].
  intros x Hx. unfold spanEnd at 1. simpl in *. lia.
Qed.

Lemma applyTextEdits_bulk doc edits k parts :
  doc = concat (Diff.value <$> parts) ->
  spanOf doc <$> edits = reverse (offsetSpans 0 k parts) ->
  applyTextEdits doc edits = Some (without k parts).
Proof.
  intros Hdoc Hspans. unfold applyTextEdits. rewrite Hspans.
  rewrite sortSpans_sorted.
  - rewrite offsetSpans_disjoint, fold_left_reverse, Hdoc.
    f_equal. apply (foldr_offsetSpans k parts []).
  - apply offsetSpans_disjoint.
  - apply Forall_reverse.
    eapply Forall_impl; [apply (offsetSpans_bounds k parts 0)|].
    intros x Hx. simpl in Hx. lia.
Qed.

Lemma flat_map_reverse {A B} (f : A -> list B) (l : list A) :
  (forall x, (length (f x) <= 1)%nat) ->
  flat_map f (reverse l) = reverse (flat_map f l).
Proof.
  intros Hf. induction l as [|x l IH]; [done|].
  rewrite reverse_cons, flat_map_app, IH. simpl.
  rewrite reverse_app, app_nil_r. f_equal.
  specialize (Hf x). destruct (f x) as [|y [|z ?]].
  - reflexivity.
  - reflexivity.
  - simpl in Hf. lia.
Qed.

Lemma without_removed parts : without Diff.KRemoved parts = modifiedOf parts.
Proof.
  unfold without, modifiedOf, selected.
  induction parts as [|p rest IH]; [done|]. simpl. rewrite IH.
  by destruct (Diff.kind p).
Qed.

Lemma without_added parts : without Diff.KAdded parts = originalOf parts.
Proof.
  unfold without, originalOf, selected.
  induction parts as [|p rest IH]; [done|]. simpl. rewrite IH.
  by destruct (Diff.kind p).
Qed.

(** ** Round trip for diffs made of whole lines *)

Lemma applyTextEdits_whole_document doc newText :
  applyTextEdits doc
    [(Range_new {| pos_line := 0; pos_character := 0 |}
                {| pos_line := lineCount doc; pos_character := 0 |}, newText)]
  = Some newText.
Proof.
  unfold applyTextEdits, Range_new, isBefore, lineCount. simpl.
  unfold spanOf, offsetAt, pos_line, pos_character, range_start, range_end.
  cbn [fst snd]. rewrite Nat2Z.id. change (Z.to_nat 0) with 0%nat.
  rewrite (offsetFrom_past doc (S (lineFeeds doc)) 0) by lia.
  rewrite offsetFrom_start.
  unfold spliceSpan, spanStart, spanEnd, spanText. cbn [fst snd].
  by rewrite take_0, drop_all, app_nil_r.
Qed.

Lemma buildChanges_spec parts : buildChanges parts = specRecords 0 false parts.
Proof. unfold buildChanges. by rewrite loopParts_changes. Qed.

Lemma buildContent_concat parts :
  buildContent parts = concat (Diff.value <$> parts).
Proof. unfold buildContent. by rewrite loopParts_combineContent. Qed.

Lemma acceptDelete_small c : (length (acceptDelete c) <= 1)%nat.
Proof. destruct c; simpl; lia. Qed.

Lemma rejectDelete_small c : (length (rejectDelete c) <= 1)%nat.
Proof. destruct c; simpl; lia. Qed.

Lemma acceptAll_edits parts :
  Forall (fun p => wholeLinesText (Diff.count p) (Diff.value p)) parts ->
  noRemovedTwice parts ->
  applyTextEdits (buildContent parts)
    (flat_map acceptDelete (reverse (buildChanges parts)))
  = Some (modifiedOf parts).
Proof.
  intros Hall Hno. rewrite <- without_removed.
  apply applyTextEdits_bulk; [apply buildContent_concat|].
  rewrite flat_map_reverse by apply acceptDelete_small.
  rewrite fmap_reverse. f_equal.
  rewrite buildContent_concat, buildChanges_spec.
  by apply (acceptDelete_spans parts [] 0 false).
Qed.

Lemma rejectAll_edits parts :
  Forall (fun p => wholeLinesText (Diff.count p) (Diff.value p)) parts ->
  applyTextEdits (buildContent parts)
    (flat_map rejectDelete (reverse (buildChanges parts)))
  = Some (originalOf parts).
Proof.
  intros Hall. rewrite <- without_added.
  apply applyTextEdits_bulk; [apply buildContent_concat|].
  rewrite flat_map_reverse by apply rejectDelete_small.
  rewrite fmap_reverse. f_equal.
  rewrite buildContent_concat, buildChanges_spec.
  etrans; [exact (rejectDelete_spans parts [] 0 false eq_refl eq_refl Hall)|].
  by destruct parts.
Qed.

Lemma applyEdit_applied edits w e t :
  activeTextEditor w = Some e ->
  applyTextEdits (document_text e) edits = Some t ->
  exists w1,
    applyEdit EditApplied edits w = Ok w1
    /\ (exists e1, activeTextEditor w1 = Some e1
                   /\ document_text e1 = t
                   /\ document_uri e1 = document_uri e)
    /\ fileChangeMap w1 = fileChangeMap w.
Proof.
  intros He Ht. unfold applyEdit. rewrite He. destruct edits as [|x edits].
  - exists w. split; [done|]. split; [|done]. exists e.
    split; [done|]. split; [|done]. by injection Ht.
  - rewrite Ht. eexists. split; [reflexivity|]. split; [|done].
    eexists. split; [reflexivity|]. done.
Qed.

Lemma openDiffView_built diffLines data w editor ws :
  showTextDocument (diffUri data w) w = Ok (editor, ws) ->
  let original := document_text editor in
  let modified :=
    normalizeEol (lineEolOf (document_eol editor)) (data_content data) in
  exists built e1,
    openDiffView diffLines EditApplied data w = Ok built
    /\ activeTextEditor built = Some e1
    /\ document_text e1 = buildContent (diffLines original modified)
    /\ document_uri e1 = document_uri editor
    /\ changesOf built (Uri_toString (diffUri data w))
       = buildChanges (diffLines original modified)
    /\ is_Some (fileChangeMap built !! Uri_toString (diffUri data w)).
Proof.
  intros Hshow original modified. unfold openDiffView. rewrite Hshow.
  cbv zeta. cbn [bindR fst snd].
  apply showTextDocument_store in Hshow as (Hm & _ & Ha & _).
  destruct (applyEdit_applied
              [(Range_new {| pos_line := 0; pos_character := 0 |}
                          {| pos_line := lineCount (document_text editor);
                             pos_character := 0 |},
                combineContent
                  (loopParts loopInit (diffLines original modified)))]
              ws editor _ Ha (applyTextEdits_whole_document _ _))
    as (w1 & Hw1 & (e1 & He1 & Ht1 & Hu1) & Hm1).
  subst original modified. rewrite Hw1. cbn [bindR].
  eexists _, e1. split; [reflexivity|]. simpl.
  split; [done|]. split; [done|]. split; [done|].
  unfold changesOf. simpl. rewrite lookup_insert_eq. split; [done|].
  by eexists.
Qed.

Lemma saveDocument_text w e :
  activeTextEditor w = Some e ->
  activeText (saveDocument w) = Some (document_text e).
Proof.
  intros He. unfold activeText.
  destruct (saveDocument_active w e He) as (-> & _).
  by destruct (document_isDirty e).
Qed.

Lemma acceptAllChanges_text uri w e t :
  activeTextEditor w = Some e ->
  document_uri e = uri ->
  applyTextEdits (document_text e)
    (flat_map acceptDelete (reverse (changesOf w (Uri_toString uri))))
  = Some t ->
  is_Some (fileChangeMap w !! Uri_toString uri) ->
  activeText (after (acceptAllChanges EditApplied uri w)) = Some t.
Proof.
  intros He Hu Ht [fc Hfc]. unfold acceptAllChanges, changesOf in *.
  rewrite Hfc in *. rewrite (showTextDocument_same _ _ _ He Hu).
  cbn [bindR fst snd].
  destruct (applyEdit_applied _ w e t He Ht)
    as (w1 & -> & (e1 & He1 & Ht1 & _) & _).
  cbn [bindR after]. unfold activeText. simpl.
  match goal with
  | |- document_text <$> activeTextEditor (saveDocument ?x) = _ =>
      pose proof (saveDocument_text x e1 He1) as Hs
  end.
  unfold activeText in Hs. by rewrite Hs, Ht1.
Qed.

Lemma rejectAllChanges_text uri w e t :
  activeTextEditor w = Some e ->
  document_uri e = uri ->
  applyTextEdits (document_text e)
    (flat_map rejectDelete (reverse (changesOf w (Uri_toString uri))))
  = Some t ->
  is_Some (fileChangeMap w !! Uri_toString uri) ->
  activeText (after (rejectAllChanges EditApplied uri w))
  = if String.eqb (scheme uri) "file" then Some t else None.
Proof.
  intros He Hu Ht [fc Hfc]. unfold rejectAllChanges, changesOf in *.
  rewrite Hfc in *. rewrite (showTextDocument_same _ _ _ He Hu).
  cbn [bindR fst snd].
  destruct (applyEdit_applied _ w e t He Ht)
    as (w1 & -> & (e1 & He1 & Ht1 & _) & _).
  cbn [bindR after]. rewrite Hu. destruct (String.eqb _ _); [|done].
  unfold activeText. simpl.
  match goal with
  | |- document_text <$> activeTextEditor (saveDocument ?x) = _ =>
      pose proof (saveDocument_text x e1 He1) as Hs
  end.
  unfold activeText in Hs. by rewrite Hs, Ht1.
Qed.

(** When the differ's parts are whole lines (every line of both texts ends
    in a line feed), applying the diff and then accepting all gives the
    proposal, and rejecting all gives the original (after which a document
    without a file is closed). *)
Theorem whole_line_round_trip
    (diffLines : text -> text -> list Diff.Part) (data : DiffData)
    (w : World) (editor : TextEditor) (ws : World) :
  showTextDocument (diffUri data w) w = Ok (editor, ws) ->
  document_uri editor = diffUri data w ->
  let original := document_text editor in
  let modified :=
    normalizeEol (lineEolOf (document_eol editor)) (data_content data) in
  lineDiffOf original modified (diffLines original modified) ->
  let built := after (openDiffView diffLines EditApplied data w) in
  activeText (after (acceptAllChanges EditApplied (diffUri data w) built))
  = Some modified
  /\ activeText (after (rejectAllChanges EditApplied (diffUri data w) built))
     = if String.eqb (scheme (diffUri data w)) "file"
       then Some original else None.
Proof.
  intros Hshow Huri original modified (Horig & Hmod & Hall & Hno) built.
  destruct (openDiffView_built diffLines data w editor ws Hshow)
    as (b & e1 & Hb & He1 & Ht1 & Hu1 & Hcs & Hstore).
  fold original modified in Ht1, Hcs.
  assert (Hbuilt : built = b) by (unfold built; by rewrite Hb).
  rewrite Hbuilt. clear built Hbuilt.
  split.
  - apply (acceptAllChanges_text _ _ e1); [done|congruence| |done].
    rewrite Hcs, Ht1, acceptAll_edits by done. by rewrite Hmod.
  - apply (rejectAllChanges_text _ _ e1); [done|congruence| |done].
    rewrite Hcs, Ht1, rejectAll_edits by done. by rewrite Horig.
Qed.

Lemma whole_line_round_trip_example :
  let built :=
    after (openDiffView blockDiff EditApplied (dataFor sampleUri cleanProposal)
             (freshWorld sampleUri cleanText)) in
  activeText (after (acceptAllChanges EditApplied sampleUri built))
  = Some cleanProposal
  /\ activeText (after (rejectAllChanges EditApplied sampleUri built))
     = Some cleanText.
Proof.
  apply (whole_line_round_trip blockDiff (dataFor sampleUri cleanProposal)
           (freshWorld sampleUri cleanText)
           {| document_uri := sampleUri; document_text := cleanText;
              document_isDirty := false; document_eol := EOL_LF;
              selection_line := 0 |}
           (freshWorld sampleUri cleanText)).
  - reflexivity.
  - reflexivity.
  - cbv zeta.
    match goal with
    | |- lineDiffOf ?a ?b (blockDiff ?a ?b) =>
        let d := eval vm_compute in (blockDiff a b) in
        change (blockDiff a b) with d
    end.
    split; [reflexivity|]. split; [reflexivity|]. split.
    + repeat constructor.
    + simpl. repeat split; intros [H1 H2]; discriminate.
Defined.

(** ** The lines an applied edit takes out of the document *)

Lemma lineFeeds_take_offset s : forall l,
  (l <= lineFeeds s)%nat -> lineFeeds (take (offsetFrom s l 0) s) = l.
Proof.
  induction s as [|c s IH]; intros l Hl; simpl in *; [lia|].
  destruct l as [|l']; [done|]. simpl.
  destruct (isLF c); [f_equal|]; apply IH; lia.
Qed.

Lemma lineFeeds_drop_offset s : forall l,
  (l <= lineFeeds s)%nat ->
  lineFeeds (drop (offsetFrom s l 0) s) = (lineFeeds s - l)%nat.
Proof.
  induction s as [|c s IH]; intros l Hl; simpl in *; [lia|].
  destruct l as [|l']; [simpl; destruct (isLF c); lia|]. simpl.
  destruct (isLF c); rewrite IH; lia.
Qed.

Lemma lineFeeds_replaceRange doc (l m : Z) newText :
  0 <= l <= m -> m <= Z.of_nat (lineFeeds doc) ->
  Z.of_nat (lineFeeds (replaceRange doc (blockRange l m) newText))
  = Z.of_nat (lineFeeds doc) - (m - l) + Z.of_nat (lineFeeds newText).
Proof.
  intros Hl Hfit.
  assert (Hord : isBefore {| pos_line := m; pos_character := 0 |}
                          {| pos_line := l; pos_character := 0 |} = false).
  { unfold isBefore. simpl.
    destruct (Z.ltb_spec m l); [lia|]. simpl.
    by rewrite andb_false_r. }
  unfold replaceRange, blockRange, Range_new, spanOf. rewrite Hord.
  unfold spliceSpan, spanStart, spanEnd, spanText, offsetAt. simpl.
  rewrite !lineFeeds_app.
  rewrite lineFeeds_take_offset, lineFeeds_drop_offset by lia. lia.
Qed.

(** The lines an applied edit of a single resolution takes out of a document
    that holds the lines of the record, read in the editor as long as it is
    open. *)
Lemma net_lines_when_open
    (uri : string) (i : option Z) (w : World) (editor : TextEditor)
    (fc : FileChange) (k : nat) (c : Change) :
  activeTextEditor w = Some editor ->
  Uri_toString (document_uri editor) = uri ->
  fileChangeMap w !! uri = Some fc ->
  targetIndex i editor fc = Some (Z.of_nat k) ->
  changes fc !! k = Some c ->
  wellShaped c ->
  inBuffer (document_text editor) c ->
  (forall w' e',
     acceptChange EditApplied uri i w = Ok w' ->
     activeTextEditor w' = Some e' ->
     Z.of_nat (lineFeeds (document_text e'))
     = Z.of_nat (lineFeeds (document_text editor)) - acceptNet c)
  /\ (forall w' e',
        rejectChange EditApplied uri i w = Ok w' ->
        activeTextEditor w' = Some e' ->
        Z.of_nat (lineFeeds (document_text e'))
        = Z.of_nat (lineFeeds (document_text editor)) - rejectNet c).
Proof.
  intros He Hu Hfc Ht Hk Hshape [Hfit Hholds].
  rewrite (acceptChange_located _ _ _ _ _ _ k c He Hu Hfc Ht Hk).
  rewrite (rejectChange_located _ _ _ _ _ _ k c He Hu Hfc Ht Hk).
  assert (Hsave : forall x e1 e',
    activeTextEditor x = Some e1 ->
    activeTextEditor (saveDocument x) = Some e' ->
    document_text e' = document_text e1).
  { intros x e1 e' Hx. destruct (saveDocument_active x e1 Hx) as (-> & _).
    intros [= <-]. by destruct (document_isDirty e1). }
  assert (Hplan : forall plan n,
    (plan = (None, [], 0) /\ n = 0
     \/ exists l m v, plan = (Some (blockRange l m), v, n)
                      /\ 0 <= l <= m
                      /\ m <= Z.of_nat (lineFeeds (document_text editor))
                      /\ m - l - Z.of_nat (lineFeeds v) = n) ->
    forall w1 e1, planEdit EditApplied plan w = Ok w1 ->
      activeTextEditor w1 = Some e1 ->
      Z.of_nat (lineFeeds (document_text e1))
      = Z.of_nat (lineFeeds (document_text editor)) - n).
  { intros plan n [[-> ->]|(l & m & v & -> & Hl & Hle & Hv)] w1 e1.
    - simpl. intros [= <-]. rewrite He. intros [= <-]. lia.
    - simpl. destruct (Z.eqb_spec n 0) as [->|Hne].
      + intros [= <-]. rewrite He. intros [= <-]. lia.
      + intros [= <-]. simpl. rewrite He. simpl. intros [= <-]. simpl.
        rewrite lineFeeds_replaceRange by lia. lia. }
  split.
  - intros w' e'. unfold acceptAt. rewrite acceptPlan_count.
    destruct (planEdit EditApplied (acceptPlan c) w) as [w1|] eqn:Hp; [|done].
    simpl.
    assert (Hn : forall e1, activeTextEditor w1 = Some e1 ->
      Z.of_nat (lineFeeds (document_text e1))
      = Z.of_nat (lineFeeds (document_text editor)) - acceptNet c).
    { intros e1. eapply (Hplan _ (acceptNet c)); [|exact Hp].
      destruct c as [h|h|r a]; simpl in Hshape, Hfit, Hholds |- *.
      - right. exists (line h), (line h + count h), [].
        unfold holdsLines in *. repeat split; first [done|simpl; lia].
      - by left.
      - right. exists (line r), (line a + count a), (value a).
        destruct Hshape as (? & ? & ? & Hadj), Hholds as [? Ha].
        unfold holdsLines in *. repeat split; first [done|simpl; lia]. }
    destruct (planEdit_active _ _ _ _ _ He Hp) as (e1 & He1 & _).
    destruct (renumber _ _ _); intros [= <-].
    + intros He'.
      assert (Hx : document_text e' = document_text e1).
      { eapply Hsave; [|exact He']. simpl. exact He1. }
      rewrite Hx. by apply Hn.
    + simpl. apply Hn.
  - intros w' e'. unfold rejectAt. rewrite rejectPlan_count.
    destruct (planEdit EditApplied (rejectPlan c) w) as [w1|] eqn:Hp; [|done].
    simpl.
    assert (Hn : forall e1, activeTextEditor w1 = Some e1 ->
      Z.of_nat (lineFeeds (document_text e1))
      = Z.of_nat (lineFeeds (document_text editor)) - rejectNet c).
    { intros e1. eapply (Hplan _ (rejectNet c)); [|exact Hp].
      destruct c as [h|h|r a]; simpl in Hshape, Hfit, Hholds |- *.
      - by left.
      - right. exists (line h), (line h + count h), [].
        unfold holdsLines in *. repeat split; first [done|simpl; lia].
      - right. exists (line r), (line a + count a), (value r).
        destruct Hshape as (? & ? & ? & Hadj), Hholds as [Hr ?].
        unfold holdsLines in *. repeat split; first [done|simpl; lia]. }
    destruct (planEdit_active _ _ _ _ _ He Hp) as (e1 & He1 & _).
    destruct (renumber _ _ _).
    + destruct (String.eqb _ _); intros [= <-]; [|done].
      intros He'.
      assert (Hx : document_text e' = document_text e1).
      { eapply Hsave; [|exact He']. simpl. exact He1. }
      rewrite Hx. by apply Hn.
    + intros [= <-]. simpl. apply Hn.
Qed.

Lemma acceptAt_active host editor uri fc k c w w' :
  activeTextEditor w = Some editor ->
  acceptAt host editor uri fc k c w = Ok w' ->
  exists e', activeTextEditor w' = Some e'.
Proof.
  intros He. unfold acceptAt.
  destruct (planEdit host (acceptPlan c) w) as [w1|] eqn:Hp; [|done].
  destruct (planEdit_active _ _ _ _ _ He Hp) as (e1 & He1 & _).
  cbn [bindR drawChanges changes withChanges].
  destruct (renumber _ _ _); intros [= <-].
  - match goal with
    | |- context [saveDocument ?x] =>
        destruct (saveDocument_active x e1 He1) as (-> & _)
    end.
    by eexists.
  - by exists e1.
Qed.

Lemma renumber_nil cs k c n :
  cs !! k = Some c -> renumber k n cs = [] -> cs = [c].
Proof.
  intros Hk. rewrite (renumber_lookup _ _ _ _ Hk). intros Hnil.
  apply app_eq_nil in Hnil as [Htake Hdrop].
  apply fmap_nil_inv in Hdrop.
  rewrite <- (take_drop_middle cs k c Hk). by rewrite Htake, Hdrop.
Qed.

Lemma rejectAt_active host editor uri fc k c w w' :
  activeTextEditor w = Some editor ->
  changes fc !! k = Some c ->
  rejectAt host editor uri fc k c w = Ok w' ->
  (exists e', activeTextEditor w' = Some e')
  \/ (activeTextEditor w' = None /\ changes fc = [c]
      /\ String.eqb (scheme (document_uri editor)) "file" = false).
Proof.
  intros He Hk. unfold rejectAt. rewrite rejectPlan_count.
  destruct (planEdit host (rejectPlan c) w) as [w1|] eqn:Hp; [|done].
  destruct (planEdit_active _ _ _ _ _ He Hp) as (e1 & He1 & _).
  cbn [bindR drawChanges changes withChanges].
  destruct (renumber _ _ _) eqn:Hr.
  - destruct (String.eqb _ _); intros [= <-].
    + left.
      match goal with
      | |- context [saveDocument ?x] =>
          destruct (saveDocument_active x e1 He1) as (-> & _)
      end.
      by eexists.
    + right. split; [done|]. split; [|done]. by eapply renumber_nil.
  - intros [= <-]. left. by exists e1.
Qed.

(** When the host applies the edit of a single resolution to a document that
    holds the lines of the record, the resolution completes and the document
    loses exactly the number of lines by which the later records are
    renumbered: the count of the removed hunk on an accept, of the added hunk
    on a reject (a reject that empties the list of a document that is not a
    file closes the editor instead). *)
Theorem resolution_edit_net_lines
    (uri : string) (i : option Z) (w : World) (editor : TextEditor)
    (fc : FileChange) (k : nat) (c : Change) :
  activeTextEditor w = Some editor ->
  Uri_toString (document_uri editor) = uri ->
  fileChangeMap w !! uri = Some fc ->
  targetIndex i editor fc = Some (Z.of_nat k) ->
  changes fc !! k = Some c ->
  wellShaped c ->
  inBuffer (document_text editor) c ->
  (exists w' e',
     acceptChange EditApplied uri i w = Ok w'
     /\ activeTextEditor w' = Some e'
     /\ Z.of_nat (lineFeeds (document_text e'))
        = Z.of_nat (lineFeeds (document_text editor)) - acceptNet c)
  /\ (exists w',
        rejectChange EditApplied uri i w = Ok w'
        /\ match activeTextEditor w' with
           | Some e' =>
               Z.of_nat (lineFeeds (document_text e'))
               = Z.of_nat (lineFeeds (document_text editor)) - rejectNet c
           | None =>
               changes fc = [c]
               /\ String.eqb (scheme (document_uri editor)) "file" = false
           end).
Proof.
  intros He Hu Hfc Ht Hk Hshape Hbuf.
  destruct (net_lines_when_open uri i w editor fc k c He Hu Hfc Ht Hk
              Hshape Hbuf) as [Ha Hr].
  rewrite (acceptChange_located _ _ _ _ _ _ k c He Hu Hfc Ht Hk) in *.
  rewrite (rejectChange_located _ _ _ _ _ _ k c He Hu Hfc Ht Hk) in *.
  split.
  - destruct (acceptAt_ok EditApplied editor uri fc k c w) as [w' Hw'];
      [done|].
    destruct (acceptAt_active _ _ _ _ _ _ _ _ He Hw') as [e' He'].
    exists w', e'. split; [done|]. split; [done|]. by apply (Ha w').
  - destruct (rejectAt_ok EditApplied editor uri fc k c w) as [w' Hw'];
      [done|].
    exists w'. split; [done|].
    destruct (rejectAt_active _ _ _ _ _ _ _ _ He Hk Hw')
      as [[e' He']|(-> & Hone)]; [|done].
    rewrite He'. by apply (Hr w').
Qed.

(** ** The scenarios of the specification *)

(** Three lines, the middle one replaced: one [Modified] record at line 1;
    accepting it gives the proposal, empties the list, removes the changeset
    and saves the file. *)
Example scenario_replaced_line :
  let key := Uri_toString sampleUri in
  let accepted := after (acceptChange EditApplied key (Some 0) oneChangeWorld) in
  changesOf oneChangeWorld key
  = [ Modified {| line := 1; count := 1; value := ln "B" |}
               {| line := 2; count := 1; value := ln "X" |} ]
  /\ activeText accepted = Some (ln "A" ++ ln "X" ++ ln "C")
  /\ fileChangeMap accepted !! key = None
  /\ files accepted !! path sampleUri = Some (ln "A" ++ ln "X" ++ ln "C").
Proof. vm_compute. repeat split. Qed.

(** A line inserted between two lines: one standalone [Added] record at line
    1; rejecting it gives back the original. *)
Example scenario_inserted_line :
  let key := Uri_toString sampleUri in
  let built :=
    after (openDiffView blockDiff EditApplied
             (dataFor sampleUri (ln "A" ++ ln "Y" ++ ln "B"))
             (freshWorld sampleUri (ln "A" ++ ln "B"))) in
  changesOf built key = [ Added {| line := 1; count := 1; value := ln "Y" |} ]
  /\ activeText (after (rejectChange EditApplied key (Some 0) built))
     = Some (ln "A" ++ ln "B").
Proof. vm_compute. repeat split. Qed.
(** ** The record under the cursor ([getChangeIndex]) *)

Lemma changeHit_covers ln c : changeHit ln c = true <-> covers c ln.
Proof.
  unfold covers.
  destruct c; simpl; unfold hunkHit;
    rewrite andb_true_iff, Z.leb_le, Z.ltb_lt; done.
Qed.

Lemma getChangeIndexFrom_spec cs : forall i ln,
  (getChangeIndexFrom i ln cs = -1
   /\ forall c, c ∈ cs -> ~ covers c ln)
  \/ exists k c,
       getChangeIndexFrom i ln cs = i + Z.of_nat k
       /\ cs !! k = Some c /\ covers c ln
       /\ forall j c', (j < k)%nat -> cs !! j = Some c' -> ~ covers c' ln.
Proof.
  induction cs as [|a cs IH]; intros i ln.
  - left. split; [done|]. intros c Hc. by apply elem_of_nil in Hc.
  - simpl. destruct (changeHit ln a) eqn:Ha.
    + right. exists 0%nat, a. split; [lia|]. split; [done|].
      split; [by apply changeHit_covers|]. intros j c' Hj. lia.
    + assert (Hna : ~ covers a ln).
      { rewrite <- changeHit_covers. congruence. }
      destruct (IH (i + 1) ln) as [[Hm Hall]|(k & c & Hk & Hl & Hc & Hmin)].
      * left. split; [done|]. intros c Hc.
        apply elem_of_cons in Hc as [->|Hc]; [done|by apply Hall].
      * right. exists (S k), c. split; [lia|]. split; [done|].
        split; [done|]. intros [|j] c' Hj Hl'.
        -- injection Hl' as <-. done.
        -- apply (Hmin j); [lia|done].
Qed.

(** [getChangeIndex] answers -1 exactly when no record's span holds the
    cursor line; otherwise it answers the least index of a record whose span
    holds it. *)
Theorem getChangeIndex_first_hit (editor : TextEditor) (fc : FileChange) :
  (getChangeIndex editor fc = -1
   /\ forall c, c ∈ changes fc -> ~ covers c (selection_line editor))
  \/ exists k c,
       getChangeIndex editor fc = Z.of_nat k
       /\ changes fc !! k = Some c
       /\ covers c (selection_line editor)
       /\ forall j c', (j < k)%nat -> changes fc !! j = Some c' ->
                       ~ covers c' (selection_line editor).
Proof.
  unfold getChangeIndex.
  destruct (getChangeIndexFrom_spec (changes fc) 0 (selection_line editor))
    as [H|(k & c & Hk & H)]; [by left|].
  right. exists k, c. split; [lia|done].
Qed.

Lemma ordered_lookup_precedes cs j k c d :
  ordered cs -> (j < k)%nat -> cs !! j = Some c -> cs !! k = Some d ->
  precedes c d.
Proof.
  intros Hord Hjk Hj Hk.
  rewrite <- (take_drop_middle cs j c Hj) in Hord, Hk.
  apply StronglySorted_app in Hord as (_ & _ & Hs).
  apply StronglySorted_cons in Hs as [Hall _].
  rewrite Forall_forall in Hall. apply Hall.
  assert (Hlen : length (take j cs) = j).
  { apply length_take_le. apply lookup_lt_Some in Hj. lia. }
  rewrite lookup_app_r in Hk by lia. rewrite Hlen in Hk.
  destruct (k - j)%nat as [|m] eqn:Hm; [lia|]. simpl in Hk.
  by eapply list_elem_of_lookup_2.
Qed.

Lemma getChangeIndex_covered editor fc k c :
  ordered (changes fc) ->
  changes fc !! k = Some c -> covers c (selection_line editor) ->
  getChangeIndex editor fc = Z.of_nat k.
Proof.
  intros Hord Hk Hc.
  unfold getChangeIndex.
  destruct (getChangeIndexFrom_spec (changes fc) 0 (selection_line editor))
    as [[_ Hall]|(k' & c' & -> & Hk' & Hc' & Hmin)].
  - exfalso. eapply Hall; [|exact Hc]. by eapply list_elem_of_lookup_2.
  - simpl. f_equal. destruct (Nat.lt_trichotomy k' k) as [Hlt|[->|Hlt]]; [|done|].
    + destruct (ordered_lookup_precedes _ _ _ _ _ Hord Hlt Hk' Hk) as [_ H].
      unfold covers in *. lia.
    + exfalso. by apply (Hmin k c).
Qed.

(** In a change list with ordered, non-overlapping spans, a single accept or
    reject without an index, with the cursor on any line of the span of the
    record at index [k], does what the same command does with the explicit
    index [k]. *)
Theorem cursor_resolves_record_under_it
    (host : EditOutcome) (uri : string) (w : World) (editor : TextEditor)
    (fc : FileChange) (k : nat) (c : Change) :
  activeTextEditor w = Some editor ->
  fileChangeMap w !! uri = Some fc ->
  ordered (changes fc) ->
  changes fc !! k = Some c ->
  covers c (selection_line editor) ->
  acceptChange host uri None w = acceptChange host uri (Some (Z.of_nat k)) w
  /\ rejectChange host uri None w = rejectChange host uri (Some (Z.of_nat k)) w.
Proof.
  intros He Hfc Hord Hk Hc.
  pose proof (getChangeIndex_covered editor fc k c Hord Hk Hc) as Hidx.
  unfold acceptChange, rejectChange. rewrite He.
  destruct (negb _); [done|]. rewrite Hfc. unfold targetIndex. rewrite Hidx.
  destruct (Z.eqb_spec (Z.of_nat k) (-1)); [lia|done].
Qed.

Lemma cursor_resolves_record_under_it_witness :
  acceptChange EditApplied (Uri_toString sampleUri) None
    (cursorAt 9 threeChangesWorld)
  = acceptChange EditApplied (Uri_toString sampleUri) (Some 1)
      (cursorAt 9 threeChangesWorld)
  /\ rejectChange EditApplied (Uri_toString sampleUri) None
       (cursorAt 9 threeChangesWorld)
     = rejectChange EditApplied (Uri_toString sampleUri) (Some 1)
         (cursorAt 9 threeChangesWorld).
Proof.
  apply (cursor_resolves_record_under_it EditApplied (Uri_toString sampleUri)
           (cursorAt 9 threeChangesWorld)
           {| document_uri := sampleUri;
              document_text := concat (replicate 20 (ln "x"));
              document_isDirty := true; document_eol := EOL_LF;
              selection_line := 9 |}
           {| originalContent := concat (replicate 20 (ln "x"));
              modifiedContent := concat (replicate 20 (ln "x"));
              changes := threeChanges |}
           1%nat
           (Added {| line := 8; count := 2; value := ln "x" ++ ln "x" |})).
  - reflexivity.
  - reflexivity.
  - repeat constructor; simpl; lia.
  - reflexivity.
  - unfold covers. simpl. lia.
Defined.

(** With the cursor on a line that lies in no record's span, a single accept
    or reject without an index completes and leaves the world as it found
    it: no edit, no change to the list, no event. *)
Theorem cursor_outside_every_record_is_noop
    (host : EditOutcome) (uri : string) (w : World) (editor : TextEditor)
    (fc : FileChange) :
  activeTextEditor w = Some editor ->
  fileChangeMap w !! uri = Some fc ->
  (forall c, c ∈ changes fc -> ~ covers c (selection_line editor)) ->
  acceptChange host uri None w = Ok w /\ rejectChange host uri None w = Ok w.
Proof.
  intros He Hfc Hout.
  assert (Hidx : getChangeIndex editor fc = -1).
  { unfold getChangeIndex.
    destruct (getChangeIndexFrom_spec (changes fc) 0 (selection_line editor))
      as [[H _]|(k & c & _ & Hk & Hc & _)]; [done|].
    exfalso. eapply Hout; [|exact Hc]. by eapply list_elem_of_lookup_2. }
  unfold acceptChange, rejectChange. rewrite He.
  destruct (negb _); [done|]. rewrite Hfc. unfold targetIndex.
  by rewrite Hidx.
Qed.

Lemma cursor_outside_every_record_is_noop_witness :
  acceptChange EditApplied (Uri_toString sampleUri) None
    (cursorAt 6 threeChangesWorld)
  = Ok (cursorAt 6 threeChangesWorld)
  /\ rejectChange EditApplied (Uri_toString sampleUri) None
       (cursorAt 6 threeChangesWorld)
     = Ok (cursorAt 6 threeChangesWorld).
Proof.
  apply (cursor_outside_every_record_is_noop EditApplied
           (Uri_toString sampleUri) (cursorAt 6 threeChangesWorld)
           {| document_uri := sampleUri;
              document_text := concat (replicate 20 (ln "x"));
              document_isDirty := true; document_eol := EOL_LF;
              selection_line := 6 |}
           {| originalContent := concat (replicate 20 (ln "x"));
              modifiedContent := concat (replicate 20 (ln "x"));
              changes := threeChanges |}).
  - reflexivity.
  - reflexivity.
  - intros c Hc. unfold covers, threeChanges in *.
    repeat (apply elem_of_cons in Hc as [->|Hc]; [simpl; lia|]).
    by apply elem_of_nil in Hc.
Defined.

(** ** Code lenses *)

Lemma provideCodeLenses_elem lens document w :
  lens ∈ provideCodeLenses document w ->
  exists fc k c,
    fileChangeMap w !! Uri_toString document = Some fc
    /\ changes fc !! k = Some c
    /\ lens_arguments lens = (Uri_toString document, Z.of_nat k)
    /\ lens_range lens
       = Range_new {| pos_line := primary c; pos_character := 0 |}
                   {| pos_line := primary c; pos_character := 0 |}.
Proof.
  unfold provideCodeLenses.
  destruct (fileChangeMap w !! Uri_toString document) as [fc|];
    [|by intros H; apply elem_of_nil in H].
  intros Hin. apply list_elem_of_join in Hin as (l & Hl & Hin).
  apply list_elem_of_lookup in Hin as [k Hk].
  rewrite list_lookup_imap in Hk.
  destruct (changes fc !! k) as [c|] eqn:Hc; [|done].
  injection Hk as <-. exists fc, k, c. split; [done|]. split; [done|].
  apply elem_of_cons in Hl as [->|Hl]; [by destruct c|].
  apply elem_of_cons in Hl as [->|Hl]; [by destruct c|].
  by apply elem_of_nil in Hl.
Qed.

Lemma planEdit_throw_error host plan w e w' :
  planEdit host plan w = Throw e w' -> e = HostError.
Proof.
  destruct plan as [[[r|] v] n]; simpl; [|done].
  destruct (n =? 0); [done|]. destruct host; simpl; [done..|].
  by intros [= <- _].
Qed.

Lemma acceptAt_throw_error host editor uri fc k c w e w' :
  acceptAt host editor uri fc k c w = Throw e w' -> e = HostError.
Proof.
  unfold acceptAt.
  destruct (planEdit host (acceptPlan c) w) as [w1|e1 w1] eqn:Hp; simpl.
  - destruct (renumber _ _ _); done.
  - intros [= <- _]. by eapply planEdit_throw_error.
Qed.

Lemma rejectAt_throw_error host editor uri fc k c w e w' :
  rejectAt host editor uri fc k c w = Throw e w' -> e = HostError.
Proof.
  unfold rejectAt.
  destruct (planEdit host (rejectPlan c) w) as [w1|e1 w1] eqn:Hp; simpl.
  - destruct (renumber _ _ _); [|done]. by destruct (String.eqb _ _).
  - intros [= <- _]. by eapply planEdit_throw_error.
Qed.

(** Every code lens shown for the active document stands on the first line of
    a record and carries the document's key and that record's index:
    [acceptChange] and [rejectChange], called with the arguments of the lens,
    do not fail on a missing record, and with a host that does not fail the
    edit they complete and remove exactly that record, renumbering the ones
    after it. *)
Theorem code_lens_resolves_its_record
    (host : EditOutcome) (w : World) (editor : TextEditor) (lens : CodeLens) :
  activeTextEditor w = Some editor ->
  lens ∈ provideCodeLenses (document_uri editor) w ->
  let uri := (lens_arguments lens).1 in
  let i := (lens_arguments lens).2 in
  exists fc k c,
    fileChangeMap w !! uri = Some fc
    /\ changes fc !! k = Some c /\ i = Z.of_nat k
    /\ pos_line (range_start (lens_range lens)) = primary c
    /\ (forall w', acceptChange host uri (Some i) w <> Throw TypeError w')
    /\ (forall w', rejectChange host uri (Some i) w <> Throw TypeError w')
    /\ (host <> EditThrows ->
        (exists w', acceptChange host uri (Some i) w = Ok w'
           /\ changesOf w' uri = renumber k (acceptNet c) (changes fc))
        /\ (exists w', rejectChange host uri (Some i) w = Ok w'
           /\ changesOf w' uri = renumber k (rejectNet c) (changes fc))).
Proof.
  intros He Hin.
  apply provideCodeLenses_elem in Hin as (fc & k & c & Hfc & Hk & Harg & Hr).
  rewrite Harg. cbn [fst snd]. exists fc, k, c.
  split; [done|]. split; [done|]. split; [done|].
  split; [rewrite Hr; unfold Range_new; by destruct (isBefore _ _)|].
  rewrite (acceptChange_located host _ (Some (Z.of_nat k)) w editor fc k c
             He eq_refl Hfc eq_refl Hk).
  rewrite (rejectChange_located host _ (Some (Z.of_nat k)) w editor fc k c
             He eq_refl Hfc eq_refl Hk).
  split; [|split].
  - intros w' H. by apply acceptAt_throw_error in H.
  - intros w' H. by apply rejectAt_throw_error in H.
  - intros Hh. split.
    + destruct (acceptAt_ok host editor (Uri_toString (document_uri editor))
                  fc k c w Hh) as [w' Hw'].
      exists w'. split; [done|]. apply acceptAt_store in Hw'.
      rewrite (changesOf_storeAfter _ _ _ _ _ _ Hw').
      by rewrite decide_True.
    + destruct (rejectAt_ok host editor (Uri_toString (document_uri editor))
                  fc k c w Hh) as [w' Hw'].
      exists w'. split; [done|]. apply rejectAt_store in Hw'.
      rewrite (changesOf_storeAfter _ _ _ _ _ _ Hw').
      by rewrite decide_True.
Qed.

Lemma code_lens_resolves_its_record_witness :
  exists w',
    acceptChange EditApplied (Uri_toString sampleUri) (Some 1) threeChangesWorld
    = Ok w'
    /\ primary <$> changesOf w' (Uri_toString sampleUri) = [2; 15].
Proof.
  destruct (code_lens_resolves_its_record EditApplied threeChangesWorld
              (editorOf sampleUri (concat (replicate 20 (ln "x"))))
              {| lens_range := Range4 8 0 8 0; lens_title := "Accept";
                 lens_command := "aider-composer.AcceptChange";
                 lens_arguments := (Uri_toString sampleUri, 1) |})
    as (fc & k & c & Hfc & Hk & Hi & _ & _ & _ & Hrun).
  - reflexivity.
  - apply list_elem_of_lookup. exists 2%nat. reflexivity.
  - cbn [lens_arguments fst snd] in *.
    destruct Hrun as [(w' & Hw' & Hcs) _]; [discriminate|].
    exists w'. split; [exact Hw'|]. rewrite Hcs.
    injection Hfc as <-. assert (k = 1%nat) as -> by lia.
    injection Hk as <-. reflexivity.
Defined.

Lemma length_join_imap {A B} (n : nat) (l : list A) :
  forall f : nat -> A -> list B,
  (forall i x, length (f i x) = n) ->
  length (mjoin (imap f l)) = (n * length l)%nat.
Proof.
  induction l as [|a l IH]; intros f Hf; simpl; [lia|].
  rewrite length_app, Hf, (IH (f ∘ S)); [lia|].
  intros i x. apply Hf.
Qed.

(** Every record of a document's change list has an Accept and a Reject lens
    on its first line, carrying the document's key and the record's index,
    and there are no other lenses: two per record. *)
Theorem every_record_has_its_lenses
    (document : Uri) (w : World) (fc : FileChange) (k : nat) (c : Change) :
  fileChangeMap w !! Uri_toString document = Some fc ->
  changes fc !! k = Some c ->
  let range := Range4 (primary c) 0 (primary c) 0 in
  {| lens_range := range; lens_title := "Accept";
     lens_command := "aider-composer.AcceptChange";
     lens_arguments := (Uri_toString document, Z.of_nat k) |}
    ∈ provideCodeLenses document w
  /\ {| lens_range := range; lens_title := "Reject";
        lens_command := "aider-composer.RejectChange";
        lens_arguments := (Uri_toString document, Z.of_nat k) |}
       ∈ provideCodeLenses document w
  /\ length (provideCodeLenses document w) = (2 * length (changes fc))%nat.
Proof.
  intros Hfc Hk range. unfold provideCodeLenses. rewrite Hfc.
  split; [|split].
  - apply list_elem_of_join. eexists. split; [|eapply list_elem_of_lookup_2;
      rewrite list_lookup_imap, Hk; reflexivity].
    destruct c; apply list_elem_of_here.
  - apply list_elem_of_join. eexists. split; [|eapply list_elem_of_lookup_2;
      rewrite list_lookup_imap, Hk; reflexivity].
    destruct c; apply list_elem_of_further, list_elem_of_here.
  - by apply length_join_imap.
Qed.

Lemma every_record_has_its_lenses_witness :
  length (provideCodeLenses sampleUri threeChangesWorld) = 6%nat
  /\ {| lens_range := Range4 15 0 15 0; lens_title := "Reject";
        lens_command := "aider-composer.RejectChange";
        lens_arguments := (Uri_toString sampleUri, 2) |}
       ∈ provideCodeLenses sampleUri threeChangesWorld.
Proof.
  destruct (every_record_has_its_lenses sampleUri threeChangesWorld
              {| originalContent := concat (replicate 20 (ln "x"));
                 modifiedContent := concat (replicate 20 (ln "x"));
                 changes := threeChanges |}
              2%nat (Removed {| line := 15; count := 1; value := ln "x" |}))
    as (_ & Hr & Hlen); [reflexivity..|].
  split; [exact Hlen|exact Hr].
Defined.

Lemma explicit_index_outside_witness :
  acceptChange EditApplied (Uri_toString sampleUri) (Some 7) threeChangesWorld
  = Throw TypeError threeChangesWorld
  /\ rejectChange EditApplied (Uri_toString sampleUri) (Some 7)
       threeChangesWorld
     = Throw TypeError threeChangesWorld.
Proof.
  apply (explicit_index_outside EditApplied (Uri_toString sampleUri)
           threeChangesWorld
           (editorOf sampleUri (concat (replicate 20 (ln "x"))))
           {| originalContent := concat (replicate 20 (ln "x"));
              modifiedContent := concat (replicate 20 (ln "x"));
              changes := threeChanges |} 7).
  - reflexivity.
  - reflexivity.
  - reflexivity.
  - right. simpl. lia.
Defined.

(** ** Closing a document *)

(** When a document with scheme [file] or [untitled] that has a changeset is
    closed, the changeset is dropped and one reject event is fired for the
    document's path; no text, file or editor is touched.  Afterwards single
    and bulk accepts and rejects for that document complete without doing
    anything. *)
Theorem closing_discards_review
    (host : EditOutcome) (doc : Uri) (i : option Z) (w : World)
    (fc : FileChange) :
  scheme doc = "file" \/ scheme doc = "untitled" ->
  fileChangeMap w !! Uri_toString doc = Some fc ->
  let w' := onDidCloseTextDocument doc w in
  fileChangeMap w' = delete (Uri_toString doc) (fileChangeMap w)
  /\ effects w' = effects w ++ [onDidChange_fire reject (path doc)]
  /\ files w' = files w
  /\ activeTextEditor w' = activeTextEditor w
  /\ otherEditors w' = otherEditors w
  /\ acceptChange host (Uri_toString doc) i w' = Ok w'
  /\ rejectChange host (Uri_toString doc) i w' = Ok w'
  /\ acceptAllChanges host doc w' = Ok w'
  /\ rejectAllChanges host doc w' = Ok w'.
Proof.
  intros Hs Hfc w'.
  assert (Hw' : w' = emit [onDidChange_fire reject (path doc)]
                       (withStore (delete (Uri_toString doc) (fileChangeMap w))
                                  w)).
  { unfold w', onDidCloseTextDocument. rewrite Hfc.
    destruct Hs as [-> | ->]; reflexivity. }
  assert (Hnone : fileChangeMap w' !! Uri_toString doc = None).
  { rewrite Hw'. simpl. apply lookup_delete_eq. }
  clearbody w'.
  split; [by rewrite Hw'|]. split; [by rewrite Hw'|].
  split; [by rewrite Hw'|]. split; [by rewrite Hw'|].
  split; [by rewrite Hw'|].
  unfold acceptChange, rejectChange, acceptAllChanges, rejectAllChanges.
  rewrite Hnone.
  destruct (activeTextEditor w') as [e|]; [|done].
  by destruct (negb _).
Qed.

Lemma closing_discards_review_witness :
  fileChangeMap (onDidCloseTextDocument sampleUri threeChangesWorld) = ∅
  /\ acceptAllChanges EditApplied sampleUri
       (onDidCloseTextDocument sampleUri threeChangesWorld)
     = Ok (onDidCloseTextDocument sampleUri threeChangesWorld).
Proof.
  destruct (closing_discards_review EditApplied sampleUri (Some 0)
              threeChangesWorld
              {| originalContent := concat (replicate 20 (ln "x"));
                 modifiedContent := concat (replicate 20 (ln "x"));
                 changes := threeChanges |})
    as (Hm & _ & _ & _ & _ & _ & _ & Ha & _).
  - left. reflexivity.
  - reflexivity.
  - split; [|exact Ha]. rewrite Hm. apply delete_singleton_eq.
Defined.

(** ** Switching editors *)

(** When another editor becomes active, the handler changes neither the store
    nor any document: it sets the [hasChanges] context key, to true exactly
    when the document of the new editor has at least one pending record, and
    redraws that document's decorations. *)
Theorem editor_switch_only_redraws (editor : option TextEditor) (w : World) :
  let w' := onDidChangeActiveTextEditor editor w in
  fileChangeMap w' = fileChangeMap w
  /\ files w' = files w
  /\ activeTextEditor w' = activeTextEditor w
  /\ otherEditors w' = otherEditors w
  /\ exists flag drawn,
       effects w' = effects w ++ setContext_hasChanges flag :: drawn
       /\ (flag = true
           <-> exists e, editor = Some e
                         /\ changesOf w (Uri_toString (document_uri e)) <> [])
       /\ forall e, editor = Some e ->
            drawn = match fileChangeMap w !! Uri_toString (document_uri e) with
                    | Some fc => drawEffects (document_uri e) (changes fc)
                    | None => []
                    end.
Proof.
  destruct editor as [e|]; simpl.
  - unfold changesOf.
    destruct (fileChangeMap w !! Uri_toString (document_uri e)) as [fc|] eqn:Hfc;
      simpl.
    + split; [by apply insert_id|]. do 3 (split; [done|]).
      eexists _, _. rewrite <- app_assoc. split; [reflexivity|]. split.
      * split.
        -- intros H. exists e. split; [done|]. rewrite Hfc.
           by destruct (changes fc).
        -- intros (e' & [= <-] & H). rewrite Hfc in H.
           by destruct (changes fc).
      * intros e' [= <-]. by rewrite Hfc.
    + do 4 (split; [done|]). eexists _, []. split; [reflexivity|]. split.
      * split; [done|]. intros (e' & [= <-] & H). by rewrite Hfc in H.
      * intros e' [= <-]. by rewrite Hfc.
  - do 4 (split; [done|]). eexists _, []. split; [reflexivity|]. split.
    + split; [done|]. by intros (e' & [=] & _).
    + by intros e' [=].
Qed.

(** ** One changeset per command *)

(** A command touches the changeset of one document only: whatever the
    command and however it ends, the changeset stored under any other key is
    what it was. *)
Theorem commands_touch_one_changeset (w : World) (cmd : Command) (key : string) :
  key <> targetKey cmd w ->
  fileChangeMap (step w cmd) !! key = fileChangeMap w !! key.
Proof.
  intros Hne. unfold step. destruct cmd; simpl in *.
  - destruct (openDiffView_after_store diffLines host data w)
      as [->|(a & b & ->)]; [done|]. by rewrite lookup_insert_ne.
  - destruct (acceptChange_inv host uri i w _ eq_refl)
      as [->|[->|(editor & fc & index & k & c & _ & _ & _ & _ & _ & ->)]];
      [done..|].
    destruct (acceptAt host editor uri fc k c w) as [w'|e w'] eqn:Hr; simpl.
    + apply acceptAt_store in Hr. rewrite Hr. unfold storeAfter.
      destruct (renumber _ _ _);
        [by rewrite lookup_delete_ne|by rewrite lookup_insert_ne].
    + by apply acceptAt_throw in Hr as [-> _].
  - destruct (rejectChange_inv host uri i w _ eq_refl)
      as [->|[->|(editor & fc & index & k & c & _ & _ & _ & _ & _ & ->)]];
      [done..|].
    destruct (rejectAt host editor uri fc k c w) as [w'|e w'] eqn:Hr; simpl.
    + apply rejectAt_store in Hr. rewrite Hr. unfold storeAfter.
      destruct (renumber _ _ _);
        [by rewrite lookup_delete_ne|by rewrite lookup_insert_ne].
    + by apply rejectAt_throw in Hr as [-> _].
  - destruct (acceptAllChanges_after_store host uri w) as [->| ->]; [done|].
    by rewrite lookup_delete_ne.
  - destruct (rejectAllChanges_after_store host uri w) as [->| ->]; [done|].
    by rewrite lookup_delete_ne.
Qed.

Lemma commands_touch_one_changeset_witness :
  fileChangeMap
    (step threeChangesWorld
       (AcceptAllChanges EditApplied (Uri_file "/work/b.txt")))
    !! Uri_toString sampleUri
  = fileChangeMap threeChangesWorld !! Uri_toString sampleUri.
Proof.
  apply (commands_touch_one_changeset threeChangesWorld
           (AcceptAllChanges EditApplied (Uri_file "/work/b.txt"))
           (Uri_toString sampleUri)).
  vm_compute. discriminate.
Defined.

(** ** Bulk resolution and the host's answer *)

(** The answer of [workspace.applyEdit] is not looked at.  When the host
    refuses the edit of a bulk accept or reject of the active document, which
    has unsaved changes, the operation still completes: the changeset is
    dropped, the event is fired, and the text, which is what it was, is
    saved (after a reject of a document that is not a file, the editor is
    closed instead).  When the host fails the edit, the operation fails with
    it and the world, changeset included, is what it was. *)
Theorem bulk_resolution_ignores_refused_edit
    (uri : Uri) (w : World) (editor : TextEditor) (fc : FileChange) :
  activeTextEditor w = Some editor ->
  document_uri editor = uri ->
  fileChangeMap w !! Uri_toString uri = Some fc ->
  document_isDirty editor = true ->
  (exists w', acceptAllChanges EditRefused uri w = Ok w'
     /\ fileChangeMap w' !! Uri_toString uri = None
     /\ onDidChange_fire accept (fsPath uri) ∈ effects w'
     /\ activeText w' = Some (document_text editor)
     /\ files w' !! path uri = Some (document_text editor))
  /\ (exists w', rejectAllChanges EditRefused uri w = Ok w'
     /\ fileChangeMap w' !! Uri_toString uri = None
     /\ onDidChange_fire reject (fsPath uri) ∈ effects w'
     /\ if String.eqb (scheme uri) "file"
        then activeText w' = Some (document_text editor)
             /\ files w' !! path uri = Some (document_text editor)
        else activeText w' = None /\ files w' = files w)
  /\ acceptAllChanges EditThrows uri w = Throw HostError w
  /\ rejectAllChanges EditThrows uri w = Throw HostError w.
Proof.
  intros He Hu Hfc Hd.
  unfold acceptAllChanges, rejectAllChanges. rewrite Hfc.
  rewrite (showTextDocument_same _ _ _ He Hu). cbn [bindR applyEdit fst snd].
  split; [|split; [|done]].
  - eexists. split; [reflexivity|].
    unfold saveDocument. cbn. rewrite He, Hd. unfold documentSave. cbn.
    rewrite He. cbn. rewrite Hu.
    split; [apply lookup_delete_eq|]. split; [solve_elem|].
    split; [done|]. apply lookup_insert_eq.
  - eexists. split; [reflexivity|]. rewrite Hu.
    destruct (String.eqb (scheme uri) "file").
    + unfold saveDocument. cbn. rewrite He, Hd. unfold documentSave. cbn.
      rewrite He. cbn. rewrite Hu.
      split; [apply lookup_delete_eq|]. split; [solve_elem|].
      split; [done|]. apply lookup_insert_eq.
    + cbn. split; [apply lookup_delete_eq|]. split; [solve_elem|]. done.
Qed.

Lemma bulk_resolution_ignores_refused_edit_witness :
  exists w',
    acceptAllChanges EditRefused sampleUri threeChangesWorld = Ok w'
    /\ fileChangeMap w' !! Uri_toString sampleUri = None
    /\ files w' !! path sampleUri = Some (concat (replicate 20 (ln "x"))).
Proof.
  destruct (bulk_resolution_ignores_refused_edit sampleUri threeChangesWorld
              (editorOf sampleUri (concat (replicate 20 (ln "x"))))
              {| originalContent := concat (replicate 20 (ln "x"));
                 modifiedContent := concat (replicate 20 (ln "x"));
                 changes := threeChanges |})
    as ((w' & Hrun & Hm & _ & _ & Hf) & _); [reflexivity..|].
  exists w'. split; [exact Hrun|]. split; [exact Hm|exact Hf].
Defined.

(** ** The keyboard commands *)

(** The commands [AcceptAllChanges] and [RejectAllChanges] do nothing without
    an active editor.  After a diff made of whole lines has been applied, the
    active editor shows the diffed document, and the commands complete the
    round trip: accepting gives the proposal, rejecting gives the original
    (after which a document without a file is closed). *)
Theorem shortcut_commands_round_trip
    (diffLines : text -> text -> list Diff.Part) (data : DiffData)
    (w : World) (editor : TextEditor) (ws : World) :
  showTextDocument (diffUri data w) w = Ok (editor, ws) ->
  document_uri editor = diffUri data w ->
  let original := document_text editor in
  let modified :=
    normalizeEol (lineEolOf (document_eol editor)) (data_content data) in
  lineDiffOf original modified (diffLines original modified) ->
  let built := after (openDiffView diffLines EditApplied data w) in
  activeText (after (command_AcceptAllChanges EditApplied built))
  = Some modified
  /\ activeText (after (command_RejectAllChanges EditApplied built))
     = (if String.eqb (scheme (diffUri data w)) "file"
        then Some original else None)
  /\ forall host w0, activeTextEditor w0 = None ->
       command_AcceptAllChanges host w0 = Ok w0
       /\ command_RejectAllChanges host w0 = Ok w0.
Proof.
  intros Hshow Huri original modified (Horig & Hmod & Hall & Hno) built.
  destruct (openDiffView_built diffLines data w editor ws Hshow)
    as (b & e1 & Hb & He1 & Ht1 & Hu1 & Hcs & Hstore).
  fold original modified in Ht1, Hcs.
  assert (Hbuilt : built = b) by (unfold built; by rewrite Hb).
  rewrite Hbuilt. clear built Hbuilt.
  unfold command_AcceptAllChanges, command_RejectAllChanges.
  rewrite He1, Hu1, Huri.
  split; [|split].
  - apply (acceptAllChanges_text _ _ e1); [done|congruence| |done].
    rewrite Hcs, Ht1, acceptAll_edits by done. by rewrite Hmod.
  - apply (rejectAllChanges_text _ _ e1); [done|congruence| |done].
    rewrite Hcs, Ht1, rejectAll_edits by done. by rewrite Horig.
  - intros host w0 ->. done.
Qed.

Lemma shortcut_commands_round_trip_witness :
  let built :=
    after (openDiffView blockDiff EditApplied (dataFor sampleUri cleanProposal)
             (freshWorld sampleUri cleanText)) in
  activeText (after (command_AcceptAllChanges EditApplied built))
  = Some cleanProposal
  /\ activeText (after (command_RejectAllChanges EditApplied built))
     = Some cleanText.
Proof.
  destruct (shortcut_commands_round_trip blockDiff
              (dataFor sampleUri cleanProposal)
              (freshWorld sampleUri cleanText)
              {| document_uri := sampleUri; document_text := cleanText;
                 document_isDirty := false; document_eol := EOL_LF;
                 selection_line := 0 |}
              (freshWorld sampleUri cleanText)) as (Ha & Hr & _).
  - reflexivity.
  - reflexivity.
  - cbv zeta.
    match goal with
    | |- lineDiffOf ?a ?b (blockDiff ?a ?b) =>
        let d := eval vm_compute in (blockDiff a b) in
        change (blockDiff a b) with d
    end.
    split; [reflexivity|]. split; [reflexivity|]. split.
    + repeat constructor.
    + simpl. repeat split; intros [H1 H2]; discriminate.
  - split; [exact Ha|exact Hr].
Defined.

(** ** Rejecting every pending review ([rejectAllFile]) *)

Lemma openDocument_ok uri w :
  editorsFiled w ->
  is_Some (otherEditors w !! Uri_toString uri)
  \/ scheme uri = "untitled" \/ is_Some (files w !! path uri) ->
  exists e, openDocument uri w = Ok e
            /\ Uri_toString (document_uri e) = Uri_toString uri.
Proof.
  intros Hfiled Hcan. unfold openDocument.
  destruct (otherEditors w !! Uri_toString uri) as [e|] eqn:Ho.
  - exists e. split; [done|]. by apply Hfiled.
  - destruct Hcan as [[? [=]]|[Hs|[t Ht]]].
    + rewrite Hs. simpl. by eexists.
    + destruct (String.eqb _ _); [by eexists|]. rewrite Ht. by eexists.
Qed.

Lemma stash_filed e m :
  (forall k e', m !! k = Some e' -> Uri_toString (document_uri e') = k) ->
  forall k e', stash e m !! k = Some e' -> Uri_toString (document_uri e') = k.
Proof.
  intros Hm k e'. destruct e as [e0|]; simpl; [|apply Hm].
  destruct (decide (Uri_toString (document_uri e0) = k)) as [<-|Hne].
  - rewrite lookup_insert_eq. by intros [= <-].
  - rewrite lookup_insert_ne by done. apply Hm.
Qed.

Lemma showTextDocument_ok uri w :
  editorsFiled w -> canShow uri w ->
  exists e ws,
    showTextDocument uri w = Ok (e, ws)
    /\ activeTextEditor ws = Some e
    /\ Uri_toString (document_uri e) = Uri_toString uri
    /\ fileChangeMap ws = fileChangeMap w
    /\ files ws = files w
    /\ editorsFiled ws
    /\ forall u', Uri_toString u' <> Uri_toString uri ->
                  canShow u' w -> canShow u' ws.
Proof.
  intros Hfiled Hcan. unfold showTextDocument.
  assert (Hdel : forall k e',
            delete (Uri_toString uri) (otherEditors w) !! k = Some e' ->
            Uri_toString (document_uri e') = k).
  { intros k e' H. apply lookup_delete_Some in H as [_ H]. by apply Hfiled. }
  destruct (activeTextEditor w) as [e0|] eqn:He0.
  - destruct (String.eqb _ _) eqn:Heq.
    + apply String.eqb_eq in Heq. exists e0, w. by repeat split.
    + apply String.eqb_neq in Heq.
      destruct (openDocument_ok uri w Hfiled) as (e & -> & Hu).
      { destruct Hcan as [(e & He & H)|H]; [|exact H].
        rewrite He0 in He. by injection He as <-. }
      eexists _, _. split; [reflexivity|]. simpl.
      do 4 (split; [done|]). split.
      * intros k e'. apply (stash_filed (Some e0)), Hdel.
      * intros u' Hne [(e' & He' & H)|[[e' H]|H]].
        -- rewrite He0 in He'. injection He' as <-.
           right; left. simpl. rewrite H, lookup_insert_eq. by eexists.
        -- right; left. simpl.
           destruct (decide (Uri_toString (document_uri e0)
                             = Uri_toString u')) as [->|Hne'].
           ++ rewrite lookup_insert_eq. by eexists.
           ++ rewrite lookup_insert_ne, lookup_delete_ne by done.
              by eexists.
        -- right; right. exact H.
  - destruct (openDocument_ok uri w Hfiled) as (e & -> & Hu).
    { destruct Hcan as [(e & He & _)|H]; [|exact H]. by rewrite He0 in He. }
    eexists _, _. split; [reflexivity|]. simpl.
    do 4 (split; [done|]). split; [exact Hdel|].
    intros u' Hne [(e' & He' & _)|[[e' H]|H]]; [by rewrite He0 in He'| |].
    + right; left. simpl. rewrite lookup_delete_ne by done. by eexists.
    + right; right. exact H.
Qed.

Lemma applyEdit_others host edits w w1 :
  applyEdit host edits w = Ok w1 -> otherEditors w1 = otherEditors w.
Proof.
  unfold applyEdit. destruct host; [|by intros [= <-]|done].
  destruct (activeTextEditor w); [|by intros [= <-]].
  destruct edits; [by intros [= <-]|].
  destruct (applyTextEdits _ _); by intros [= <-].
Qed.

Lemma saveDocument_others w : otherEditors (saveDocument w) = otherEditors w.
Proof.
  unfold saveDocument. destruct (activeTextEditor w) as [e|] eqn:He; [|done].
  destruct (document_isDirty e); [|done].
  unfold documentSave. simpl. by rewrite He.
Qed.

Lemma saveDocument_files w p :
  is_Some (files w !! p) -> is_Some (files (saveDocument w) !! p).
Proof.
  unfold saveDocument. destruct (activeTextEditor w) as [e|] eqn:He; [|done].
  destruct (document_isDirty e); [|done].
  unfold documentSave. simpl. rewrite He. simpl. intros H.
  destruct (decide (path (document_uri e) = p)) as [->|Hne].
  - rewrite lookup_insert_eq. by eexists.
  - by rewrite lookup_insert_ne.
Qed.

Lemma saveDocument_uri w e e' :
  activeTextEditor w = Some e ->
  activeTextEditor (saveDocument w) = Some e' ->
  document_uri e' = document_uri e.
Proof.
  intros He. destruct (saveDocument_active w e He) as (-> & _).
  intros [= <-]. by destruct (document_isDirty e).
Qed.

Lemma rejectAllChanges_clears host uri w fc :
  host <> EditThrows -> editorsFiled w -> canShow uri w ->
  fileChangeMap w !! Uri_toString uri = Some fc ->
  exists w',
    rejectAllChanges host uri w = Ok w'
    /\ fileChangeMap w' = delete (Uri_toString uri) (fileChangeMap w)
    /\ editorsFiled w'
    /\ forall u', Uri_toString u' <> Uri_toString uri ->
                  canShow u' w -> canShow u' w'.
Proof.
  intros Hh Hfiled Hcan Hfc. unfold rejectAllChanges. rewrite Hfc.
  destruct (showTextDocument_ok uri w Hfiled Hcan)
    as (e & ws & -> & Hea & Heu & Hm & Hf & Hfiled' & Hshow).
  cbn [bindR fst snd].
  destruct (applyEdit_ok host (flat_map rejectDelete (reverse (changes fc)))
              ws Hh) as [w1 Hp]. rewrite Hp. cbn [bindR].
  destruct (applyEdit_active _ _ _ _ _ Hea Hp) as (e1 & He1 & Hu1 & _).
  pose proof (applyEdit_store _ _ _ _ Hp) as (Hm1 & _ & Hf1).
  simpl in Hm1, Hf1.
  pose proof (applyEdit_others _ _ _ _ Hp) as Ho1.
  eexists. split; [reflexivity|].
  assert (Hcase : forall w3,
    otherEditors w3 = otherEditors w1 ->
    fileChangeMap w3 = delete (Uri_toString uri) (fileChangeMap w1) ->
    (forall p, is_Some (files w1 !! p) -> is_Some (files w3 !! p)) ->
    (forall e3, activeTextEditor w3 = Some e3 ->
                document_uri e3 = document_uri e1) ->
    fileChangeMap (emit [onDidChangeCodeLenses_fire] w3)
    = delete (Uri_toString uri) (fileChangeMap w)
    /\ editorsFiled (emit [onDidChangeCodeLenses_fire] w3)
    /\ forall u', Uri_toString u' <> Uri_toString uri ->
                  canShow u' w ->
                  canShow u' (emit [onDidChangeCodeLenses_fire] w3)).
  { intros w3 Ho3 Hm3 Hf3 Ha3. simpl. split; [by rewrite Hm3, Hm1, Hm|].
    split.
    - intros k e'. simpl. rewrite Ho3, Ho1. apply Hfiled'.
    - intros u' Hne Hc.
      destruct (Hshow u' Hne Hc) as [(e' & He' & Hk)|[H|[H|H]]].
      + exfalso. rewrite Hea in He'. injection He' as <-. congruence.
      + right; left. simpl. by rewrite Ho3, Ho1.
      + right; right; left. exact H.
      + right; right; right. simpl. apply Hf3. by rewrite Hf1. }
  destruct (String.eqb _ _).
  - apply Hcase.
    + by rewrite saveDocument_others.
    + by rewrite saveDocument_store.
    + intros p Hp'. by apply saveDocument_files.
    + intros e3 He3. eapply saveDocument_uri; [|exact He3]. exact He1.
  - apply Hcase; simpl; [done|done|done|done].
Qed.

(** [rejectAllFile] leaves no pending review: when every document that has a
    changeset can be shown by the host, its key is among the keys iterated
    over and is read back by [Uri.parse] to the same key, and the host does
    not fail an edit, then the call completes and the store is empty. *)
Theorem rejectAllFile_clears_store
    (Uri_parse : string -> Uri) (host : EditOutcome) (keys : list string)
    (w : World) :
  host <> EditThrows ->
  editorsFiled w ->
  (forall k, is_Some (fileChangeMap w !! k) ->
             k ∈ keys /\ Uri_toString (Uri_parse k) = k
             /\ canShow (Uri_parse k) w) ->
  exists w', rejectAllFile Uri_parse host keys w = Ok w'
             /\ fileChangeMap w' = ∅.
Proof.
  intros Hh. revert w. induction keys as [|k rest IH]; intros w Hfiled Hkeys.
  - exists w. split; [done|]. apply map_empty. intros k.
    destruct (fileChangeMap w !! k) eqn:Hk; [|done].
    destruct (Hkeys k) as [Hin _]; [by eexists|]. by apply elem_of_nil in Hin.
  - simpl. destruct (fileChangeMap w !! k) as [fc|] eqn:Hk.
    + destruct (Hkeys k) as (_ & Hrt & Hcan); [by eexists|].
      destruct (rejectAllChanges_clears host (Uri_parse k) w fc Hh Hfiled Hcan)
        as (w1 & -> & Hm1 & Hfiled1 & Hshow1); [by rewrite Hrt|].
      cbn [bindR]. rewrite Hrt in Hm1, Hshow1.
      apply IH; [done|]. intros k' Hk'. rewrite Hm1 in Hk'.
      destruct Hk' as [fc' Hk'].
      apply lookup_delete_Some in Hk' as [Hne Hk'].
      destruct (Hkeys k') as (Hin & Hrt' & Hcan'); [by eexists|].
      split; [|split; [done|]].
      * apply elem_of_cons in Hin as [->|Hin]; done.
      * apply Hshow1; [by rewrite Hrt'|done].
    + apply IH; [done|]. intros k' Hk'.
      destruct (Hkeys k' Hk') as (Hin & Hrt' & Hcan').
      split; [|done].
      apply elem_of_cons in Hin as [->|Hin]; [|done].
      rewrite Hk in Hk'. by destruct Hk'.
Qed.

Lemma rejectAllFile_clears_store_witness :
  exists w',
    rejectAllFile splitUri EditApplied
      [Uri_toString sampleUri; Uri_toString secondUri] twoReviewsWorld = Ok w'
    /\ fileChangeMap w' = ∅.
Proof.
  apply (rejectAllFile_clears_store splitUri EditApplied
           [Uri_toString sampleUri; Uri_toString secondUri] twoReviewsWorld).
  - discriminate.
  - intros k e.
    destruct (decide (k = Uri_toString sampleUri)) as [->|Hne].
    + vm_compute. by intros [= <-].
    + intros H. exfalso. revert H.
      change (otherEditors twoReviewsWorld)
        with (<[Uri_toString sampleUri :=
                  withText (ln "A" ++ ln "B" ++ ln "X" ++ ln "C")
                    {| document_uri := sampleUri; document_text := cleanText;
                       document_isDirty := false; document_eol := EOL_LF;
                       selection_line := 0 |}]> (∅ : gmap string TextEditor)).
      by rewrite lookup_insert_ne, lookup_empty.
  - intros k Hk.
    destruct (decide (k = Uri_toString sampleUri)) as [->|Hne1].
    { split; [apply list_elem_of_here|]. split; [reflexivity|].
      right; left. vm_compute. by eexists. }
    destruct (decide (k = Uri_toString secondUri)) as [->|Hne2].
    { split; [apply list_elem_of_further, list_elem_of_here|].
      split; [reflexivity|]. left. eexists. split; reflexivity. }
    exfalso. destruct Hk as [fc Hk]. revert Hk.
    unfold twoReviewsWorld.
    destruct (openDiffView_after_store blockDiff EditApplied
                (dataFor secondUri cleanProposal)
                (after (openDiffView blockDiff EditApplied
                          (dataFor sampleUri cleanProposal)
                    {| files := <[path secondUri := cleanText]>
                                  {[ path sampleUri := cleanText ]};
                       activeTextEditor := None; otherEditors := ∅;
                       fileChangeMap := ∅; effects := [] |})))
      as [->|(a & b & ->)].
    + destruct (openDiffView_after_store blockDiff EditApplied
                  (dataFor sampleUri cleanProposal)
                  {| files := <[path secondUri := cleanText]>
                                {[ path sampleUri := cleanText ]};
                     activeTextEditor := None; otherEditors := ∅;
                     fileChangeMap := ∅; effects := [] |})
        as [->|(a & b & ->)]; simpl.
      * by rewrite lookup_empty.
      * rewrite lookup_insert_ne, lookup_empty; [done|].
        intros <-. by apply Hne1.
    + rewrite lookup_insert_ne by (intros <-; by apply Hne2).
      destruct (openDiffView_after_store blockDiff EditApplied
                  (dataFor sampleUri cleanProposal)
                  {| files := <[path secondUri := cleanText]>
                                {[ path sampleUri := cleanText ]};
                     activeTextEditor := None; otherEditors := ∅;
                     fileChangeMap := ∅; effects := [] |})
        as [->|(a' & b' & ->)]; simpl.
      * by rewrite lookup_empty.
      * rewrite lookup_insert_ne, lookup_empty; [done|].
        intros <-. by apply Hne1.
Defined.

(** ** The edit of a single resolution *)

Lemma spliceSpan_replace pre v rest newText :
  spliceSpan (pre ++ v ++ rest)
    (length pre, (length pre + length v)%nat, newText)
  = pre ++ newText ++ rest.
Proof.
  unfold spliceSpan, spanStart, spanEnd, spanText. simpl.
  rewrite take_app_length. do 2 f_equal.
  rewrite app_assoc, <- length_app. by rewrite drop_app_length.
Qed.

Lemma replaceRange_block pre v rest (l n : Z) newText :
  endsWithLF pre = true -> Z.of_nat (lineFeeds pre) = l ->
  wholeLinesText n v ->
  replaceRange (pre ++ v ++ rest) (blockRange l (l + n)) newText
  = pre ++ newText ++ rest.
Proof.
  intros Hpre Hl Hv. unfold replaceRange.
  change (blockRange l (l + n)) with (Range4 l 0 (l + n) 0).
  rewrite (blockRange_spanOf pre v rest l n newText Hpre Hl Hv).
  apply spliceSpan_replace.
Qed.

Lemma wholeLinesText_app n m a b :
  wholeLinesText n a -> wholeLinesText m b -> wholeLinesText (n + m) (a ++ b).
Proof.
  intros [Hn Ha] [Hm Hb]. split.
  - rewrite lineFeeds_app. lia.
  - by apply endsWithLF_app.
Qed.

Lemma endsWithLF_positive s :
  endsWithLF s = true -> s <> [] -> (0 < lineFeeds s)%nat.
Proof.
  induction s as [|c s IH]; [done|]. intros Hend _.
  simpl. destruct (isLF c) eqn:Hc; [lia|].
  by apply (endsWithLF_lineFeeds c s).
Qed.

Lemma wholeLinesText_zero s : wholeLinesText 0 s -> s = [].
Proof.
  intros [Hn Hend]. destruct s as [|c s]; [done|].
  pose proof (endsWithLF_positive (c :: s) Hend ltac:(done)). lia.
Qed.

Lemma wholeRecord_lines c :
  wholeRecord c ->
  wholeLinesText (pastEnd c - primary c) (pendingText c).
Proof.
  destruct c as [h|h|r a]; simpl.
  - intros H. by replace (line h + count h - line h) with (count h) by lia.
  - intros H. by replace (line h + count h - line h) with (count h) by lia.
  - intros (Hr & Ha & _).
    replace (line r + count r + count a - line r) with (count r + count a)
      by lia.
    by apply wholeLinesText_app.
Qed.

Lemma editorEdit_text doc pre v rest (l n : Z) newText w editor :
  activeTextEditor w = Some editor ->
  document_text editor = pre ++ v ++ rest ->
  endsWithLF pre = true -> Z.of_nat (lineFeeds pre) = l ->
  wholeLinesText n v ->
  doc = pre ++ newText ++ rest ->
  exists w1 e1,
    editorEdit EditApplied (blockRange l (l + n)) newText w = Ok w1
    /\ activeTextEditor w1 = Some e1
    /\ document_text e1 = doc
    /\ document_uri e1 = document_uri editor.
Proof.
  intros He Hdoc Hpre Hl Hv ->. simpl. rewrite He. simpl.
  eexists _, _. split; [reflexivity|]. split; [reflexivity|]. simpl.
  split; [|done]. rewrite Hdoc. by apply replaceRange_block.
Qed.

Lemma planEdit_accept_text w editor c pre rest :
  activeTextEditor w = Some editor ->
  document_text editor = pre ++ pendingText c ++ rest ->
  linesBefore pre c -> wholeRecord c ->
  exists w1 e1,
    planEdit EditApplied (acceptPlan c) w = Ok w1
    /\ activeTextEditor w1 = Some e1
    /\ document_text e1 = pre ++ acceptedText c ++ rest
    /\ document_uri e1 = document_uri editor.
Proof.
  intros He Hdoc [Hpre Hl] Hwhole.
  destruct c as [h|h|r a]; simpl in *; unfold wholeHunk in *.
  - destruct (Z.eqb_spec (count h) 0) as [H0|H0].
    + exists w, editor. rewrite H0 in Hwhole.
      apply wholeLinesText_zero in Hwhole. rewrite Hwhole in Hdoc. done.
    + by eapply editorEdit_text.
  - by exists w, editor.
  - destruct Hwhole as (Hr & Ha & Hadj).
    destruct (Z.eqb_spec (count r) 0) as [H0|H0].
    + exists w, editor. rewrite H0 in Hr.
      apply wholeLinesText_zero in Hr. rewrite Hr in Hdoc. done.
    + rewrite Hadj, <- Z.add_assoc.
      eapply editorEdit_text; [done|done|done|done| |done].
      by apply wholeLinesText_app.
Qed.

Lemma planEdit_reject_text w editor c pre rest :
  activeTextEditor w = Some editor ->
  document_text editor = pre ++ pendingText c ++ rest ->
  linesBefore pre c -> wholeRecord c ->
  exists w1 e1,
    planEdit EditApplied (rejectPlan c) w = Ok w1
    /\ activeTextEditor w1 = Some e1
    /\ document_text e1 = pre ++ rejectedText c ++ rest
    /\ document_uri e1 = document_uri editor.
Proof.
  intros He Hdoc [Hpre Hl] Hwhole.
  destruct c as [h|h|r a]; simpl in *; unfold wholeHunk in *.
  - by exists w, editor.
  - destruct (Z.eqb_spec (count h) 0) as [H0|H0].
    + exists w, editor. rewrite H0 in Hwhole.
      apply wholeLinesText_zero in Hwhole. rewrite Hwhole in Hdoc. done.
    + by eapply editorEdit_text.
  - destruct Hwhole as (Hr & Ha & Hadj).
    destruct (Z.eqb_spec (count a) 0) as [H0|H0].
    + exists w, editor. rewrite H0 in Ha.
      apply wholeLinesText_zero in Ha. rewrite Ha, app_nil_r in Hdoc. done.
    + rewrite Hadj, <- Z.add_assoc.
      eapply editorEdit_text; [done|done|done|done| |done].
      by apply wholeLinesText_app.
Qed.

Lemma acceptAt_text editor uri fc k c w pre rest :
  activeTextEditor w = Some editor ->
  document_text editor = pre ++ pendingText c ++ rest ->
  linesBefore pre c -> wholeRecord c ->
  exists w' e',
    acceptAt EditApplied editor uri fc k c w = Ok w'
    /\ activeTextEditor w' = Some e'
    /\ document_text e' = pre ++ acceptedText c ++ rest
    /\ document_uri e' = document_uri editor.
Proof.
  intros He Hdoc Hpre Hwhole.
  destruct (planEdit_accept_text w editor c pre rest He Hdoc Hpre Hwhole)
    as (w1 & e1 & Hp & He1 & Ht1 & Hu1).
  unfold acceptAt. rewrite Hp. cbn [bindR drawChanges changes withChanges].
  destruct (renumber _ _ _).
  - match goal with
    | |- context [saveDocument ?x] =>
        destruct (saveDocument_active x e1 He1) as (Ha & _)
    end.
    eexists _, _. split; [reflexivity|]. split; [exact Ha|].
    by destruct (document_isDirty e1).
  - eexists _, e1. split; [reflexivity|]. done.
Qed.

Lemma rejectAt_text editor uri fc k c w pre rest :
  activeTextEditor w = Some editor ->
  document_text editor = pre ++ pendingText c ++ rest ->
  linesBefore pre c -> wholeRecord c ->
  exists w',
    rejectAt EditApplied editor uri fc k c w = Ok w'
    /\ if bool_decide (renumber k (rejectNet c) (changes fc) = [])
          && negb (String.eqb (scheme (document_uri editor)) "file")
       then activeTextEditor w' = None
       else exists e',
              activeTextEditor w' = Some e'
              /\ document_text e' = pre ++ rejectedText c ++ rest
              /\ document_uri e' = document_uri editor.
Proof.
  intros He Hdoc Hpre Hwhole.
  destruct (planEdit_reject_text w editor c pre rest He Hdoc Hpre Hwhole)
    as (w1 & e1 & Hp & He1 & Ht1 & Hu1).
  unfold rejectAt. rewrite Hp, rejectPlan_count.
  cbn [bindR drawChanges changes withChanges].
  destruct (renumber _ _ _) eqn:Hr.
  - rewrite bool_decide_eq_true_2 by done.
    destruct (String.eqb _ _); simpl.
    + match goal with
      | |- context [saveDocument ?x] =>
          destruct (saveDocument_active x e1 He1) as (Ha & _)
      end.
      eexists. split; [reflexivity|]. eexists. split; [exact Ha|].
      by destruct (document_isDirty e1).
    + eexists. split; [reflexivity|]. done.
  - rewrite bool_decide_eq_false_2 by done. simpl.
    eexists. split; [reflexivity|]. by exists e1.
Qed.

(** A single accept or reject whose edit the host applies changes the lines of
    its own record and nothing else.  When the document holds the text of the
    record at the record's coordinates, [pre] being the lines before it and
    [rest] the lines after it, then after an accept the document is [pre],
    the text of the added hunk (nothing for a [Removed] record) and [rest];
    after a reject it is [pre], the text of the removed hunk (nothing for an
    [Added] record) and [rest], unless the reject empties the list of a
    document that is not a file, which closes the editor. *)
Theorem single_resolution_edits_own_lines
    (uri : string) (i : option Z) (w : World) (editor : TextEditor)
    (fc : FileChange) (k : nat) (c : Change) (pre rest : text) :
  activeTextEditor w = Some editor ->
  Uri_toString (document_uri editor) = uri ->
  fileChangeMap w !! uri = Some fc ->
  targetIndex i editor fc = Some (Z.of_nat k) ->
  changes fc !! k = Some c ->
  wholeRecord c ->
  document_text editor = pre ++ pendingText c ++ rest ->
  linesBefore pre c ->
  (exists w', acceptChange EditApplied uri i w = Ok w'
     /\ activeText w' = Some (pre ++ acceptedText c ++ rest))
  /\ (exists w', rejectChange EditApplied uri i w = Ok w'
     /\ activeText w'
        = match changes fc with
          | [_] =>
              if String.eqb (scheme (document_uri editor)) "file"
              then Some (pre ++ rejectedText c ++ rest) else None
          | _ => Some (pre ++ rejectedText c ++ rest)
          end).
Proof.
  intros He Hu Hfc Ht Hk Hwhole Hdoc Hpre.
  rewrite (acceptChange_located _ _ _ _ _ _ k c He Hu Hfc Ht Hk).
  rewrite (rejectChange_located _ _ _ _ _ _ k c He Hu Hfc Ht Hk).
  split.
  - destruct (acceptAt_text editor uri fc k c w pre rest He Hdoc Hpre Hwhole)
      as (w' & e' & Hw' & He' & Ht' & _).
    exists w'. split; [done|]. unfold activeText. by rewrite He', <- Ht'.
  - destruct (rejectAt_text editor uri fc k c w pre rest He Hdoc Hpre Hwhole)
      as (w' & Hw' & Hcase).
    exists w'. split; [done|]. unfold activeText.
    rewrite (renumber_lookup _ _ _ _ Hk) in Hcase.
    destruct (changes fc) as [|c0 [|c1 cs]] eqn:Hcs.
    + done.
    + destruct k; [|done]. simpl in Hcase.
      destruct (String.eqb _ _); simpl in Hcase.
      * destruct Hcase as (e' & He' & Ht' & _). rewrite He'. simpl.
        by rewrite Ht'.
      * by rewrite Hcase.
    + rewrite bool_decide_eq_false_2 in Hcase.
      * destruct Hcase as (e' & He' & Ht' & _). rewrite He'. simpl.
        by rewrite Ht'.
      * destruct k as [|[|k]]; simpl; done.
Qed.

Lemma single_resolution_edits_own_lines_witness :
  exists w',
    acceptChange EditApplied (Uri_toString sampleUri) (Some 0) oneChangeWorld
    = Ok w'
    /\ activeText w' = Some (ln "A" ++ ln "X" ++ ln "C").
Proof.
  destruct (single_resolution_edits_own_lines (Uri_toString sampleUri)
              (Some 0) oneChangeWorld
              (withText (ln "A" ++ ln "B" ++ ln "X" ++ ln "C")
                 {| document_uri := sampleUri; document_text := cleanText;
                    document_isDirty := false; document_eol := EOL_LF;
                    selection_line := 0 |})
              {| originalContent := cleanText;
                 modifiedContent := cleanProposal;
                 changes :=
                   [Modified {| line := 1; count := 1; value := ln "B" |}
                             {| line := 2; count := 1; value := ln "X" |}] |}
              0%nat
              (Modified {| line := 1; count := 1; value := ln "B" |}
                        {| line := 2; count := 1; value := ln "X" |})
              (ln "A") (ln "C")) as [Ha _].
  - reflexivity.
  - reflexivity.
  - reflexivity.
  - reflexivity.
  - reflexivity.
  - repeat split.
  - reflexivity.
  - split; reflexivity.
  - exact Ha.
Defined.

(** ** Records address their text *)

Lemma specRecords_addresses parts : forall pre0 lineNo (prev : bool),
  endsWithLF pre0 = true -> Z.of_nat (lineFeeds pre0) = lineNo ->
  Forall (fun p => wholeLinesText (Diff.count p) (Diff.value p)) parts ->
  forall c, c ∈ specRecords lineNo prev parts ->
            addresses (pre0 ++ concat (Diff.value <$> parts)) c.
Proof.
  induction parts as [|p rest IH]; intros pre0 lineNo prev Hpre Hl Hall c Hc.
  { by apply elem_of_nil in Hc. }
  apply Forall_cons in Hall as [Hp Hrest].
  cbn [specRecords] in Hc. apply elem_of_app in Hc as [Hc|Hc].
  - assert (Hone : forall h rest',
              concat (Diff.value <$> rest) = rest' ->
              wholeRecord h -> pendingText h = Diff.value p ->
              primary h = lineNo ->
              addresses (pre0 ++ concat (Diff.value <$> p :: rest)) h).
    { intros h rest' Hr Hw Hpend Hprim. split; [done|].
      exists pre0, rest'. rewrite Hpend, <- Hr. split; [done|].
      split; [done|]. by rewrite Hprim. }
    destruct (Diff.kind p) eqn:Hk.
    + destruct rest as [|q rest'].
      * apply list_elem_of_singleton in Hc as ->. by eapply Hone.
      * apply Forall_cons in Hrest as [Hq _].
        destruct (Diff.kind q) eqn:Hkq.
        -- by apply elem_of_nil in Hc.
        -- apply list_elem_of_singleton in Hc as ->.
           split; [done|].
           exists pre0, (concat (Diff.value <$> rest')).
           split; [by simpl; rewrite <- app_assoc|]. done.
        -- apply list_elem_of_singleton in Hc as ->. by eapply Hone.
    + destruct prev; [by apply elem_of_nil in Hc|].
      apply list_elem_of_singleton in Hc as ->. by eapply Hone.
    + by apply elem_of_nil in Hc.
  - change (concat (Diff.value <$> p :: rest))
      with (Diff.value p ++ concat (Diff.value <$> rest)).
    rewrite app_assoc. eapply IH; [| |done|exact Hc].
    + apply endsWithLF_app; [done|]. by destruct Hp.
    + rewrite lineFeeds_app. destruct Hp. lia.
Qed.

(** When the differ's parts are whole lines, every record [openDiffView]
    builds addresses its own text: the combined buffer written into the
    document holds, at the line the record names, the text of its hunks, the
    added hunk of a [Modified] record right after the removed one. *)
Theorem built_records_address_their_text
    (diffLines : text -> text -> list Diff.Part) (data : DiffData)
    (w : World) (editor : TextEditor) (ws : World) :
  showTextDocument (diffUri data w) w = Ok (editor, ws) ->
  let original := document_text editor in
  let modified :=
    normalizeEol (lineEolOf (document_eol editor)) (data_content data) in
  Forall (fun p => wholeLinesText (Diff.count p) (Diff.value p))
         (diffLines original modified) ->
  exists built e1,
    openDiffView diffLines EditApplied data w = Ok built
    /\ activeTextEditor built = Some e1
    /\ Forall (addresses (document_text e1))
              (changesOf built (Uri_toString (diffUri data w))).
Proof.
  intros Hshow original modified Hall.
  destruct (openDiffView_built diffLines data w editor ws Hshow)
    as (b & e1 & Hb & He1 & Ht1 & _ & Hcs & _).
  fold original modified in Ht1, Hcs.
  exists b, e1. split; [done|]. split; [done|].
  rewrite Hcs, Ht1, buildChanges_spec, buildContent_concat.
  apply Forall_forall. intros c Hc.
  by apply (specRecords_addresses _ [] 0 false eq_refl eq_refl Hall).
Qed.

Lemma built_records_address_their_text_witness :
  exists built e1,
    openDiffView blockDiff EditApplied (dataFor sampleUri cleanProposal)
      (freshWorld sampleUri cleanText) = Ok built
    /\ activeTextEditor built = Some e1
    /\ Forall (addresses (document_text e1))
              (changesOf built (Uri_toString sampleUri)).
Proof.
  apply (built_records_address_their_text blockDiff
           (dataFor sampleUri cleanProposal) (freshWorld sampleUri cleanText)
           {| document_uri := sampleUri; document_text := cleanText;
              document_isDirty := false; document_eol := EOL_LF;
              selection_line := 0 |}
           (freshWorld sampleUri cleanText)).
  - reflexivity.
  - cbv zeta.
    match goal with
    | |- Forall _ (blockDiff ?a ?b) =>
        let d := eval vm_compute in (blockDiff a b) in
        change (blockDiff a b) with d
    end.
    repeat constructor.
Defined.

Lemma endsWithLF_app_inv a b :
  endsWithLF (a ++ b) = true -> b <> [] -> endsWithLF b = true.
Proof.
  intros H Hb. induction a as [|c a IH]; [done|]. apply IH.
  change ((c :: a) ++ b) with (c :: (a ++ b)) in H.
  destruct (a ++ b) eqn:Hab; [|done].
  apply app_eq_nil in Hab as [_ ->]. done.
Qed.

(** Of two prefixes of a document that are made of whole lines, the one with
    fewer lines is a prefix of the other. *)
Lemma linePrefix_le p rp q rq :
  p ++ rp = q ++ rq -> endsWithLF p = true ->
  (lineFeeds p <= lineFeeds q)%nat ->
  exists mid, q = p ++ mid /\ rp = mid ++ rq.
Proof.
  intros Heq Hp Hle.
  assert (Hpq : p `prefix_of` q \/ q `prefix_of` p).
  { apply (prefix_weak_total p q (p ++ rp)); [by exists rp|].
    rewrite Heq. by exists rq. }
  destruct Hpq as [[mid ->]|[mid ->]].
  - exists mid. split; [done|]. rewrite <- app_assoc in Heq.
    by apply app_inv_head in Heq.
  - destruct mid as [|c mid].
    + exists []. split; [by rewrite !app_nil_r|].
      rewrite app_nil_r in Heq. by apply app_inv_head in Heq.
    + exfalso. rewrite lineFeeds_app in Hle.
      pose proof (endsWithLF_positive (c :: mid)
                    (endsWithLF_app_inv q (c :: mid) Hp ltac:(done))
                    ltac:(done)).
      lia.
Qed.

Lemma shiftChange_pendingText n c : pendingText (shiftChange n c) = pendingText c.
Proof. by destruct c. Qed.

Lemma shiftChange_wholeRecord n c : wholeRecord c -> wholeRecord (shiftChange n c).
Proof.
  destruct c as [h|h|r a]; simpl; [done..|].
  intros (Hr & Ha & Hadj). repeat split; try apply Hr; try apply Ha.
  simpl. lia.
Qed.

Lemma addresses_before doc d pre pend newText rest :
  addresses doc d ->
  doc = pre ++ pend ++ rest ->
  endsWithLF pre = true ->
  pastEnd d <= Z.of_nat (lineFeeds pre) ->
  addresses (pre ++ newText ++ rest) d.
Proof.
  intros (Hw & pre_d & rest_d & Hdoc & Hend & Hlines) -> Hpre Hle.
  split; [done|].
  pose proof (wholeRecord_lines d Hw) as [Hn Hpd].
  destruct (linePrefix_le (pre_d ++ pendingText d) rest_d pre (pend ++ rest))
    as (mid & -> & ->).
  - by rewrite <- app_assoc.
  - by apply endsWithLF_app.
  - rewrite lineFeeds_app. lia.
  - exists pre_d, (mid ++ newText ++ rest).
    split; [by rewrite <- !app_assoc|]. done.
Qed.

Lemma addresses_after doc d c pre newText rest :
  addresses doc d ->
  doc = pre ++ pendingText c ++ rest ->
  linesBefore pre c -> wholeRecord c ->
  pastEnd c <= primary d ->
  endsWithLF newText = true ->
  addresses (pre ++ newText ++ rest)
    (shiftChange (pastEnd c - primary c - Z.of_nat (lineFeeds newText)) d).
Proof.
  intros (Hw & pre_d & rest_d & Hdoc & Hend & Hlines) -> [Hpre Hl] Hwc Hle Hnew.
  split; [by apply shiftChange_wholeRecord|].
  pose proof (wholeRecord_lines c Hwc) as [Hn Hpc].
  destruct (linePrefix_le (pre ++ pendingText c) rest pre_d
              (pendingText d ++ rest_d)) as (mid & -> & ->).
  - by rewrite <- app_assoc.
  - by apply endsWithLF_app.
  - rewrite lineFeeds_app. lia.
  - exists (pre ++ newText ++ mid), rest_d.
    rewrite shiftChange_pendingText. unfold linesBefore.
    rewrite shiftChange_primary.
    split; [by rewrite <- !app_assoc|]. split.
    + apply endsWithLF_app; [done|]. apply endsWithLF_app; [done|].
      destruct mid as [|x mid]; [done|].
      by apply (endsWithLF_app_inv (pre ++ pendingText c)).
    + rewrite !lineFeeds_app in *. lia.
Qed.

Lemma acceptNet_lines c :
  wholeRecord c ->
  acceptNet c
  = pastEnd c - primary c - Z.of_nat (lineFeeds (acceptedText c)).
Proof.
  destruct c as [h|h|r a]; simpl.
  - lia.
  - intros [Hn _]. lia.
  - intros (_ & [Hn _] & _). lia.
Qed.

Lemma rejectNet_lines c :
  wholeRecord c ->
  rejectNet c
  = pastEnd c - primary c - Z.of_nat (lineFeeds (rejectedText c)).
Proof.
  destruct c as [h|h|r a]; simpl.
  - intros [Hn _]. lia.
  - lia.
  - intros ([Hn _] & _ & _). lia.
Qed.

Lemma acceptedText_whole c : wholeRecord c -> endsWithLF (acceptedText c) = true.
Proof.
  destruct c as [h|h|r a]; simpl; [done|by intros [_ H]|].
  by intros (_ & [_ H] & _).
Qed.

Lemma rejectedText_whole c : wholeRecord c -> endsWithLF (rejectedText c) = true.
Proof.
  destruct c as [h|h|r a]; simpl; [by intros [_ H]|done|].
  by intros ([_ H] & _ & _).
Qed.

Lemma renumber_addresses doc cs k c pre rest newText n :
  ordered cs -> cs !! k = Some c ->
  Forall (addresses doc) cs ->
  doc = pre ++ pendingText c ++ rest ->
  linesBefore pre c ->
  endsWithLF newText = true ->
  n = pastEnd c - primary c - Z.of_nat (lineFeeds newText) ->
  Forall (addresses (pre ++ newText ++ rest)) (renumber k n cs).
Proof.
  intros Hord Hk Hall Hdoc Hpre Hnew ->.
  rewrite (renumber_lookup _ _ _ _ Hk). rewrite Forall_lookup in Hall.
  pose proof (Hall k c Hk) as [Hwc _].
  apply Forall_app. split; apply Forall_lookup; intros j d Hj.
  - apply lookup_take_Some in Hj as [Hj Hlt].
    destruct (ordered_lookup_precedes _ _ _ _ _ Hord Hlt Hj Hk) as [_ Hle].
    eapply addresses_before; [by eapply Hall|exact Hdoc|apply Hpre|].
    destruct Hpre as [_ ->]. done.
  - rewrite list_lookup_fmap, lookup_drop in Hj.
    destruct (cs !! (S k + j)%nat) as [d0|] eqn:Hd0; [|done].
    injection Hj as <-.
    destruct (ordered_lookup_precedes cs k (S k + j) c d0 Hord ltac:(lia) Hk Hd0)
      as [_ Hle].
    eapply addresses_after; [by eapply Hall|exact Hdoc|done..].
Qed.

(** Coordinate integrity.  In an ordered change list whose records all
    address their own text in the active document, a single accept or reject
    whose edit the host applies leaves every remaining record addressing its
    own text in the edited document: a later accept or reject of any of them
    changes the lines that belong to it. *)
Theorem resolution_keeps_records_addressed
    (uri : string) (i : option Z) (w : World) (editor : TextEditor)
    (fc : FileChange) (k : nat) (c : Change) :
  activeTextEditor w = Some editor ->
  Uri_toString (document_uri editor) = uri ->
  fileChangeMap w !! uri = Some fc ->
  targetIndex i editor fc = Some (Z.of_nat k) ->
  changes fc !! k = Some c ->
  ordered (changes fc) ->
  Forall (addresses (document_text editor)) (changes fc) ->
  (exists w' e',
     acceptChange EditApplied uri i w = Ok w'
     /\ activeTextEditor w' = Some e'
     /\ changesOf w' uri = renumber k (acceptNet c) (changes fc)
     /\ Forall (addresses (document_text e')) (changesOf w' uri))
  /\ (exists w',
        rejectChange EditApplied uri i w = Ok w'
        /\ changesOf w' uri = renumber k (rejectNet c) (changes fc)
        /\ match activeTextEditor w' with
           | Some e' => Forall (addresses (document_text e')) (changesOf w' uri)
           | None => changesOf w' uri = []
           end).
Proof.
  intros He Hu Hfc Ht Hk Hord Hall.
  rewrite (acceptChange_located _ _ _ _ _ _ k c He Hu Hfc Ht Hk).
  rewrite (rejectChange_located _ _ _ _ _ _ k c He Hu Hfc Ht Hk).
  pose proof Hall as Hallc. rewrite Forall_lookup in Hallc.
  destruct (Hallc k c Hk) as (Hwc & pre & rest & Hdoc & Hpre).
  split.
  - destruct (acceptAt_text editor uri fc k c w pre rest He Hdoc Hpre Hwc)
      as (w' & e' & Hw' & He' & Ht' & _).
    exists w', e'. split; [done|]. split; [done|].
    apply acceptAt_store in Hw'.
    rewrite (changesOf_storeAfter _ _ _ _ _ uri Hw'), decide_True by done.
    split; [done|]. rewrite Ht'.
    eapply renumber_addresses; [done..| |].
    + by apply acceptedText_whole.
    + by apply acceptNet_lines.
  - destruct (rejectAt_text editor uri fc k c w pre rest He Hdoc Hpre Hwc)
      as (w' & Hw' & Hcase).
    exists w'. split; [done|].
    apply rejectAt_store in Hw'.
    rewrite (changesOf_storeAfter _ _ _ _ _ uri Hw'), decide_True by done.
    split; [done|].
    destruct (bool_decide _ && _) eqn:Hb.
    + rewrite Hcase. apply andb_prop in Hb as [Hb _].
      by apply bool_decide_eq_true_1 in Hb.
    + destruct Hcase as (e' & -> & Ht' & _). rewrite Ht'.
      eapply renumber_addresses; [done..| |].
      * by apply rejectedText_whole.
      * by apply rejectNet_lines.
Qed.

Lemma resolution_keeps_records_addressed_witness :
  exists w' e',
    acceptChange EditApplied (Uri_toString sampleUri) (Some 0) threeChangesWorld
    = Ok w'
    /\ activeTextEditor w' = Some e'
    /\ Forall (addresses (document_text e'))
              (changesOf w' (Uri_toString sampleUri)).
Proof.
  destruct (resolution_keeps_records_addressed (Uri_toString sampleUri)
              (Some 0) threeChangesWorld
              (editorOf sampleUri (concat (replicate 20 (ln "x"))))
              {| originalContent := concat (replicate 20 (ln "x"));
                 modifiedContent := concat (replicate 20 (ln "x"));
                 changes := threeChanges |}
              0%nat
              (Removed {| line := 2; count := 3;
                          value := ln "x" ++ ln "x" ++ ln "x" |}))
    as [(w' & e' & Hrun & He' & _ & Hall) _].
  - reflexivity.
  - reflexivity.
  - reflexivity.
  - reflexivity.
  - reflexivity.
  - repeat constructor; simpl; lia.
  - repeat constructor.
    + exists (concat (replicate 2 (ln "x"))), (concat (replicate 15 (ln "x"))).
      repeat split.
    + exists (concat (replicate 8 (ln "x"))), (concat (replicate 10 (ln "x"))).
      repeat split.
    + exists (concat (replicate 15 (ln "x"))), (concat (replicate 4 (ln "x"))).
      repeat split.
  - exists w', e'. split; [exact Hrun|]. split; [exact He'|exact Hall].
Defined.

(** ** The layout of a document under review *)

Lemma itemsText_app a b : itemsText (a ++ b) = itemsText a ++ itemsText b.
Proof. apply flat_map_app. Qed.

Lemma records_app a b : records (a ++ b) = records a ++ records b.
Proof. apply flat_map_app. Qed.

Lemma settledText_app acc a b :
  settledText acc (a ++ b) = settledText acc a ++ settledText acc b.
Proof. apply flat_map_app. Qed.

Lemma placed_app lo a b :
  placed lo (a ++ b)
  <-> placed lo a /\ placed (lo + Z.of_nat (lineFeeds (itemsText a))) b.
Proof.
  revert lo. induction a as [|it a IH]; intros lo; simpl.
  - rewrite Z.add_0_r. tauto.
  - rewrite IH. unfold itemsText. simpl. rewrite lineFeeds_app.
    rewrite Nat2Z.inj_add, Z.add_assoc. fold (itemsText a). tauto.
Qed.

Lemma itemOk_whole lo it : itemOk lo it -> endsWithLF (itemText it) = true.
Proof.
  destruct it as [v|c]; simpl; [done|]. intros [_ Hw].
  by destruct (wholeRecord_lines c Hw).
Qed.

Lemma placed_whole lo items :
  placed lo items -> endsWithLF (itemsText items) = true.
Proof.
  revert lo. induction items as [|it items IH]; intros lo; [done|].
  intros [Hit Hrest]. unfold itemsText. simpl.
  apply endsWithLF_app; [by eapply itemOk_whole|by eapply IH].
Qed.

Lemma itemsText_shift n items : itemsText (shiftItem n <$> items) = itemsText items.
Proof.
  induction items as [|it items IH]; [done|]. unfold itemsText in *.
  rewrite fmap_cons. cbn [flat_map]. rewrite IH. f_equal.
  destruct it; simpl; [done|apply shiftChange_pendingText].
Qed.

Lemma records_shift n items :
  records (shiftItem n <$> items) = shiftChange n <$> records items.
Proof.
  induction items as [|it items IH]; [done|]. unfold records in *.
  rewrite fmap_cons. cbn [flat_map]. rewrite IH, fmap_app. f_equal.
  by destruct it.
Qed.

Lemma settledText_shift acc n items :
  settledText acc (shiftItem n <$> items) = settledText acc items.
Proof.
  induction items as [|it items IH]; [done|]. unfold settledText in *.
  rewrite fmap_cons. cbn [flat_map]. rewrite IH. f_equal.
  destruct it as [v|c]; simpl; [done|]. by destruct acc, c.
Qed.

Lemma placed_shift n items : forall lo,
  placed lo items -> placed (lo - n) (shiftItem n <$> items).
Proof.
  induction items as [|it items IH]; intros lo; [done|].
  intros [Hit Hrest]. simpl. split.
  - destruct it as [v|c]; simpl in *; [done|]. destruct Hit as [Hp Hw].
    split; [rewrite shiftChange_primary; lia|by apply shiftChange_wholeRecord].
  - replace (itemText (shiftItem n it)) with (itemText it)
      by (destruct it; simpl; by rewrite ?shiftChange_pendingText).
    replace (lo - n + Z.of_nat (lineFeeds (itemText it)))
      with (lo + Z.of_nat (lineFeeds (itemText it)) - n) by lia.
    by apply IH.
Qed.

Lemma records_split items : forall k c,
  records items !! k = Some c ->
  exists front back,
    items = front ++ Rec c :: back /\ length (records front) = k.
Proof.
  induction items as [|[v|d] items IH]; intros k c Hk; [done|..].
  - destruct (IH k c Hk) as (front & back & -> & Hlen).
    by exists (Plain v :: front), back.
  - destruct k as [|k]; simpl in Hk.
    + injection Hk as ->. by exists [], items.
    + destruct (IH k c Hk) as (front & back & -> & Hlen).
      exists (Rec d :: front), back. split; [done|]. simpl. by rewrite Hlen.
Qed.

Lemma records_nil_settled acc items :
  records items = [] -> settledText acc items = itemsText items.
Proof.
  induction items as [|[v|c] items IH]; [done| |done].
  intros H. unfold settledText, itemsText in *. simpl. by rewrite IH.
Qed.

(** The layout that replaces the record [c] by [newText] and moves what
    follows up by the lines lost. *)
Lemma placed_resolved front c back newText n :
  placed 0 (front ++ Rec c :: back) ->
  endsWithLF newText = true ->
  n = pastEnd c - primary c - Z.of_nat (lineFeeds newText) ->
  placed 0 (front ++ Plain newText :: (shiftItem n <$> back)).
Proof.
  intros Hp Hnew ->. apply placed_app in Hp as (Hf & [_ Hw] & Hb).
  apply placed_app. split; [done|]. simpl. split; [done|].
  pose proof (wholeRecord_lines c Hw) as [Hn _].
  apply (placed_shift (pastEnd c - primary c - Z.of_nat (lineFeeds newText))
           back) in Hb.
  cbn [itemText] in Hb.
  match goal with
  | H : placed ?a _ |- placed ?b _ => replace b with a by lia
  end.
  exact Hb.
Qed.

Lemma pastPending_false parts : pastPending false parts = parts.
Proof. by destruct parts. Qed.

Lemma itemsOf_records parts : forall lineNo (prev : bool),
  records (itemsOf lineNo prev parts) = specRecords lineNo prev parts.
Proof.
  induction parts as [|p rest IH]; intros lineNo prev; [done|].
  cbn [itemsOf specRecords]. rewrite records_app, IH. f_equal.
  destruct (Diff.kind p); [|by destruct prev|done].
  destruct rest as [|q rest']; [done|]. by destruct (Diff.kind q).
Qed.

Lemma itemsOf_text parts : forall lineNo (prev : bool),
  itemsText (itemsOf lineNo prev parts)
  = concat (Diff.value <$> pastPending prev parts).
Proof.
  induction parts as [|p rest IH]; intros lineNo prev; [done|].
  cbn [itemsOf]. rewrite itemsText_app, IH.
  unfold pastPending, selected, itemsText.
  destruct (Diff.kind p) eqn:Hk.
  - rewrite andb_false_r. destruct rest as [|q rest'].
    + simpl. by rewrite !app_nil_r.
    + destruct (Diff.kind q) eqn:Hkq; simpl;
        by rewrite ?app_nil_r, <- ?app_assoc.
  - destruct rest as [|q rest']; destruct prev; simpl;
      by rewrite ?app_nil_r.
  - rewrite andb_false_r.
    destruct rest as [|q rest']; simpl; by rewrite ?app_nil_r.
Qed.

(** The line at which the layout of [parts] starts. *)
Lemma itemsOf_placed parts : forall lineNo (prev : bool),
  Forall (fun p => wholeLinesText (Diff.count p) (Diff.value p)) parts ->
  placed (match parts with
          | q :: _ =>
              if prev && selected Diff.KAdded q
              then lineNo + Diff.count q else lineNo
          | [] => lineNo
          end)
         (itemsOf lineNo prev parts).
Proof.
  induction parts as [|p rest IH]; intros lineNo prev Hall; [done|].
  apply Forall_cons in Hall as [[Hn Hend] Hrest].
  cbn [itemsOf]. unfold selected.
  destruct (Diff.kind p) eqn:Hk.
  - rewrite andb_false_r.
    specialize (IH (lineNo + Diff.count p) true Hrest).
    destruct rest as [|q rest'].
    + simpl. repeat split; done.
    + apply Forall_cons in Hrest as [[Hnq Hendq] _]. unfold selected in IH.
      destruct (Diff.kind q) eqn:Hkq; cbn [andb] in IH; simpl.
      * split; [done|]. by rewrite Hn.
      * split; [repeat split; done|]. rewrite lineFeeds_app.
        replace (lineNo + Z.of_nat (lineFeeds (Diff.value p)
                                    + lineFeeds (Diff.value q)))
          with (lineNo + Diff.count p + Diff.count q) by lia.
        exact IH.
      * split; [repeat split; done|]. by rewrite Hn.
  - specialize (IH (lineNo + Diff.count p) false Hrest).
    assert (Hstart : match rest with
                     | q :: _ =>
                         if false && selected Diff.KAdded q
                         then lineNo + Diff.count p + Diff.count q
                         else lineNo + Diff.count p
                     | [] => lineNo + Diff.count p
                     end = lineNo + Diff.count p) by by destruct rest.
    rewrite Hstart in IH.
    destruct prev; simpl; [done|]. split; [repeat split; done|].
    by rewrite Hn.
  - rewrite andb_false_r.
    specialize (IH (lineNo + Diff.count p) false Hrest).
    assert (Hstart : match rest with
                     | q :: _ =>
                         if false && selected Diff.KAdded q
                         then lineNo + Diff.count p + Diff.count q
                         else lineNo + Diff.count p
                     | [] => lineNo + Diff.count p
                     end = lineNo + Diff.count p) by by destruct rest.
    rewrite Hstart in IH.
    simpl. split; [done|]. by rewrite Hn.
Qed.

Lemma itemsOf_accepted parts : forall lineNo (prev : bool),
  noRemovedTwice parts ->
  settledText true (itemsOf lineNo prev parts)
  = modifiedOf (pastPending prev parts).
Proof.
  induction parts as [|p rest IH]; intros lineNo prev Hno; [done|].
  destruct Hno as [Hpq Hno].
  cbn [itemsOf]. rewrite settledText_app, IH by done.
  unfold pastPending, selected, modifiedOf, settledText.
  destruct (Diff.kind p) eqn:Hk.
  - rewrite andb_false_r. destruct rest as [|q rest'].
    + simpl. by rewrite Hk.
    + destruct (Diff.kind q) eqn:Hkq; simpl; rewrite ?Hk, ?Hkq;
        rewrite ?app_nil_r; try done.
      exfalso. by apply Hpq.
  - destruct rest as [|q rest']; destruct prev; simpl;
      by rewrite ?Hk, ?app_nil_r.
  - rewrite andb_false_r.
    destruct rest as [|q rest']; simpl; by rewrite ?Hk, ?app_nil_r.
Qed.

Lemma itemsOf_rejected parts : forall lineNo (prev : bool),
  settledText false (itemsOf lineNo prev parts) = originalOf parts.
Proof.
  induction parts as [|p rest IH]; intros lineNo prev; [done|].
  cbn [itemsOf]. rewrite settledText_app, IH.
  unfold originalOf, settledText. cbn [flat_map].
  destruct (Diff.kind p) eqn:Hk.
  - destruct rest as [|q rest']; [by simpl; rewrite app_nil_r|].
    destruct (Diff.kind q); simpl; by rewrite ?app_nil_r.
  - by destruct prev.
  - simpl. by rewrite app_nil_r.
Qed.

(** ** One record at a time *)

Lemma itemsText_cons it items :
  itemsText (it :: items) = itemText it ++ itemsText items.
Proof. done. Qed.

Lemma records_plain v items : records (Plain v :: items) = records items.
Proof. done. Qed.

Lemma records_rec c items : records (Rec c :: items) = c :: records items.
Proof. done. Qed.

Lemma laidOut_target u items w front c back :
  laidOut u items w ->
  items = front ++ Rec c :: back ->
  exists editor fc,
    activeTextEditor w = Some editor
    /\ document_uri editor = u
    /\ fileChangeMap w !! Uri_toString u = Some fc
    /\ changes fc = records front ++ c :: records back
    /\ changes fc !! length (records front) = Some c
    /\ document_text editor = itemsText front ++ pendingText c ++ itemsText back
    /\ linesBefore (itemsText front) c
    /\ wholeRecord c.
Proof.
  intros (Hp & Hcs & Hed) ->.
  rewrite records_app, records_rec in Hcs, Hed.
  destruct Hed as (editor & fc & He & Hu & Hfc & Ht);
    [by destruct (records front)|].
  exists editor, fc. unfold changesOf in Hcs. rewrite Hfc in Hcs.
  do 3 (split; [done|]). split; [done|].
  split; [rewrite Hcs; apply list_lookup_middle; done|].
  split; [by rewrite Ht, itemsText_app|].
  apply placed_app in Hp as (Hf & [Hprim Hw] & _).
  split; [|done]. split; [by eapply placed_whole|]. lia.
Qed.

Lemma accept_step u items w front c back :
  laidOut u items w ->
  items = front ++ Rec c :: back ->
  let items' :=
    front ++ Plain (acceptedText c) :: (shiftItem (acceptNet c) <$> back) in
  exists w',
    acceptChange EditApplied (Uri_toString u)
      (Some (Z.of_nat (length (records front)))) w = Ok w'
    /\ laidOut u items' w'
    /\ activeText w' = Some (itemsText items').
Proof.
  intros Hlaid Hitems items'.
  destruct (laidOut_target u items w front c back Hlaid Hitems)
    as (editor & fc & He & Hu & Hfc & Hcs & Hk & Ht & Hpre & Hw).
  destruct Hlaid as (Hp & _ & _). subst items.
  rewrite (acceptChange_located EditApplied (Uri_toString u)
             (Some (Z.of_nat (length (records front)))) w editor fc
             (length (records front)) c He (f_equal _ Hu) Hfc eq_refl Hk).
  destruct (acceptAt_text editor (Uri_toString u) fc (length (records front))
              c w _ _ He Ht Hpre Hw) as (w' & e' & Hw' & He' & Ht' & Hu').
  exists w'. split; [done|].
  assert (Htext : document_text e' = itemsText items').
  { unfold items'.
    by rewrite Ht', itemsText_app, itemsText_cons, itemsText_shift. }
  apply acceptAt_store in Hw'.
  assert (Hrec : renumber (length (records front)) (acceptNet c) (changes fc)
                 = records items').
  { rewrite Hcs, renumber_split. unfold items'.
    by rewrite records_app, records_plain, records_shift. }
  split; [|unfold activeText; by rewrite He', <- Htext].
  split; [|split].
  - eapply placed_resolved; [exact Hp|by apply acceptedText_whole|].
    by apply acceptNet_lines.
  - rewrite (changesOf_storeAfter _ _ _ _ _ _ Hw'), decide_True by done.
    exact Hrec.
  - intros Hne. exists e'. rewrite Hw', Hrec. unfold storeAfter.
    destruct (records items') eqn:Hr; [done|].
    eexists. split; [done|]. split; [congruence|].
    split; [apply lookup_insert_eq|done].
Qed.

Lemma reject_step u items w front c back :
  laidOut u items w ->
  items = front ++ Rec c :: back ->
  let items' :=
    front ++ Plain (rejectedText c) :: (shiftItem (rejectNet c) <$> back) in
  exists w',
    rejectChange EditApplied (Uri_toString u)
      (Some (Z.of_nat (length (records front)))) w = Ok w'
    /\ laidOut u items' w'
    /\ activeText w'
       = match records items' with
         | [] => if String.eqb (scheme u) "file"
                 then Some (itemsText items') else None
         | _ => Some (itemsText items')
         end.
Proof.
  intros Hlaid Hitems items'.
  destruct (laidOut_target u items w front c back Hlaid Hitems)
    as (editor & fc & He & Hu & Hfc & Hcs & Hk & Ht & Hpre & Hw).
  destruct Hlaid as (Hp & _ & _). subst items.
  rewrite (rejectChange_located EditApplied (Uri_toString u)
             (Some (Z.of_nat (length (records front)))) w editor fc
             (length (records front)) c He (f_equal _ Hu) Hfc eq_refl Hk).
  destruct (rejectAt_text editor (Uri_toString u) fc (length (records front))
              c w _ _ He Ht Hpre Hw) as (w' & Hw' & Hcase).
  exists w'. split; [done|].
  assert (Htext : itemsText front ++ rejectedText c ++ itemsText back
                  = itemsText items').
  { unfold items'.
    by rewrite itemsText_app, itemsText_cons, itemsText_shift. }
  apply rejectAt_store in Hw'.
  assert (Hrec : renumber (length (records front)) (rejectNet c) (changes fc)
                 = records items').
  { rewrite Hcs, renumber_split. unfold items'.
    by rewrite records_app, records_plain, records_shift. }
  rewrite Hrec, Hu, Htext in Hcase.
  split; [split; [|split]|].
  - eapply placed_resolved; [exact Hp|by apply rejectedText_whole|].
    by apply rejectNet_lines.
  - rewrite (changesOf_storeAfter _ _ _ _ _ _ Hw'), decide_True by done.
    exact Hrec.
  - intros Hne. rewrite bool_decide_eq_false_2 in Hcase by done.
    destruct Hcase as (e' & He' & Ht' & Hu').
    exists e'. rewrite Hw', Hrec. unfold storeAfter.
    destruct (records items') eqn:Hr; [done|].
    eexists. split; [done|]. split; [done|].
    split; [apply lookup_insert_eq|done].
  - unfold activeText. destruct (records items') eqn:Hr.
    + rewrite bool_decide_eq_true_2 in Hcase by done.
      destruct (String.eqb (scheme u) "file"); simpl in Hcase.
      * destruct Hcase as (e' & He' & Ht' & _). rewrite He'. simpl.
        by rewrite Ht'.
      * by rewrite Hcase.
    + rewrite bool_decide_eq_false_2 in Hcase by done.
      destruct Hcase as (e' & He' & Ht' & _). rewrite He'. simpl.
      by rewrite Ht'.
Qed.

Lemma settledText_resolved acc front c back n :
  settledText acc
    (front ++ Plain (if acc then acceptedText c else rejectedText c)
       :: (shiftItem n <$> back))
  = settledText acc (front ++ Rec c :: back).
Proof.
  rewrite !settledText_app. f_equal. unfold settledText. cbn [flat_map settled].
  f_equal. apply (settledText_shift acc n back).
Qed.

Lemma records_resolved front c back newText n :
  length (records (front ++ Plain newText :: (shiftItem n <$> back)))
  = (length (records (front ++ Rec c :: back)) - 1)%nat.
Proof.
  rewrite !records_app, !length_app, records_plain, records_rec.
  rewrite records_shift, length_fmap. simpl. lia.
Qed.

Lemma acceptEach_settles u ks : forall items w,
  laidOut u items w ->
  activeText w = Some (itemsText items) ->
  resolvesAll (length (records items)) ks ->
  exists w',
    acceptEach EditApplied (Uri_toString u) ks w = Ok w'
    /\ activeText w' = Some (settledText true items)
    /\ changesOf w' (Uri_toString u) = [].
Proof.
  induction ks as [|k ks IH]; intros items w Hlaid Htext Hks.
  - simpl in Hks. apply nil_length_inv in Hks.
    exists w. split; [done|].
    split; [by rewrite (records_nil_settled true items Hks)|].
    destruct Hlaid as (_ & -> & _). done.
  - destruct Hks as [Hk Hks].
    destruct (lookup_lt_is_Some_2 _ _ Hk) as [c Hc].
    destruct (records_split items k c Hc) as (front & back & Hitems & Hlen).
    destruct (accept_step u items w front c back Hlaid Hitems)
      as (w1 & Hw1 & Hlaid1 & Htext1).
    cbn [acceptEach]. rewrite Hlen in Hw1. rewrite Hw1. cbn [bindR].
    destruct (IH _ w1 Hlaid1 Htext1) as (w' & Hw' & Ht' & Hcs').
    { rewrite (records_resolved front c back). by rewrite <- Hitems. }
    exists w'. split; [done|]. split; [|done].
    rewrite Ht', Hitems. f_equal. apply (settledText_resolved true).
Qed.

Lemma rejectEach_settles u ks : forall items w,
  laidOut u items w ->
  activeText w = Some (itemsText items) ->
  resolvesAll (length (records items)) ks ->
  exists w',
    rejectEach EditApplied (Uri_toString u) ks w = Ok w'
    /\ activeText w'
       = match ks with
         | [] => Some (settledText false items)
         | _ => if String.eqb (scheme u) "file"
                then Some (settledText false items) else None
         end
    /\ changesOf w' (Uri_toString u) = [].
Proof.
  induction ks as [|k ks IH]; intros items w Hlaid Htext Hks.
  - simpl in Hks. apply nil_length_inv in Hks.
    exists w. split; [done|].
    split; [by rewrite (records_nil_settled false items Hks)|].
    destruct Hlaid as (_ & -> & _). done.
  - destruct Hks as [Hk Hks].
    destruct (lookup_lt_is_Some_2 _ _ Hk) as [c Hc].
    destruct (records_split items k c Hc) as (front & back & Hitems & Hlen).
    destruct (reject_step u items w front c back Hlaid Hitems)
      as (w1 & Hw1 & Hlaid1 & Htext1).
    cbn [rejectEach]. rewrite Hlen in Hw1. rewrite Hw1. cbn [bindR].
    assert (Hsame : settledText false
                      (front ++ Plain (rejectedText c)
                         :: (shiftItem (rejectNet c) <$> back))
                    = settledText false items).
    { rewrite Hitems. apply (settledText_resolved false). }
    assert (Hks1 : resolvesAll
                     (length (records (front ++ Plain (rejectedText c)
                                         :: (shiftItem (rejectNet c) <$> back))))
                     ks).
    { rewrite (records_resolved front c back). by rewrite <- Hitems. }
    destruct (records (front ++ Plain (rejectedText c)
                         :: (shiftItem (rejectNet c) <$> back))) eqn:Hr.
    + destruct ks as [|k' ks']; [|simpl in Hks1; lia].
      exists w1. split; [done|]. split.
      * rewrite Htext1, <- Hsame.
        rewrite (records_nil_settled false _ Hr). done.
      * destruct Hlaid1 as (_ & -> & _). done.
    + destruct ks as [|k' ks']; [simpl in Hks1; done|].
      destruct (IH _ w1 Hlaid1 Htext1) as (w' & Hw' & Ht' & Hcs').
      { by rewrite Hr. }
      exists w'. split; [done|]. split; [|done]. by rewrite Ht', Hsame.
Qed.

Lemma openDiffView_laidOut diffLines data w editor ws :
  showTextDocument (diffUri data w) w = Ok (editor, ws) ->
  document_uri editor = diffUri data w ->
  let original := document_text editor in
  let modified :=
    normalizeEol (lineEolOf (document_eol editor)) (data_content data) in
  lineDiffOf original modified (diffLines original modified) ->
  exists built items,
    openDiffView diffLines EditApplied data w = Ok built
    /\ laidOut (diffUri data w) items built
    /\ activeText built = Some (itemsText items)
    /\ changesOf built (Uri_toString (diffUri data w)) = records items
    /\ settledText true items = modified
    /\ settledText false items = original.
Proof.
  intros Hshow Huri original modified (Horig & Hmod & Hall & Hno).
  destruct (openDiffView_built diffLines data w editor ws Hshow)
    as (b & e1 & Hb & He1 & Ht1 & Hu1 & Hcs & [fc Hstore]).
  fold original modified in Ht1, Hcs.
  set (parts := diffLines original modified) in *.
  exists b, (itemsOf 0 false parts).
  assert (Ht : document_text e1 = itemsText (itemsOf 0 false parts)).
  { by rewrite Ht1, buildContent_concat, itemsOf_text, pastPending_false. }
  assert (Hr : changesOf b (Uri_toString (diffUri data w))
               = records (itemsOf 0 false parts)).
  { by rewrite Hcs, buildChanges_spec, itemsOf_records. }
  split; [done|]. split; [|split; [|split; [done|split]]].
  - split; [|split; [done|]].
    + pose proof (itemsOf_placed parts 0 false Hall) as Hp.
      by destruct parts.
    + intros _. exists e1, fc. split; [done|]. split; [congruence|]. done.
  - unfold activeText. by rewrite He1, <- Ht.
  - by rewrite itemsOf_accepted, pastPending_false.
  - by rewrite itemsOf_rejected.
Qed.

(** Accepting the records one at a time, in any order, gives the proposal.
    After a diff made of whole lines has been applied, single accepts with
    explicit indices, each index lying in the change list as it is at its
    turn, until no record is left, all complete; the document then holds the
    proposed text and no record is pending. *)
Theorem accepting_each_record_gives_proposal
    (diffLines : text -> text -> list Diff.Part) (data : DiffData)
    (w : World) (editor : TextEditor) (ws : World) (ks : list nat) :
  showTextDocument (diffUri data w) w = Ok (editor, ws) ->
  document_uri editor = diffUri data w ->
  let original := document_text editor in
  let modified :=
    normalizeEol (lineEolOf (document_eol editor)) (data_content data) in
  lineDiffOf original modified (diffLines original modified) ->
  let built := after (openDiffView diffLines EditApplied data w) in
  let key := Uri_toString (diffUri data w) in
  resolvesAll (length (changesOf built key)) ks ->
  exists w',
    acceptEach EditApplied key ks built = Ok w'
    /\ activeText w' = Some modified
    /\ changesOf w' key = [].
Proof.
  intros Hshow Huri original modified Hdiff built key Hks.
  destruct (openDiffView_laidOut diffLines data w editor ws Hshow Huri Hdiff)
    as (b & items & Hb & Hlaid & Htext & Hcs & Hacc & _).
  assert (Hbuilt : built = b) by (unfold built; by rewrite Hb).
  rewrite Hbuilt in *. clear built Hbuilt. unfold key in *.
  rewrite Hcs in Hks.
  destruct (acceptEach_settles _ ks items b Hlaid Htext Hks)
    as (w' & Hw' & Ht' & Hcs').
  exists w'. split; [done|]. split; [|done]. by rewrite Ht', Hacc.
Qed.

(** Rejecting the records one at a time, in any order, gives back the
    original.  After a diff made of whole lines has been applied, single
    rejects with explicit indices, until no record is left, all complete and
    no record is pending; the document then holds the text it had before the
    diff, unless it is not a file and a reject has emptied its list, which
    closes its editor. *)
Theorem rejecting_each_record_gives_original
    (diffLines : text -> text -> list Diff.Part) (data : DiffData)
    (w : World) (editor : TextEditor) (ws : World) (ks : list nat) :
  showTextDocument (diffUri data w) w = Ok (editor, ws) ->
  document_uri editor = diffUri data w ->
  let original := document_text editor in
  let modified :=
    normalizeEol (lineEolOf (document_eol editor)) (data_content data) in
  lineDiffOf original modified (diffLines original modified) ->
  let built := after (openDiffView diffLines EditApplied data w) in
  let key := Uri_toString (diffUri data w) in
  resolvesAll (length (changesOf built key)) ks ->
  exists w',
    rejectEach EditApplied key ks built = Ok w'
    /\ activeText w'
       = match ks with
         | [] => Some original
         | _ => if String.eqb (scheme (diffUri data w)) "file"
                then Some original else None
         end
    /\ changesOf w' key = [].
Proof.
  intros Hshow Huri original modified Hdiff built key Hks.
  destruct (openDiffView_laidOut diffLines data w editor ws Hshow Huri Hdiff)
    as (b & items & Hb & Hlaid & Htext & Hcs & _ & Hrej).
  assert (Hbuilt : built = b) by (unfold built; by rewrite Hb).
  rewrite Hbuilt in *. clear built Hbuilt. unfold key in *.
  rewrite Hcs in Hks.
  destruct (rejectEach_settles _ ks items b Hlaid Htext Hks)
    as (w' & Hw' & Ht' & Hcs').
  exists w'. split; [done|]. split; [|done]. by rewrite Ht', Hrej.
Qed.

Lemma twoBlockDiff_lineDiffOf :
  lineDiffOf fourLines fourLinesProposal
    (twoBlockDiff fourLines fourLinesProposal).
Proof.
  split; [reflexivity|]. split; [reflexivity|]. split.
  - repeat constructor.
  - simpl. repeat split; intros [H1 H2]; discriminate.
Qed.

Lemma accepting_each_record_gives_proposal_witness :
  exists w',
    acceptEach EditApplied (Uri_toString sampleUri) [1; 0]%nat
      (after (openDiffView twoBlockDiff EditApplied
                (dataFor sampleUri fourLinesProposal)
                (freshWorld sampleUri fourLines))) = Ok w'
    /\ activeText w' = Some fourLinesProposal
    /\ changesOf w' (Uri_toString sampleUri) = [].
Proof.
  apply (accepting_each_record_gives_proposal twoBlockDiff
           (dataFor sampleUri fourLinesProposal)
           (freshWorld sampleUri fourLines)
           {| document_uri := sampleUri; document_text := fourLines;
              document_isDirty := false; document_eol := EOL_LF;
              selection_line := 0 |}
           (freshWorld sampleUri fourLines) [1; 0]%nat).
  - reflexivity.
  - reflexivity.
  - exact twoBlockDiff_lineDiffOf.
  - vm_compute. lia.
Defined.

Lemma rejecting_each_record_gives_original_witness :
  exists w',
    rejectEach EditApplied (Uri_toString sampleUri) [0; 0]%nat
      (after (openDiffView twoBlockDiff EditApplied
                (dataFor sampleUri fourLinesProposal)
                (freshWorld sampleUri fourLines))) = Ok w'
    /\ activeText w' = Some fourLines
    /\ changesOf w' (Uri_toString sampleUri) = [].
Proof.
  apply (rejecting_each_record_gives_original twoBlockDiff
           (dataFor sampleUri fourLinesProposal)
           (freshWorld sampleUri fourLines)
           {| document_uri := sampleUri; document_text := fourLines;
              document_isDirty := false; document_eol := EOL_LF;
              selection_line := 0 |}
           (freshWorld sampleUri fourLines) [0; 0]%nat).
  - reflexivity.
  - reflexivity.
  - exact twoBlockDiff_lineDiffOf.
  - vm_compute. lia.
Defined.

(** ** Line ends of the proposal *)

Lemma text_ind2 (P : text -> Prop) :
  P [] -> (forall c, P [c]) ->
  (forall c c' s, P s -> P (c' :: s) -> P (c :: c' :: s)) ->
  forall s, P s.
Proof.
  intros Hnil Hone Hstep s.
  assert (H : P s /\ forall c, P (c :: s)).
  { induction s as [|c' s [IH1 IH2]]; [by split|].
    split; [apply IH2|]. intros c. by apply Hstep. }
  apply H.
Qed.

(** Rewriting the line ends of the proposal to those of the document neither
    joins nor splits lines: the text has as many line feeds afterwards as it
    had before, whether the document uses LF or CRLF. *)
Theorem normalizeEol_keeps_line_count (e : EndOfLine) (s : text) :
  lineFeeds (normalizeEol (lineEolOf e) s) = lineFeeds s.
Proof.
  assert (Heol : lineFeeds (lineEolOf e) = 1%nat) by by destruct e.
  induction s as [|c|c c' s IH1 IH2] using text_ind2.
  - done.
  - simpl. destruct (isLF c) eqn:Hc.
    + by rewrite app_nil_r, Heol.
    + simpl. by rewrite Hc.
  - cbn [normalizeEol]. cbn [normalizeEol] in IH2.
    destruct (isLF c) eqn:Hc.
    + rewrite lineFeeds_app, Heol, IH2. simpl. by rewrite Hc.
    + destruct (isCR c && isLF c') eqn:Hcr.
      * apply andb_prop in Hcr as [_ Hc'].
        rewrite lineFeeds_app, Heol, IH1. simpl. by rewrite Hc, Hc'.
      * change (lineFeeds (c :: c' :: s))
          with (if isLF c then S (lineFeeds (c' :: s)) else lineFeeds (c' :: s)).
        rewrite Hc, <- IH2. simpl. by rewrite Hc.
Qed.

(** ** Decorations *)

Lemma wholeLines_decorates ln h :
  0 < count h ->
  decorates ln (wholeLines h) = hunkHit ln h.
Proof.
  intros Hpos. unfold wholeLines, Range_new, isBefore, decorates, hunkHit.
  simpl.
  destruct (Z.ltb_spec (line h + count h - 1) (line h)); [lia|].
  destruct (Z.eqb_spec (line h + count h - 1) (line h)); simpl;
    rewrite ?andb_false_r; simpl; f_equal; apply eq_iff_eq_true;
    rewrite Z.leb_le, Z.ltb_lt; lia.
Qed.

Lemma decorations_of_record ln c :
  wellShaped c ->
  (length (List.filter (decorates ln) (deletions [c]))
   + length (List.filter (decorates ln) (insertions [c])))%nat
  = if changeHit ln c then 1%nat else 0%nat.
Proof.
  destruct c as [h|h|r a]; simpl.
  - intros [_ Hpos]. rewrite (wholeLines_decorates ln h Hpos).
    by destruct (hunkHit ln h).
  - intros [_ Hpos]. rewrite (wholeLines_decorates ln h Hpos).
    by destruct (hunkHit ln h).
  - intros (_ & Hr & Ha & Hadj).
    rewrite (wholeLines_decorates ln r Hr), (wholeLines_decorates ln a Ha).
    unfold hunkHit. rewrite Hadj.
    destruct (Z.leb_spec (line r) ln), (Z.ltb_spec ln (line r + count r)),
      (Z.leb_spec (line r + count r) ln),
      (Z.ltb_spec ln (line r + count r + count a)),
      (Z.ltb_spec ln (line r + count r + count a)); simpl; lia.
Qed.

Lemma deletions_cons c cs : deletions (c :: cs) = deletions [c] ++ deletions cs.
Proof. unfold deletions. simpl. by rewrite app_nil_r. Qed.

Lemma insertions_cons c cs :
  insertions (c :: cs) = insertions [c] ++ insertions cs.
Proof. unfold insertions. simpl. by rewrite app_nil_r. Qed.

Lemma changeHit_later ln c cs :
  Forall (precedes c) cs -> changeHit ln c = true ->
  existsb (changeHit ln) cs = false.
Proof.
  intros Hall Hc. apply changeHit_covers in Hc.
  induction cs as [|d cs IH]; [done|].
  apply Forall_cons in Hall as [[_ Hd] Hall]. simpl.
  rewrite IH by done. rewrite orb_false_r.
  destruct (changeHit ln d) eqn:Hhit; [|done].
  apply changeHit_covers in Hhit. unfold covers in *. lia.
Qed.

(** Every line of a pending record is decorated exactly once, and no other
    line is decorated: in a well-formed change list, the deletion and
    insertion ranges that [drawChanges] hands to the editor decorate a line
    once when the line lies in the span of a record (the test of
    [getChangeIndex]), and not at all otherwise. *)
Theorem each_pending_line_is_decorated_once (cs : list Change) (ln : Z) :
  wellFormed cs ->
  length (List.filter (decorates ln) (deletions cs ++ insertions cs))
  = if existsb (changeHit ln) cs then 1%nat else 0%nat.
Proof.
  intros [Hshape Hord].
  rewrite List.filter_app, length_app.
  induction cs as [|c cs IH]; [done|].
  apply Forall_cons in Hshape as [Hc Hshape].
  apply StronglySorted_cons in Hord as [Hafter Hord].
  specialize (IH Hshape Hord).
  rewrite deletions_cons, insertions_cons, !List.filter_app, !length_app.
  pose proof (decorations_of_record ln c Hc) as Hrec.
  cbn [existsb]. destruct (changeHit ln c) eqn:Hhit; cbn [orb].
  - rewrite (changeHit_later ln c cs Hafter Hhit) in IH. lia.
  - destruct (existsb (changeHit ln) cs); lia.
Qed.

Lemma each_pending_line_is_decorated_once_witness :
  length (List.filter (decorates 9)
            (deletions threeChanges ++ insertions threeChanges)) = 1%nat
  /\ length (List.filter (decorates 6)
               (deletions threeChanges ++ insertions threeChanges)) = 0%nat.
Proof.
  assert (Hwf : wellFormed threeChanges).
  { split; repeat constructor; simpl; lia. }
  split.
  - exact (each_pending_line_is_decorated_once threeChanges 9 Hwf).
  - exact (each_pending_line_is_decorated_once threeChanges 6 Hwf).
Defined.

(** ** Applying a diff to any path *)

Lemma showTextDocument_diffUri data w :
  exists editor ws, showTextDocument (diffUri data w) w = Ok (editor, ws).
Proof.
  assert (Hopen : exists e, openDocument (diffUri data w) w = Ok e).
  { unfold openDocument, diffUri.
    destruct (files w !! data_path data) as [t|] eqn:Hf; simpl.
    - destruct (otherEditors w !! _); [by eexists|]. rewrite Hf. by eexists.
    - destruct (otherEditors w !! _); by eexists. }
  destruct Hopen as [e He]. unfold showTextDocument.
  destruct (activeTextEditor w) as [e0|].
  - destruct (String.eqb _ _); [by eexists _, _|].
    rewrite He. by eexists _, _.
  - rewrite He. by eexists _, _.
Qed.



Lemma resolution_edit_net_lines_witness :
  exists w' e',
    acceptChange EditApplied (Uri_toString sampleUri) (Some 0) threeChangesWorld
    = Ok w'
    /\ activeTextEditor w' = Some e'
    /\ Z.of_nat (lineFeeds (document_text e')) = 17.
Proof.
  apply (resolution_edit_net_lines (Uri_toString sampleUri) (Some 0)
           threeChangesWorld
           (editorOf sampleUri (concat (replicate 20 (ln "x"))))
           {| originalContent := concat (replicate 20 (ln "x"));
              modifiedContent := concat (replicate 20 (ln "x"));
              changes := threeChanges |}
           0%nat
           (Removed {| line := 2; count := 3;
                       value := ln "x" ++ ln "x" ++ ln "x" |})).
  - reflexivity.
  - reflexivity.
  - reflexivity.
  - reflexivity.
  - reflexivity.
  - simpl. lia.
  - split; [simpl; lia|reflexivity].
Defined.

(** ** Single resolutions followed by a bulk resolution *)

Lemma offsetSpans_app k a : forall base b,
  offsetSpans base k (a ++ b)
  = offsetSpans base k a
    ++ offsetSpans (base + length (concat (Diff.value <$> a))) k b.
Proof.
  induction a as [|p a IH]; intros base b.
  - simpl. by rewrite Nat.add_0_r.
  - cbn [app offsetSpans fmap list_fmap concat]. rewrite IH, <- app_assoc.
    rewrite length_app, Nat.add_assoc. done.
Qed.

Lemma partsOfItem_text it :
  concat (Diff.value <$> partsOfItem it) = itemText it.
Proof.
  destruct it as [v|[h|h|r a]]; simpl; by rewrite ?app_nil_r.
Qed.

Lemma partsOf_text items :
  concat (Diff.value <$> flat_map partsOfItem items) = itemsText items.
Proof.
  induction items as [|it items IH]; [done|].
  cbn [flat_map]. rewrite fmap_app, concat_app, IH, partsOfItem_text. done.
Qed.

Lemma partsOf_without_removed items :
  without Diff.KRemoved (flat_map partsOfItem items) = settledText true items.
Proof.
  unfold without, settledText.
  induction items as [|it items IH]; [done|].
  cbn [flat_map]. rewrite flat_map_app, IH. f_equal.
  destruct it as [v|[h|h|r a]]; simpl; by rewrite ?app_nil_r.
Qed.

Lemma partsOf_without_added items :
  without Diff.KAdded (flat_map partsOfItem items) = settledText false items.
Proof.
  unfold without, settledText.
  induction items as [|it items IH]; [done|].
  cbn [flat_map]. rewrite flat_map_app, IH. f_equal.
  destruct it as [v|[h|h|r a]]; simpl; by rewrite ?app_nil_r.
Qed.

Lemma acceptDelete_items items : forall pre lo,
  placed lo items ->
  endsWithLF pre = true -> Z.of_nat (lineFeeds pre) = lo ->
  spanOf (pre ++ itemsText items) <$> flat_map acceptDelete (records items)
  = offsetSpans (length pre) Diff.KRemoved (flat_map partsOfItem items).
Proof.
  induction items as [|it items IH]; intros pre lo Hp Hpre Hl; [done|].
  destruct Hp as [Hit Hp].
  assert (Hnext :
    spanOf (pre ++ itemsText (it :: items))
      <$> flat_map acceptDelete (records items)
    = offsetSpans (length pre + length (itemText it)) Diff.KRemoved
        (flat_map partsOfItem items)).
  { rewrite itemsText_cons, app_assoc, <- length_app.
    apply (IH _ (lo + Z.of_nat (lineFeeds (itemText it)))); [done| |].
    - apply endsWithLF_app; [done|]. by eapply itemOk_whole.
    - rewrite lineFeeds_app. lia. }
  cbn [flat_map]. rewrite offsetSpans_app, partsOfItem_text.
  destruct it as [v|c].
  - rewrite records_plain, Hnext. done.
  - rewrite records_rec. cbn [flat_map]. rewrite fmap_app, Hnext. f_equal.
    destruct Hit as [Hprim Hw]. rewrite itemsText_cons.
    destruct c as [h|h|r a]; simpl in Hprim, Hw |- *.
    + f_equal.
      exact (blockRange_spanOf pre (value h) (itemsText items) (line h)
               (count h) [] Hpre (eq_trans Hl (eq_sym Hprim)) Hw).
    + done.
    + destruct Hw as (Hr & Ha & Hadj). f_equal. rewrite <- app_assoc.
      exact (blockRange_spanOf pre (value r) (value a ++ itemsText items)
               (line r) (count r) [] Hpre (eq_trans Hl (eq_sym Hprim)) Hr).
Qed.

Lemma rejectDelete_items items : forall pre lo,
  placed lo items ->
  endsWithLF pre = true -> Z.of_nat (lineFeeds pre) = lo ->
  spanOf (pre ++ itemsText items) <$> flat_map rejectDelete (records items)
  = offsetSpans (length pre) Diff.KAdded (flat_map partsOfItem items).
Proof.
  induction items as [|it items IH]; intros pre lo Hp Hpre Hl; [done|].
  destruct Hp as [Hit Hp].
  assert (Hnext :
    spanOf (pre ++ itemsText (it :: items))
      <$> flat_map rejectDelete (records items)
    = offsetSpans (length pre + length (itemText it)) Diff.KAdded
        (flat_map partsOfItem items)).
  { rewrite itemsText_cons, app_assoc, <- length_app.
    apply (IH _ (lo + Z.of_nat (lineFeeds (itemText it)))); [done| |].
    - apply endsWithLF_app; [done|]. by eapply itemOk_whole.
    - rewrite lineFeeds_app. lia. }
  cbn [flat_map]. rewrite offsetSpans_app, partsOfItem_text.
  destruct it as [v|c].
  - rewrite records_plain, Hnext. done.
  - rewrite records_rec. cbn [flat_map]. rewrite fmap_app, Hnext. f_equal.
    destruct Hit as [Hprim Hw]. rewrite itemsText_cons.
    destruct c as [h|h|r a]; simpl in Hprim, Hw |- *.
    + done.
    + f_equal.
      exact (blockRange_spanOf pre (value h) (itemsText items) (line h)
               (count h) [] Hpre (eq_trans Hl (eq_sym Hprim)) Hw).
    + destruct Hw as (Hr & Ha & Hadj). f_equal.
      pose proof (blockRange_spanOf (pre ++ value r) (value a)
                    (itemsText items) (line a) (count a) []) as Hspan.
      rewrite <- !app_assoc, length_app in Hspan.
      rewrite <- (app_assoc (value r)). apply Hspan; [| |done].
      * apply endsWithLF_app; [done|]. by destruct Hr.
      * rewrite lineFeeds_app. destruct Hr. lia.
Qed.

Lemma bulk_accept_items items :
  placed 0 items ->
  applyTextEdits (itemsText items)
    (flat_map acceptDelete (reverse (records items)))
  = Some (settledText true items).
Proof.
  intros Hp. rewrite <- partsOf_without_removed.
  apply applyTextEdits_bulk; [by rewrite partsOf_text|].
  rewrite flat_map_reverse by apply acceptDelete_small.
  rewrite fmap_reverse. f_equal.
  by apply (acceptDelete_items items [] 0).
Qed.

Lemma bulk_reject_items items :
  placed 0 items ->
  applyTextEdits (itemsText items)
    (flat_map rejectDelete (reverse (records items)))
  = Some (settledText false items).
Proof.
  intros Hp. rewrite <- partsOf_without_added.
  apply applyTextEdits_bulk; [by rewrite partsOf_text|].
  rewrite flat_map_reverse by apply rejectDelete_small.
  rewrite fmap_reverse. f_equal.
  by apply (rejectDelete_items items [] 0).
Qed.

Lemma laidOut_no_records u items w :
  laidOut u items w ->
  fileChangeMap w !! Uri_toString u = None -> records items = [].
Proof.
  intros (_ & Hcs & _) Hnone. unfold changesOf in Hcs. by rewrite Hnone in Hcs.
Qed.

Lemma accept_step_store u items w front c back w' :
  laidOut u items w ->
  items = front ++ Rec c :: back ->
  acceptChange EditApplied (Uri_toString u)
    (Some (Z.of_nat (length (records front)))) w = Ok w' ->
  records (front ++ Plain (acceptedText c)
             :: (shiftItem (acceptNet c) <$> back)) = [] ->
  fileChangeMap w' !! Uri_toString u = None.
Proof.
  intros Hlaid Hitems Hrun Hnil.
  destruct (laidOut_target u items w front c back Hlaid Hitems)
    as (editor & fc & He & Hu & Hfc & Hcs & Hk & _).
  rewrite (acceptChange_located EditApplied (Uri_toString u)
             (Some (Z.of_nat (length (records front)))) w editor fc
             (length (records front)) c He (f_equal _ Hu) Hfc eq_refl Hk)
    in Hrun.
  apply acceptAt_store in Hrun. rewrite Hrun, Hcs, renumber_split.
  rewrite records_app, records_plain, records_shift in Hnil.
  rewrite Hnil. apply lookup_delete_eq.
Qed.

Lemma reject_step_store u items w front c back w' :
  laidOut u items w ->
  items = front ++ Rec c :: back ->
  rejectChange EditApplied (Uri_toString u)
    (Some (Z.of_nat (length (records front)))) w = Ok w' ->
  records (front ++ Plain (rejectedText c)
             :: (shiftItem (rejectNet c) <$> back)) = [] ->
  fileChangeMap w' !! Uri_toString u = None.
Proof.
  intros Hlaid Hitems Hrun Hnil.
  destruct (laidOut_target u items w front c back Hlaid Hitems)
    as (editor & fc & He & Hu & Hfc & Hcs & Hk & _).
  rewrite (rejectChange_located EditApplied (Uri_toString u)
             (Some (Z.of_nat (length (records front)))) w editor fc
             (length (records front)) c He (f_equal _ Hu) Hfc eq_refl Hk)
    in Hrun.
  apply rejectAt_store in Hrun. rewrite Hrun, Hcs, renumber_split.
  rewrite records_app, records_plain, records_shift in Hnil.
  rewrite Hnil. apply lookup_delete_eq.
Qed.

Lemma laidOut_inReview u items w :
  laidOut u items w ->
  activeText w = Some (itemsText items) ->
  (records items = [] -> fileChangeMap w !! Uri_toString u = None) ->
  inReview u items w.
Proof.
  intros Hlaid Htext Hnil. split; [done|]. split; [done|].
  destruct (fileChangeMap w !! Uri_toString u) as [fc|] eqn:Hfc.
  - destruct Hlaid as (_ & _ & Hed).
    destruct Hed as (editor & fc' & He & Hu & _).
    + intros Hr. by specialize (Hnil Hr).
    + by exists editor.
  - by eapply laidOut_no_records.
Qed.

Lemma acceptEach_partial u ks : forall items w,
  inReview u items w ->
  inTurn (length (records items)) ks ->
  exists w1 items1,
    acceptEach EditApplied (Uri_toString u) ks w = Ok w1
    /\ inReview u items1 w1
    /\ settledText true items1 = settledText true items.
Proof.
  induction ks as [|k ks IH]; intros items w Hrev Hks.
  - by exists w, items.
  - destruct Hks as [Hk Hks]. destruct Hrev as (Hlaid & Htext & Hed).
    destruct (lookup_lt_is_Some_2 _ _ Hk) as [c Hc].
    destruct (records_split items k c Hc) as (front & back & Hitems & Hlen).
    destruct (accept_step u items w front c back Hlaid Hitems)
      as (w1 & Hw1 & Hlaid1 & Htext1).
    pose proof (accept_step_store u items w front c back w1 Hlaid Hitems Hw1)
      as Hstore1.
    cbn [acceptEach]. rewrite Hlen in Hw1. rewrite Hw1. cbn [bindR].
    destruct (IH _ w1 (laidOut_inReview _ _ _ Hlaid1 Htext1 Hstore1))
      as (w2 & items2 & Hw2 & Hrev2 & Hset2).
    { rewrite (records_resolved front c back). by rewrite <- Hitems. }
    exists w2, items2. split; [done|]. split; [done|].
    rewrite Hset2, Hitems. apply (settledText_resolved true).
Qed.

Lemma acceptAllChanges_inReview u items w :
  inReview u items w ->
  activeText (after (acceptAllChanges EditApplied u w))
  = Some (settledText true items).
Proof.
  intros (Hlaid & Htext & Hed).
  destruct (fileChangeMap w !! Uri_toString u) as [fc|] eqn:Hfc.
  - destruct Hed as (editor & He & Hu).
    apply (acceptAllChanges_text u w editor); [done|done| |by eexists].
    destruct Hlaid as (Hp & -> & _).
    unfold activeText in Htext. rewrite He in Htext. injection Htext as ->.
    by apply bulk_accept_items.
  - unfold acceptAllChanges. rewrite Hfc. simpl.
    by rewrite Htext, (records_nil_settled true items Hed).
Qed.

(** Accepting some records one at a time and then all the rest at once gives
    the proposal.  After a diff made of whole lines has been applied, single
    accepts with explicit indices, each index lying in the change list as it
    is at its turn, all complete, and a bulk accept after them leaves the
    document equal to the proposed text, whether records were left or not. *)
Theorem accept_some_then_all_gives_proposal
    (diffLines : text -> text -> list Diff.Part) (data : DiffData)
    (w : World) (editor : TextEditor) (ws : World) (ks : list nat) :
  showTextDocument (diffUri data w) w = Ok (editor, ws) ->
  document_uri editor = diffUri data w ->
  let original := document_text editor in
  let modified :=
    normalizeEol (lineEolOf (document_eol editor)) (data_content data) in
  lineDiffOf original modified (diffLines original modified) ->
  let built := after (openDiffView diffLines EditApplied data w) in
  let key := Uri_toString (diffUri data w) in
  inTurn (length (changesOf built key)) ks ->
  exists w1,
    acceptEach EditApplied key ks built = Ok w1
    /\ activeText (after (acceptAllChanges EditApplied (diffUri data w) w1))
       = Some modified.
Proof.
  intros Hshow Huri original modified Hdiff built key Hks.
  destruct (openDiffView_laidOut diffLines data w editor ws Hshow Huri Hdiff)
    as (b & items & Hb & Hlaid & Htext & Hcs & Hacc & _).
  destruct (openDiffView_built diffLines data w editor ws Hshow)
    as (b' & e1 & Hb' & He1 & _ & Hu1 & _ & Hstore).
  rewrite Hb in Hb'. injection Hb' as <-.
  assert (Hbuilt : built = b) by (unfold built; by rewrite Hb).
  rewrite Hbuilt in *. clear built Hbuilt. unfold key in *.
  rewrite Hcs in Hks.
  assert (Hrev : inReview (diffUri data w) items b).
  { split; [done|]. split; [done|]. destruct Hstore as [fc ->].
    exists e1. split; [done|congruence]. }
  destruct (acceptEach_partial _ ks items b Hrev Hks)
    as (w1 & items1 & Hw1 & Hrev1 & Hset1).
  exists w1. split; [done|].
  by rewrite (acceptAllChanges_inReview _ items1 w1 Hrev1), Hset1, Hacc.
Qed.

Lemma rejectEach_partial u ks : forall items w,
  inReview u items w ->
  (fileChangeMap w !! Uri_toString u = None ->
   String.eqb (scheme u) "file" = true) ->
  inTurn (length (records items)) ks ->
  exists w1,
    rejectEach EditApplied (Uri_toString u) ks w = Ok w1
    /\ ((exists items1,
           inReview u items1 w1
           /\ (fileChangeMap w1 !! Uri_toString u = None ->
               String.eqb (scheme u) "file" = true)
           /\ settledText false items1 = settledText false items)
        \/ (fileChangeMap w1 !! Uri_toString u = None
            /\ activeTextEditor w1 = None
            /\ String.eqb (scheme u) "file" = false)).
Proof.
  induction ks as [|k ks IH]; intros items w Hrev Hfile Hks.
  - exists w. split; [done|]. left. by exists items.
  - destruct Hks as [Hk Hks]. destruct Hrev as (Hlaid & Htext & Hed).
    destruct (lookup_lt_is_Some_2 _ _ Hk) as [c Hc].
    destruct (records_split items k c Hc) as (front & back & Hitems & Hlen).
    destruct (reject_step u items w front c back Hlaid Hitems)
      as (w1 & Hw1 & Hlaid1 & Htext1).
    pose proof (reject_step_store u items w front c back w1 Hlaid Hitems Hw1)
      as Hstore1.
    cbn [rejectEach]. rewrite Hlen in Hw1. rewrite Hw1. cbn [bindR].
    pose proof (settledText_resolved false front c back (rejectNet c))
      as Hsame.
    pose proof (records_resolved front c back (rejectedText c) (rejectNet c))
      as Hlen1.
    cbn [negb] in Hsame. rewrite <- Hitems in Hsame, Hlen1.
    set (items' := front ++ Plain (rejectedText c)
                     :: (shiftItem (rejectNet c) <$> back)) in *.
    rewrite <- Hlen1 in Hks.
    destruct (records items') as [|c1 cs1] eqn:Hr.
    + destruct ks as [|k' ks']; [|simpl in Hks; lia].
      exists w1. split; [done|]. specialize (Hstore1 eq_refl).
      destruct (String.eqb (scheme u) "file") eqn:Hscheme.
      * left. exists items'. split; [|split; [done|exact Hsame]].
        apply laidOut_inReview; [done|done|]. by rewrite Hr.
      * right. split; [done|]. split; [|done].
        unfold activeText in Htext1.
        by destruct (activeTextEditor w1).
    + destruct (IH items' w1) as (w2 & Hw2 & Hout).
      * apply laidOut_inReview; [done|done|]. by rewrite Hr.
      * intros Hnone.
        pose proof (laidOut_no_records _ _ _ Hlaid1 Hnone) as Hnil.
        by rewrite Hr in Hnil.
      * by rewrite Hr.
      * exists w2. split; [done|].
        destruct Hout as [(items2 & Hrev2 & Hfile2 & Hset2)|Hclosed];
          [left|by right].
        exists items2. split; [done|]. split; [done|]. by rewrite Hset2.
Qed.

Lemma rejectAllChanges_inReview u items w :
  inReview u items w ->
  (fileChangeMap w !! Uri_toString u = None ->
   String.eqb (scheme u) "file" = true) ->
  activeText (after (rejectAllChanges EditApplied u w))
  = if String.eqb (scheme u) "file"
    then Some (settledText false items) else None.
Proof.
  intros (Hlaid & Htext & Hed) Hfile.
  destruct (fileChangeMap w !! Uri_toString u) as [fc|] eqn:Hfc.
  - destruct Hed as (editor & He & Hu).
    apply (rejectAllChanges_text u w editor); [done|done| |by eexists].
    destruct Hlaid as (Hp & -> & _).
    unfold activeText in Htext. rewrite He in Htext. injection Htext as ->.
    by apply bulk_reject_items.
  - unfold rejectAllChanges. rewrite Hfc. simpl.
    by rewrite Htext, (records_nil_settled false items Hed), Hfile.
Qed.

(** Rejecting some records one at a time and then all the rest at once gives
    back the original.  After a diff made of whole lines has been applied,
    single rejects with explicit indices, each index lying in the change list
    as it is at its turn, all complete, and a bulk reject after them leaves
    a file equal to the text it had before the diff; a document that is not a
    file ends up closed. *)
Theorem reject_some_then_all_gives_original
    (diffLines : text -> text -> list Diff.Part) (data : DiffData)
    (w : World) (editor : TextEditor) (ws : World) (ks : list nat) :
  showTextDocument (diffUri data w) w = Ok (editor, ws) ->
  document_uri editor = diffUri data w ->
  let original := document_text editor in
  let modified :=
    normalizeEol (lineEolOf (document_eol editor)) (data_content data) in
  lineDiffOf original modified (diffLines original modified) ->
  let built := after (openDiffView diffLines EditApplied data w) in
  let key := Uri_toString (diffUri data w) in
  inTurn (length (changesOf built key)) ks ->
  exists w1,
    rejectEach EditApplied key ks built = Ok w1
    /\ activeText (after (rejectAllChanges EditApplied (diffUri data w) w1))
       = if String.eqb (scheme (diffUri data w)) "file"
         then Some original else None.
Proof.
  intros Hshow Huri original modified Hdiff built key Hks.
  destruct (openDiffView_laidOut diffLines data w editor ws Hshow Huri Hdiff)
    as (b & items & Hb & Hlaid & Htext & Hcs & _ & Hrej).
  destruct (openDiffView_built diffLines data w editor ws Hshow)
    as (b' & e1 & Hb' & He1 & _ & Hu1 & _ & Hstore).
  rewrite Hb in Hb'. injection Hb' as <-.
  assert (Hbuilt : built = b) by (unfold built; by rewrite Hb).
  rewrite Hbuilt in *. clear built Hbuilt. unfold key in *.
  rewrite Hcs in Hks.
  assert (Hrev : inReview (diffUri data w) items b).
  { split; [done|]. split; [done|]. destruct Hstore as [fc ->].
    exists e1. split; [done|congruence]. }
  destruct (rejectEach_partial _ ks items b Hrev) as (w1 & Hw1 & Hout);
    [by destruct Hstore as [fc ->]|done|].
  exists w1. split; [done|].
  destruct Hout as [(items1 & Hrev1 & Hfile1 & Hset1)|(Hnone & Hclosed & Hs)].
  - by rewrite (rejectAllChanges_inReview _ items1 w1 Hrev1 Hfile1), Hset1, Hrej.
  - unfold rejectAllChanges. rewrite Hnone, Hs. simpl.
    unfold activeText. by rewrite Hclosed.
Qed.

Lemma accept_some_then_all_gives_proposal_witness :
  exists w1,
    acceptEach EditApplied (Uri_toString sampleUri) [1]%nat
      (after (openDiffView twoBlockDiff EditApplied
                (dataFor sampleUri fourLinesProposal)
                (freshWorld sampleUri fourLines))) = Ok w1
    /\ activeText (after (acceptAllChanges EditApplied sampleUri w1))
       = Some fourLinesProposal.
Proof.
  apply (accept_some_then_all_gives_proposal twoBlockDiff
           (dataFor sampleUri fourLinesProposal)
           (freshWorld sampleUri fourLines)
           {| document_uri := sampleUri; document_text := fourLines;
              document_isDirty := false; document_eol := EOL_LF;
              selection_line := 0 |}
           (freshWorld sampleUri fourLines) [1]%nat).
  - reflexivity.
  - reflexivity.
  - exact twoBlockDiff_lineDiffOf.
  - vm_compute. lia.
Defined.

Lemma reject_some_then_all_gives_original_witness :
  exists w1,
    rejectEach EditApplied (Uri_toString sampleUri) [0]%nat
      (after (openDiffView twoBlockDiff EditApplied
                (dataFor sampleUri fourLinesProposal)
                (freshWorld sampleUri fourLines))) = Ok w1
    /\ activeText (after (rejectAllChanges EditApplied sampleUri w1))
       = Some fourLines.
Proof.
  apply (reject_some_then_all_gives_original twoBlockDiff
           (dataFor sampleUri fourLinesProposal)
           (freshWorld sampleUri fourLines)
           {| document_uri := sampleUri; document_text := fourLines;
              document_isDirty := false; document_eol := EOL_LF;
              selection_line := 0 |}
           (freshWorld sampleUri fourLines) [0]%nat).
  - reflexivity.
  - reflexivity.
  - exact twoBlockDiff_lineDiffOf.
  - vm_compute. lia.
Defined.

(** ** Applying a diff and the host's answer *)

(** [openDiffView] does not look at the answer of [workspace.applyEdit]
    either.  When the host refuses to write the combined buffer, the call
    still completes: the changeset with the records of the diff is stored and
    the [hasChanges] context key is set, while the document holds the text it
    had, so the records name lines of a buffer that was never written.  When
    the host fails the edit, the call fails with it and no changeset is
    stored. *)
Theorem openDiffView_ignores_refused_edit
    (diffLines : text -> text -> list Diff.Part) (data : DiffData)
    (w : World) :
  exists editor ws,
    showTextDocument (diffUri data w) w = Ok (editor, ws)
    /\ (let original := document_text editor in
        let modified :=
          normalizeEol (lineEolOf (document_eol editor)) (data_content data) in
        exists built,
          openDiffView diffLines EditRefused data w = Ok built
          /\ activeText built = Some original
          /\ changesOf built (Uri_toString (diffUri data w))
             = buildChanges (diffLines original modified)
          /\ setContext_hasChanges true ∈ effects built)
    /\ openDiffView diffLines EditThrows data w = Throw HostError ws
    /\ fileChangeMap ws = fileChangeMap w.
Proof.
  destruct (showTextDocument_diffUri data w) as (editor & ws & Hs).
  exists editor, ws. split; [done|].
  unfold openDiffView. rewrite Hs. cbn [bindR fst snd applyEdit].
  apply showTextDocument_store in Hs as (Hm & _ & Ha & _).
  split; [|by split].
  eexists. split; [reflexivity|]. split; [|split].
  - unfold activeText. simpl. by rewrite Ha.
  - unfold changesOf. simpl. by rewrite lookup_insert_eq.
  - solve_elem.
Qed.

(** ** What the editor shows after a resolution *)

Lemma shownDecorations_app key ty a b :
  shownDecorations key ty (a ++ b)
  = match shownDecorations key ty b with
    | Some ranges => Some ranges
    | None => shownDecorations key ty a
    end.
Proof.
  induction a as [|e a IH]; simpl.
  - by destruct (shownDecorations key ty b).
  - rewrite IH. by destruct (shownDecorations key ty b).
Qed.

Lemma shownDecorations_draw uri ty cs :
  shownDecorations (Uri_toString uri) ty (drawEffects uri cs)
  = Some (decorationsOf ty cs).
Proof.
  unfold drawEffects. simpl. rewrite String.eqb_refl. by destruct ty.
Qed.

Lemma changeEvents_app a b : changeEvents (a ++ b) = changeEvents a ++ changeEvents b.
Proof. apply flat_map_app. Qed.

Lemma changeEvents_draw uri cs : changeEvents (drawEffects uri cs) = [].
Proof. done. Qed.

(** The effects of [saveDocument]. *)
Lemma saveDocument_effects w e :
  activeTextEditor w = Some e ->
  exists saved,
    effects (saveDocument w) = effects w ++ saved
    /\ changeEvents saved = []
    /\ forall ty,
         shownDecorations (Uri_toString (document_uri e)) ty saved = None
         \/ shownDecorations (Uri_toString (document_uri e)) ty saved = Some [].
Proof.
  intros He. destruct (saveDocument_active w e He) as (_ & _ & ->).
  eexists. split; [reflexivity|]. destruct (document_isDirty e).
  - split; [done|]. intros ty. simpl. rewrite String.eqb_refl.
    destruct ty; auto.
  - split; [done|]. intros ty. by left.
Qed.

Lemma planEdit_effects host plan w w1 :
  planEdit host plan w = Ok w1 -> effects w1 = effects w.
Proof. intros H. by apply planEdit_store in H as (_ & -> & _). Qed.

Lemma acceptAt_effects host editor uri fc k c w w' :
  activeTextEditor w = Some editor ->
  acceptAt host editor uri fc k c w = Ok w' ->
  let cs' := renumber k (acceptNet c) (changes fc) in
  exists tail,
    effects w' = effects w ++ drawEffects (document_uri editor) cs' ++ tail
    /\ changeEvents tail
       = match cs' with
         | [] => [(accept, fsPath (document_uri editor))]
         | _ => []
         end
    /\ forall ty,
         shownDecorations (Uri_toString (document_uri editor)) ty tail = None
         \/ (cs' = []
             /\ shownDecorations (Uri_toString (document_uri editor)) ty tail
                = Some []).
Proof.
  intros He. unfold acceptAt. rewrite acceptPlan_count.
  destruct (planEdit host (acceptPlan c) w) as [w1|] eqn:Hp; [|done].
  destruct (planEdit_active _ _ _ _ _ He Hp) as (e1 & He1 & Hu1 & _).
  apply planEdit_effects in Hp. cbn [bindR drawChanges changes withChanges].
  destruct (renumber _ _ _) as [|c1 cs1] eqn:Hcs; intros Hrun.
  - injection Hrun as <-.
    match goal with
    | |- context [saveDocument ?x] =>
        destruct (saveDocument_effects x e1 He1) as (saved & Hs & Hev & Hdec)
    end.
    rewrite Hs. simpl. rewrite Hp.
    exists ([setContext_hasChanges false;
             onDidChange_fire accept (fsPath (document_uri editor))] ++ saved).
    split; [by rewrite <- !app_assoc|]. split.
    + rewrite changeEvents_app, Hev. done.
    + intros ty. rewrite shownDecorations_app. rewrite <- Hu1.
      destruct (Hdec ty) as [-> | ->]; [by left|right; done].
  - injection Hrun as <-. exists []. simpl. rewrite Hp.
    split; [done|]. split; [done|]. intros ty. by left.
Qed.

Lemma rejectAt_effects host editor uri fc k c w w' :
  activeTextEditor w = Some editor ->
  rejectAt host editor uri fc k c w = Ok w' ->
  let cs' := renumber k (rejectNet c) (changes fc) in
  exists tail,
    effects w' = effects w ++ drawEffects (document_uri editor) cs' ++ tail
    /\ changeEvents tail
       = match cs' with
         | [] => [(reject, fsPath (document_uri editor))]
         | _ => []
         end
    /\ forall ty,
         shownDecorations (Uri_toString (document_uri editor)) ty tail = None
         \/ (cs' = []
             /\ shownDecorations (Uri_toString (document_uri editor)) ty tail
                = Some []).
Proof.
  intros He. unfold rejectAt. rewrite rejectPlan_count.
  destruct (planEdit host (rejectPlan c) w) as [w1|] eqn:Hp; [|done].
  destruct (planEdit_active _ _ _ _ _ He Hp) as (e1 & He1 & Hu1 & _).
  apply planEdit_effects in Hp. cbn [bindR drawChanges changes withChanges].
  destruct (renumber _ _ _) as [|c1 cs1] eqn:Hcs; intros Hrun.
  - destruct (String.eqb _ _); injection Hrun as <-.
    + match goal with
      | |- context [saveDocument ?x] =>
          destruct (saveDocument_effects x e1 He1) as (saved & Hs & Hev & Hdec)
      end.
      rewrite Hs. simpl. rewrite Hp.
      exists ([setContext_hasChanges false;
               onDidChange_fire reject (fsPath (document_uri editor))]
                ++ saved).
      split; [by rewrite <- !app_assoc|]. split.
      * rewrite changeEvents_app, Hev. done.
      * intros ty. rewrite shownDecorations_app. rewrite <- Hu1.
        destruct (Hdec ty) as [-> | ->]; [by left|right; done].
    + simpl. rewrite Hp.
      exists [setContext_hasChanges false;
              onDidChange_fire reject (fsPath (document_uri editor));
              closeActiveEditor].
      split; [by rewrite <- !app_assoc|]. split; [done|].
      intros ty. by left.
  - injection Hrun as <-. exists []. simpl. rewrite Hp.
    split; [done|]. split; [done|]. intros ty. by left.
Qed.

(** After a single accept or reject the editor shows the records that are
    still pending, and nothing else: the last decorations set for deletions,
    insertions and the hover box are those of the change list as it is now
    (none once it is empty).  And [onDidChange] is fired for the file, not
    for the record: one accept, respectively reject, event when the
    resolution empties the list, and no event otherwise. *)
Theorem single_resolution_redraws_pending_records
    (host : EditOutcome) (uri : string) (i : option Z) (w : World)
    (editor : TextEditor) (fc : FileChange) (k : nat) (c : Change) :
  activeTextEditor w = Some editor ->
  Uri_toString (document_uri editor) = uri ->
  fileChangeMap w !! uri = Some fc ->
  targetIndex i editor fc = Some (Z.of_nat k) ->
  changes fc !! k = Some c ->
  host <> EditThrows ->
  (exists w' new,
     acceptChange host uri i w = Ok w'
     /\ effects w' = effects w ++ new
     /\ (forall ty, shownDecorations uri ty (effects w')
                    = Some (decorationsOf ty (changesOf w' uri)))
     /\ changeEvents new
        = match changesOf w' uri with
          | [] => [(accept, fsPath (document_uri editor))]
          | _ => []
          end)
  /\ (exists w' new,
        rejectChange host uri i w = Ok w'
        /\ effects w' = effects w ++ new
        /\ (forall ty, shownDecorations uri ty (effects w')
                       = Some (decorationsOf ty (changesOf w' uri)))
        /\ changeEvents new
           = match changesOf w' uri with
             | [] => [(reject, fsPath (document_uri editor))]
             | _ => []
             end).
Proof.
  intros He Hu Hfc Ht Hk Hh.
  rewrite (acceptChange_located _ _ _ _ _ _ k c He Hu Hfc Ht Hk).
  rewrite (rejectChange_located _ _ _ _ _ _ k c He Hu Hfc Ht Hk).
  split.
  - destruct (acceptAt_ok host editor uri fc k c w Hh) as [w' Hw'].
    destruct (acceptAt_effects _ _ _ _ _ _ _ _ He Hw')
      as (tail & Hef & Hev & Hdec).
    pose proof (acceptAt_store _ _ _ _ _ _ _ _ Hw') as Hst.
    pose proof (changesOf_storeAfter _ _ _ _ _ uri Hst) as Hcs.
    rewrite decide_True in Hcs by done.
    eexists w', _. split; [done|]. split; [exact Hef|]. rewrite Hcs.
    split.
    + intros ty. rewrite Hef, !shownDecorations_app, <- Hu.
      rewrite shownDecorations_draw.
      destruct (Hdec ty) as [-> |[Hnil ->]]; [done|].
      rewrite Hnil. by destruct ty.
    + by rewrite changeEvents_app, changeEvents_draw, Hev.
  - destruct (rejectAt_ok host editor uri fc k c w Hh) as [w' Hw'].
    destruct (rejectAt_effects _ _ _ _ _ _ _ _ He Hw')
      as (tail & Hef & Hev & Hdec).
    pose proof (rejectAt_store _ _ _ _ _ _ _ _ Hw') as Hst.
    pose proof (changesOf_storeAfter _ _ _ _ _ uri Hst) as Hcs.
    rewrite decide_True in Hcs by done.
    eexists w', _. split; [done|]. split; [exact Hef|]. rewrite Hcs.
    split.
    + intros ty. rewrite Hef, !shownDecorations_app, <- Hu.
      rewrite shownDecorations_draw.
      destruct (Hdec ty) as [-> |[Hnil ->]]; [done|].
      rewrite Hnil. by destruct ty.
    + by rewrite changeEvents_app, changeEvents_draw, Hev.
Qed.

Lemma single_resolution_redraws_pending_records_witness :
  exists w',
    acceptChange EditApplied (Uri_toString sampleUri) (Some 0) threeChangesWorld
    = Ok w'
    /\ shownDecorations (Uri_toString sampleUri) insertionDecorationType
         (effects w')
       = Some [Range4 5 0 6 0].
Proof.
  destruct (single_resolution_redraws_pending_records EditApplied
              (Uri_toString sampleUri) (Some 0) threeChangesWorld
              (editorOf sampleUri (concat (replicate 20 (ln "x"))))
              {| originalContent := concat (replicate 20 (ln "x"));
                 modifiedContent := concat (replicate 20 (ln "x"));
                 changes := threeChanges |}
              0%nat
              (Removed {| line := 2; count := 3;
                          value := ln "x" ++ ln "x" ++ ln "x" |}))
    as [(w' & new & Hrun & _ & Hshown & _) _].
  - reflexivity.
  - reflexivity.
  - reflexivity.
  - reflexivity.
  - reflexivity.
  - discriminate.
  - exists w'. split; [exact Hrun|].
    rewrite (Hshown insertionDecorationType).
    revert Hrun. vm_compute. intros [= <-]. reflexivity.
Defined.

Lemma shown_after_clear key ty a cleared b :
  shownDecorations key ty cleared = Some [] ->
  shownDecorations key ty b = None \/ shownDecorations key ty b = Some [] ->
  shownDecorations key ty (a ++ cleared ++ b) = Some [].
Proof.
  intros Hc Hb. rewrite !shownDecorations_app.
  destruct Hb as [-> | ->]; [by rewrite Hc|done].
Qed.

(** After a bulk accept or reject of the active document that the host does
    not fail, the editor shows no decoration of the review any more: the last
    ranges set for deletions, insertions and the hover box are empty; and
    exactly one accept, respectively reject, event has been fired for the
    document's path. *)
Theorem bulk_resolution_clears_decorations
    (host : EditOutcome) (uri : Uri) (w : World) (editor : TextEditor)
    (fc : FileChange) :
  activeTextEditor w = Some editor ->
  document_uri editor = uri ->
  fileChangeMap w !! Uri_toString uri = Some fc ->
  host <> EditThrows ->
  (exists w' new,
     acceptAllChanges host uri w = Ok w'
     /\ effects w' = effects w ++ new
     /\ (forall ty, shownDecorations (Uri_toString uri) ty (effects w')
                    = Some [])
     /\ changeEvents new = [(accept, fsPath uri)])
  /\ (exists w' new,
        rejectAllChanges host uri w = Ok w'
        /\ effects w' = effects w ++ new
        /\ (forall ty, shownDecorations (Uri_toString uri) ty (effects w')
                       = Some [])
        /\ changeEvents new = [(reject, fsPath uri)]).
Proof.
  intros He Hu Hfc Hh.
  assert (Hclear : forall ty,
            shownDecorations (Uri_toString uri) ty (clearDecorations uri)
            = Some []).
  { intros ty. unfold clearDecorations. simpl. rewrite String.eqb_refl.
    by destruct ty. }
  unfold acceptAllChanges, rejectAllChanges. rewrite Hfc.
  rewrite (showTextDocument_same _ _ _ He Hu). cbn [bindR fst snd].
  split.
  - destruct (applyEdit_ok host (flat_map acceptDelete (reverse (changes fc)))
                w Hh) as [w1 Hp]. rewrite Hp. cbn [bindR].
    destruct (applyEdit_active _ _ _ _ _ He Hp) as (e1 & He1 & Hu1 & _).
    pose proof (applyEdit_store _ _ _ _ Hp) as (_ & Hef & _). simpl in Hef.
    match goal with
    | |- context [saveDocument ?x] =>
        destruct (saveDocument_effects x e1 He1) as (saved & Hs & Hev & Hdec)
    end.
    eexists _, _. split; [reflexivity|]. cbn [effects emit]. rewrite Hs.
    cbn [effects emit withStore]. rewrite Hef, Hu, <- !app_assoc.
    split; [reflexivity|]. split.
    + intros ty. rewrite Hu1, Hu in Hdec.
      rewrite (app_assoc (effects w)).
      apply shown_after_clear; [apply Hclear|].
      rewrite !shownDecorations_app. simpl.
      destruct (Hdec ty) as [-> | ->]; auto.
    + rewrite !changeEvents_app, Hev. done.
  - destruct (applyEdit_ok host (flat_map rejectDelete (reverse (changes fc)))
                w Hh) as [w1 Hp]. rewrite Hp. cbn [bindR].
    destruct (applyEdit_active _ _ _ _ _ He Hp) as (e1 & He1 & Hu1 & _).
    pose proof (applyEdit_store _ _ _ _ Hp) as (_ & Hef & _). simpl in Hef.
    rewrite Hu. destruct (String.eqb (scheme uri) "file").
    + match goal with
      | |- context [saveDocument ?x] =>
          destruct (saveDocument_effects x e1 He1) as (saved & Hs & Hev & Hdec)
      end.
      eexists _, _. split; [reflexivity|]. cbn [effects emit]. rewrite Hs.
      cbn [effects emit withStore]. rewrite Hef, <- !app_assoc.
      split; [reflexivity|]. split.
      * intros ty. rewrite Hu1, Hu in Hdec.
        rewrite (app_assoc (effects w)).
        apply shown_after_clear; [apply Hclear|].
        rewrite !shownDecorations_app. simpl.
        destruct (Hdec ty) as [-> | ->]; auto.
      * rewrite !changeEvents_app, Hev. done.
    + eexists _, _. split; [reflexivity|].
      cbn [effects emit withStore closeEditor withActive].
      rewrite Hef, <- !app_assoc. split; [reflexivity|]. split; [|done].
      intros ty. rewrite (app_assoc (effects w)).
      apply shown_after_clear; [apply Hclear|]. by left.
Qed.

Lemma bulk_resolution_clears_decorations_witness :
  exists w',
    rejectAllChanges EditApplied sampleUri threeChangesWorld = Ok w'
    /\ shownDecorations (Uri_toString sampleUri) deletionDecorationType
         (effects w') = Some [].
Proof.
  destruct (bulk_resolution_clears_decorations EditApplied sampleUri
              threeChangesWorld
              (editorOf sampleUri (concat (replicate 20 (ln "x"))))
              {| originalContent := concat (replicate 20 (ln "x"));
                 modifiedContent := concat (replicate 20 (ln "x"));
                 changes := threeChanges |})
    as [_ (w' & new & Hrun & _ & Hshown & _)];
    [reflexivity|reflexivity|reflexivity|discriminate|].
  exists w'. split; [exact Hrun|]. apply Hshown.
Defined.

(** ** Coordinate integrity throughout a review *)

Lemma acceptAt_addresses editor uri fc k c w :
  activeTextEditor w = Some editor ->
  changes fc !! k = Some c ->
  ordered (changes fc) ->
  Forall (addresses (document_text editor)) (changes fc) ->
  exists w' e',
    acceptAt EditApplied editor uri fc k c w = Ok w'
    /\ activeTextEditor w' = Some e'
    /\ document_uri e' = document_uri editor
    /\ Forall (addresses (document_text e'))
              (renumber k (acceptNet c) (changes fc)).
Proof.
  intros He Hk Hord Hall.
  pose proof Hall as Hallc. rewrite Forall_lookup in Hallc.
  destruct (Hallc k c Hk) as (Hwc & pre & rest & Hdoc & Hpre).
  destruct (acceptAt_text editor uri fc k c w pre rest He Hdoc Hpre Hwc)
    as (w' & e' & Hw' & He' & Ht' & Hu').
  exists w', e'. do 3 (split; [done|]). rewrite Ht'.
  eapply renumber_addresses; [done..| |].
  - by apply acceptedText_whole.
  - by apply acceptNet_lines.
Qed.

Lemma rejectAt_addresses editor uri fc k c w :
  activeTextEditor w = Some editor ->
  changes fc !! k = Some c ->
  ordered (changes fc) ->
  Forall (addresses (document_text editor)) (changes fc) ->
  exists w',
    rejectAt EditApplied editor uri fc k c w = Ok w'
    /\ match activeTextEditor w' with
       | Some e' =>
           document_uri e' = document_uri editor
           /\ Forall (addresses (document_text e'))
                     (renumber k (rejectNet c) (changes fc))
       | None => renumber k (rejectNet c) (changes fc) = []
       end.
Proof.
  intros He Hk Hord Hall.
  pose proof Hall as Hallc. rewrite Forall_lookup in Hallc.
  destruct (Hallc k c Hk) as (Hwc & pre & rest & Hdoc & Hpre).
  destruct (rejectAt_text editor uri fc k c w pre rest He Hdoc Hpre Hwc)
    as (w' & Hw' & Hcase).
  exists w'. split; [done|].
  destruct (bool_decide _ && _) eqn:Hb.
  - rewrite Hcase. apply andb_prop in Hb as [Hb _].
    by apply bool_decide_eq_true_1 in Hb.
  - destruct Hcase as (e' & -> & Ht' & Hu'). split; [done|]. rewrite Ht'.
    eapply renumber_addresses; [done..| |].
    + by apply rejectedText_whole.
    + by apply rejectNet_lines.
Qed.

Lemma reviewSound_other key w w' :
  reviewSound key w ->
  changesOf w' key = changesOf w key ->
  changesOf w key = [] ->
  reviewSound key w'.
Proof.
  intros [Hwf _] Hsame Hnil. split; [by rewrite Hsame|].
  rewrite Hsame, Hnil. by destruct (activeTextEditor w').
Qed.

Lemma reviewSound_accept key uri i w :
  reviewSound key w ->
  reviewSound key (after (acceptChange EditApplied uri i w)).
Proof.
  intros Hs.
  pose proof (acceptChange_wellFormed EditApplied uri i w key (proj1 Hs))
    as Hwf'.
  destruct (acceptChange_inv EditApplied uri i w _ eq_refl)
    as [->|[->|(editor & fc & index & k & c & He & Hu & Hfc & Ht & Ha & Hr)]];
    [done..|].
  rewrite Hr in *. apply atIndex_lookup in Ha as [Hk _].
  destruct Hs as [Hwf Hed]. rewrite He in Hed.
  destruct (decide (key = uri)) as [->|Hne].
  - assert (Hcs : changesOf w uri = changes fc).
    { unfold changesOf. by rewrite Hfc. }
    rewrite Hcs in Hed, Hwf.
    destruct Hed as [_ Hall]; [by intros Hnil; rewrite Hnil in Hk|].
    destruct (acceptAt_addresses editor uri fc k c w He Hk (proj2 Hwf) Hall)
      as (w' & e' & Hw' & He' & Hu' & Hall').
    rewrite Hw' in *. simpl in *. split; [done|]. rewrite He'.
    apply acceptAt_store in Hw'.
    rewrite (changesOf_storeAfter _ _ _ _ _ uri Hw'), decide_True by done.
    intros _. split; [congruence|done].
  - destruct (acceptAt_ok EditApplied editor uri fc k c w) as [w' Hw'];
      [done|].
    rewrite Hw' in *. simpl in *.
    pose proof (acceptAt_store _ _ _ _ _ _ _ _ Hw') as Hst.
    pose proof (changesOf_storeAfter _ _ _ _ _ key Hst) as Hsame.
    rewrite decide_False in Hsame by done.
    apply (reviewSound_other key w); [|done|].
    + split; [done|]. by rewrite He.
    + destruct (changesOf w key) eqn:Hcs; [done|].
      destruct Hed as [Hkey _]; [done|]. congruence.
Qed.

Lemma reviewSound_reject key uri i w :
  reviewSound key w ->
  reviewSound key (after (rejectChange EditApplied uri i w)).
Proof.
  intros Hs.
  pose proof (rejectChange_wellFormed EditApplied uri i w key (proj1 Hs))
    as Hwf'.
  destruct (rejectChange_inv EditApplied uri i w _ eq_refl)
    as [->|[->|(editor & fc & index & k & c & He & Hu & Hfc & Ht & Ha & Hr)]];
    [done..|].
  rewrite Hr in *. apply atIndex_lookup in Ha as [Hk _].
  destruct Hs as [Hwf Hed]. rewrite He in Hed.
  destruct (decide (key = uri)) as [->|Hne].
  - assert (Hcs : changesOf w uri = changes fc).
    { unfold changesOf. by rewrite Hfc. }
    rewrite Hcs in Hed, Hwf.
    destruct Hed as [_ Hall]; [by intros Hnil; rewrite Hnil in Hk|].
    destruct (rejectAt_addresses editor uri fc k c w He Hk (proj2 Hwf) Hall)
      as (w' & Hw' & Hcase).
    rewrite Hw' in *. simpl in *. split; [done|].
    apply rejectAt_store in Hw'.
    rewrite (changesOf_storeAfter _ _ _ _ _ uri Hw'), decide_True by done.
    destruct (activeTextEditor w') as [e'|]; [|done].
    destruct Hcase as [Hu' Hall']. intros _. split; [congruence|done].
  - destruct (rejectAt_ok EditApplied editor uri fc k c w) as [w' Hw'];
      [done|].
    rewrite Hw' in *. simpl in *.
    pose proof (rejectAt_store _ _ _ _ _ _ _ _ Hw') as Hst.
    pose proof (changesOf_storeAfter _ _ _ _ _ key Hst) as Hsame.
    rewrite decide_False in Hsame by done.
    apply (reviewSound_other key w); [|done|].
    + split; [done|]. by rewrite He.
    + destruct (changesOf w key) eqn:Hcs; [done|].
      destruct Hed as [Hkey _]; [done|]. congruence.
Qed.

Lemma reviewSound_steps key cmds : forall w,
  Forall appliedSingle cmds ->
  reviewSound key w -> reviewSound key (foldl step w cmds).
Proof.
  induction cmds as [|cmd cmds IH]; intros w Hall Hs; [done|].
  apply Forall_cons in Hall as [Hc Hall]. simpl. apply IH; [done|].
  unfold step. destruct cmd as [| [] | [] | |]; simpl in Hc; try done.
  - by apply reviewSound_accept.
  - by apply reviewSound_reject.
Qed.

(** Coordinate integrity throughout a review.  After a diff whose parts are
    whole lines, at least one line for every added and removed part, has been
    applied, any sequence of single accepts and rejects whose edits the host
    applies (for any document, by explicit index or by the cursor, with
    indices in the list or not) leaves the change list of the document
    ordered and every record still pending addressing its own text in the
    document; the editor is gone only when no record is left. *)
Theorem coordinate_integrity_throughout_review
    (diffLines : text -> text -> list Diff.Part) (data : DiffData)
    (w : World) (editor : TextEditor) (ws : World) (cmds : list Command) :
  showTextDocument (diffUri data w) w = Ok (editor, ws) ->
  document_uri editor = diffUri data w ->
  let original := document_text editor in
  let modified :=
    normalizeEol (lineEolOf (document_eol editor)) (data_content data) in
  Forall (fun p => wholeLinesText (Diff.count p) (Diff.value p))
         (diffLines original modified) ->
  positiveParts (diffLines original modified) ->
  Forall appliedSingle cmds ->
  let key := Uri_toString (diffUri data w) in
  let final :=
    foldl step (after (openDiffView diffLines EditApplied data w)) cmds in
  ordered (changesOf final key)
  /\ match activeTextEditor final with
     | Some e => Forall (addresses (document_text e)) (changesOf final key)
     | None => changesOf final key = []
     end.
Proof.
  intros Hshow Huri original modified Hwhole Hpos Hcmds key final.
  destruct (openDiffView_built diffLines data w editor ws Hshow)
    as (b & e1 & Hb & He1 & Ht1 & Hu1 & Hcs & _).
  fold original modified in Ht1, Hcs.
  assert (Hsound : reviewSound key b).
  { split.
    - unfold key. rewrite Hcs. by apply buildChanges_wellFormed.
    - rewrite He1. intros _. split; [unfold key; congruence|].
      unfold key. rewrite Hcs, Ht1, buildChanges_spec, buildContent_concat.
      apply Forall_forall. intros c Hc.
      by apply (specRecords_addresses _ [] 0 false eq_refl eq_refl Hwhole). }
  assert (Hfinal : reviewSound key final).
  { unfold final. rewrite Hb. simpl. by apply reviewSound_steps. }
  destruct Hfinal as [[_ Hord] Hed]. split; [done|].
  destruct (activeTextEditor final) as [e|]; [|done].
  destruct (changesOf final key) eqn:Hnil; [constructor|].
  by apply Hed.
Qed.

Lemma coordinate_integrity_throughout_review_witness :
  let final :=
    foldl step
      (after (openDiffView twoBlockDiff EditApplied
                (dataFor sampleUri fourLinesProposal)
                (freshWorld sampleUri fourLines)))
      [ RejectChange EditApplied (Uri_toString sampleUri) (Some 0);
        AcceptChange EditApplied (Uri_toString sampleUri) None ] in
  ordered (changesOf final (Uri_toString sampleUri))
  /\ match activeTextEditor final with
     | Some e =>
         Forall (addresses (document_text e))
                (changesOf final (Uri_toString sampleUri))
     | None => changesOf final (Uri_toString sampleUri) = []
     end.
Proof.
  apply (coordinate_integrity_throughout_review twoBlockDiff
           (dataFor sampleUri fourLinesProposal)
           (freshWorld sampleUri fourLines)
           {| document_uri := sampleUri; document_text := fourLines;
              document_isDirty := false; document_eol := EOL_LF;
              selection_line := 0 |}
           (freshWorld sampleUri fourLines)
           [ RejectChange EditApplied (Uri_toString sampleUri) (Some 0);
             AcceptChange EditApplied (Uri_toString sampleUri) None ]).
  - reflexivity.
  - reflexivity.
  - repeat constructor.
  - repeat constructor; unfold positivePart; simpl; lia.
  - repeat constructor.
Defined.
